(** * Fuel Tracker Israel: the price-update and alert pipeline, and the
      station / user routes

    A shallow embedding of
      - [server/cron/scheduler.js]  (scrapeFuelPrices, checkPriceAlerts,
        sendPriceAlertEmail),
      - [server/routes/stations.js] (GET and PUT /api/stations/:id),
      - [server/routes/users.js]    (favorites and alerts routes),
      - the Mongoose schemas of Station and User.

    Conventions of the embedding.
      - A JavaScript number that holds a price is a rational [Q]; an absent
        ([undefined]) field is [None].  The truthiness test of the source
        ([if (x?.price)], [currentPrice && ...]) passes when the field is
        present and not zero.  Comparisons and [Math.max] are exact on
        numbers; the [+], [-] and [*] of the Price Mutator, which round in
        JavaScript, are the operations of an [Arith], a parameter of its
        definitions.  [exactQ] is the arithmetic that does not round.
      - An ObjectId is the string of its 24 hexadecimal digits in lower
        case ([Id]); what a request carries is a [string].  Where Mongoose
        casts a request string to an ObjectId ([findById], [push] on an
        array of ObjectIds, a sub-document's [stationId],
        [DocumentArray.id]) the embedding casts with [castObjectId]; where
        the source compares [toString()] of a stored id with the request
        string ([includes], [===], [!==]) it compares the strings.
      - A [Date] is its time value, an integer count of milliseconds.
      - Every read of the wall clock ([new Date()], [Date.now()]), every call
        of [Math.random()], every store operation and every mail send consults
        an oracle of the environment [Env], indexed by the number of earlier
        consultations, which the world counts.
      - [async] functions run to completion one after the other; an awaited
        rejection is a thrown exception ([Throw]). *)

From Stdlib Require Import ZArith QArith Qminmax List String Bool Lia Lqa Ascii.
Import ListNotations.

Open Scope string_scope.
Open Scope list_scope.
Open Scope Z_scope.

(** ** Data model (models/Station.js, models/User.js) *)

Definition Id := string.
Definition Date := Z.

Inductive FuelType := Gasoline95 | Gasoline98 | Diesel.

Definition FuelType_eqb (a b : FuelType) : bool :=
  match a, b with
  | Gasoline95, Gasoline95 | Gasoline98, Gasoline98 | Diesel, Diesel => true
  | _, _ => false
  end.

(** The schema key of a fuel type, and the fuel type a key names. *)
Definition fuelKey (f : FuelType) : string :=
  match f with
  | Gasoline95 => "gasoline95"
  | Gasoline98 => "gasoline98"
  | Diesel => "diesel"
  end.

Definition fuelOfKey (k : string) : option FuelType :=
  if String.eqb k "gasoline95" then Some Gasoline95
  else if String.eqb k "gasoline98" then Some Gasoline98
  else if String.eqb k "diesel" then Some Diesel
  else None.

(** [fuelTypes.<key>: { price: Number, lastUpdated: Date }], both optional. *)
Record FuelEntry := mkFuelEntry {
  price : option Q;
  lastUpdated : option Date
}.

Record FuelTypes := mkFuelTypes {
  gasoline95 : FuelEntry;
  gasoline98 : FuelEntry;
  diesel : FuelEntry
}.

(** [fuelTypes[key]] *)
Definition getFuel (ft : FuelTypes) (f : FuelType) : FuelEntry :=
  match f with
  | Gasoline95 => gasoline95 ft
  | Gasoline98 => gasoline98 ft
  | Diesel => diesel ft
  end.

(** [fuelTypes[key] = e] *)
Definition setFuel (ft : FuelTypes) (f : FuelType) (e : FuelEntry) : FuelTypes :=
  match f with
  | Gasoline95 => mkFuelTypes e (gasoline98 ft) (diesel ft)
  | Gasoline98 => mkFuelTypes (gasoline95 ft) e (diesel ft)
  | Diesel => mkFuelTypes (gasoline95 ft) (gasoline98 ft) e
  end.

(** The fields of a station that the modelled code reads or writes; city,
    coordinates, brand, opening hours and services are carried by no modelled
    operation. *)
Module Station.
Record t := mk {
  _id : Id;
  name : string;
  address : string;
  isActive : bool;
  fuelTypes : FuelTypes;
  lastScraped : Date
}.

Definition with_fuelTypes (s : t) (ft : FuelTypes) : t :=
  mk (_id s) (name s) (address s) (isActive s) ft (lastScraped s).

Definition with_lastScraped (s : t) (d : Date) : t :=
  mk (_id s) (name s) (address s) (isActive s) (fuelTypes s) d.
End Station.

Module Alert.
Record t := mk {
  _id : Id;
  stationId : Id;
  fuelType : FuelType;
  targetPrice : Q;
  isActive : bool;
  lastTriggered : option Date
}.

Definition with_lastTriggered (a : t) (d : option Date) : t :=
  mk (_id a) (stationId a) (fuelType a) (targetPrice a) (isActive a) d.

Definition with_targetPrice (a : t) (p : Q) : t :=
  mk (_id a) (stationId a) (fuelType a) p (isActive a) (lastTriggered a).

Definition with_isActive (a : t) (b : bool) : t :=
  mk (_id a) (stationId a) (fuelType a) (targetPrice a) b (lastTriggered a).
End Alert.

Module User.
Record t := mk {
  _id : Id;
  email : string;
  firstName : string;
  favoriteStations : list Id;
  priceAlerts : list Alert.t;
  emailNotifications : bool        (* preferences.emailNotifications *)
}.

Definition with_priceAlerts (u : t) (l : list Alert.t) : t :=
  mk (_id u) (email u) (firstName u) (favoriteStations u) l
     (emailNotifications u).

Definition with_favoriteStations (u : t) (l : list Id) : t :=
  mk (_id u) (email u) (firstName u) l (priceAlerts u)
     (emailNotifications u).
End User.

(** ** The world, the environment and the monad of effects *)

Inductive Exn :=
| StoreError                      (* a rejected store operation *)
| CastError (value : string)      (* a string that is no ObjectId *)
| MailError                       (* a rejected transporter.sendMail *)
| ReferenceError (x : string)     (* x is not defined *)
| TypeError (what : string).      (* property read on null/undefined *)

(** One entry of a triggered-alert batch (scheduler.js, lines 149-155). *)
Record TriggeredAlert := mkTriggered {
  stationName : string;
  stationAddress : string;
  tFuelType : FuelType;
  currentPrice : Q;
  tTargetPrice : Q
}.

(** What [sendPriceAlertEmail] hands to the transport: the recipient, the
    name greeted and the alerts enumerated in the body. *)
Record Mail := mkMail {
  mailTo : string;
  mailGreeting : string;
  mailAlerts : list TriggeredAlert
}.

Inductive LogLine :=
| Log (msg : string)
| LogN (msg : string) (n : nat)
| LogS (msg : string) (s : string)
| LogErr (msg : string) (e : Exn).

Record World := mkWorld {
  stations : list Station.t;      (* the Station collection *)
  users : list User.t;            (* the User collection *)
  console : list LogLine;         (* console.log / console.error, in order *)
  outbox : list Mail;             (* mails accepted by the transport *)
  nClock : nat;                   (* clock reads so far *)
  nRandom : nat;                  (* Math.random() calls so far *)
  nStore : nat;                   (* store operations so far *)
  nMail : nat;                    (* sendMail calls so far *)
  nIds : nat                      (* ObjectIds generated so far *)
}.

Record Env := mkEnv {
  clock : nat -> Date;            (* the k-th clock read *)
  random : nat -> Q;              (* the k-th Math.random() *)
  storeFails : nat -> bool;       (* the k-th store operation rejects *)
  mailFails : nat -> bool;        (* the k-th sendMail rejects *)
  objectId : nat -> Id            (* the k-th generated ObjectId *)
}.

Definition with_stations (w : World) (l : list Station.t) : World :=
  mkWorld l (users w) (console w) (outbox w)
          (nClock w) (nRandom w) (nStore w) (nMail w) (nIds w).

Definition with_users (w : World) (l : list User.t) : World :=
  mkWorld (stations w) l (console w) (outbox w)
          (nClock w) (nRandom w) (nStore w) (nMail w) (nIds w).

Definition with_console (w : World) (l : list LogLine) : World :=
  mkWorld (stations w) (users w) l (outbox w)
          (nClock w) (nRandom w) (nStore w) (nMail w) (nIds w).

Definition with_outbox (w : World) (l : list Mail) : World :=
  mkWorld (stations w) (users w) (console w) l
          (nClock w) (nRandom w) (nStore w) (nMail w) (nIds w).

Definition tickClock (w : World) : World :=
  mkWorld (stations w) (users w) (console w) (outbox w)
          (S (nClock w)) (nRandom w) (nStore w) (nMail w) (nIds w).

Definition tickRandom (w : World) : World :=
  mkWorld (stations w) (users w) (console w) (outbox w)
          (nClock w) (S (nRandom w)) (nStore w) (nMail w) (nIds w).

Definition tickStore (w : World) : World :=
  mkWorld (stations w) (users w) (console w) (outbox w)
          (nClock w) (nRandom w) (S (nStore w)) (nMail w) (nIds w).

Definition tickMail (w : World) : World :=
  mkWorld (stations w) (users w) (console w) (outbox w)
          (nClock w) (nRandom w) (nStore w) (S (nMail w)) (nIds w).

Definition tickIds (w : World) : World :=
  mkWorld (stations w) (users w) (console w) (outbox w)
          (nClock w) (nRandom w) (nStore w) (nMail w) (S (nIds w)).

Inductive Result (A : Type) :=
| Ok (a : A)
| Throw (e : Exn).
Arguments Ok {A} a.
Arguments Throw {A} e.

Definition M (A : Type) := World -> Result A * World.

Definition ret {A} (a : A) : M A := fun w => (Ok a, w).

Definition bind {A B} (m : M A) (k : A -> M B) : M B :=
  fun w => match m w with
           | (Ok a, w') => k a w'
           | (Throw e, w') => (Throw e, w')
           end.

Definition throw {A} (e : Exn) : M A := fun w => (Throw e, w).

(** [try { m } catch (error) { h error }] *)
Definition tryCatch {A} (m : M A) (h : Exn -> M A) : M A :=
  fun w => match m w with
           | (Ok a, w') => (Ok a, w')
           | (Throw e, w') => h e w'
           end.

Declare Scope js_scope.
Delimit Scope js_scope with js.
Notation "x <- m ;; k" := (bind m (fun x => k))
  (at level 61, m at next level, right associativity) : js_scope.
Notation "m ;;; k" := (bind m (fun _ => k))
  (at level 61, right associativity) : js_scope.
Open Scope js_scope.

(** [for (const x of xs) { body x }] *)
Fixpoint forOf {A} (xs : list A) (body : A -> M unit) : M unit :=
  match xs with
  | [] => ret tt
  | x :: xs' => body x ;;; forOf xs' body
  end.

Definition consoleLog (l : LogLine) : M unit :=
  fun w => (Ok tt, with_console w (console w ++ [l])).

Definition getStations : M (list Station.t) := fun w => (Ok (stations w), w).
Definition getUsers : M (list User.t) := fun w => (Ok (users w), w).
Definition setStations (l : list Station.t) : M unit :=
  fun w => (Ok tt, with_stations w l).
Definition setUsers (l : list User.t) : M unit :=
  fun w => (Ok tt, with_users w l).

(** ** The stores (Mongoose models Station and User) *)

(** *** ObjectIds

    An [Id] is the string of an ObjectId as [toString()] gives it: 24
    hexadecimal digits, the letters in lower case.  A string that comes from
    a request is cast wherever Mongoose expects an ObjectId (the argument of
    [findById], of [DocumentArray.id], a value pushed to a path of type
    ObjectId): 24 hexadecimal digits in either case give the ObjectId they
    spell; any other string is no ObjectId.  (Older versions of the driver
    also accept the 12 bytes of a string of 12 characters; the statements
    about strings that do not cast leave such strings out.) *)
Definition isHexDigit (c : ascii) : bool :=
  let n := nat_of_ascii c in
  ((48 <=? n) && (n <=? 57) || (97 <=? n) && (n <=? 102)
   || (65 <=? n) && (n <=? 70))%nat.

Definition lowerHexDigit (c : ascii) : ascii :=
  let n := nat_of_ascii c in
  if ((65 <=? n) && (n <=? 70))%nat then ascii_of_nat (n + 32) else c.

Fixpoint lowerHex (s : string) : string :=
  match s with
  | EmptyString => EmptyString
  | String c rest => String (lowerHexDigit c) (lowerHex rest)
  end.

Definition castObjectId (s : string) : option Id :=
  if (String.length s =? 24)%nat && forallb isHexDigit (list_ascii_of_string s)
  then Some (lowerHex s)
  else None.

Definition findStation (id : Id) (l : list Station.t) : option Station.t :=
  find (fun s => String.eqb (Station._id s) id) l.

Definition findUser (id : Id) (l : list User.t) : option User.t :=
  find (fun u => String.eqb (User._id u) id) l.

(** [doc.save()] writes the document over the stored one with its [_id]. *)
Definition replaceStation (s : Station.t) (l : list Station.t) : list Station.t :=
  map (fun x => if String.eqb (Station._id x) (Station._id s) then s else x) l.

Definition replaceUser (u : User.t) (l : list User.t) : list User.t :=
  map (fun x => if String.eqb (User._id x) (User._id u) then u else x) l.

(** A price alert whose [stationId] path has been populated: the alert and
    the station document its reference resolves to, if any. *)
Definition PopAlert := (Alert.t * option Station.t)%type.

Definition populate (sts : list Station.t) (u : User.t) : list PopAlert :=
  map (fun a => (a, findStation (Alert.stationId a) sts)) (User.priceAlerts u).

Definition hasActiveAlert (u : User.t) : bool :=
  existsb Alert.isActive (User.priceAlerts u).

Section Effects.
Variable env : Env.

(** [new Date()] and [Date.now()] *)
Definition now : M Date :=
  fun w => (Ok (clock env (nClock w)), tickClock w).

(** [Math.random()] *)
Definition mathRandom : M Q :=
  fun w => (Ok (random env (nRandom w)), tickRandom w).

(** The [_id] Mongoose gives a new subdocument. *)
Definition newObjectId : M Id :=
  fun w => (Ok (objectId env (nIds w)), tickIds w).

(** Every store operation first asks the oracle whether it rejects: the
    store is unreachable or a validation of the schema fails. *)
Definition storeOp : M unit :=
  fun w => if storeFails env (nStore w)
           then (Throw StoreError, tickStore w)
           else (Ok tt, tickStore w).

(** [Station.find({ isActive: true })] *)
Definition Station_find_active : M (list Station.t) :=
  storeOp ;;; sts <- getStations ;; ret (filter Station.isActive sts).

(** The cast of a request string where an ObjectId is expected: a
    [CastError] when the string is none. *)
Definition castId (s : string) : M Id :=
  match castObjectId s with
  | Some oid => ret oid
  | None => throw (CastError s)
  end.

(** [Station.findById(id)] with the string of a request: the query casts
    the string before anything is sent to the store. *)
Definition Station_findById (id : string) : M (option Station.t) :=
  oid <- castId id ;;
  storeOp ;;; sts <- getStations ;; ret (findStation oid sts).

(** [station.save()] *)
Definition Station_save (s : Station.t) : M unit :=
  storeOp ;;; sts <- getStations ;; setStations (replaceStation s sts).

(** [User.findById(id)] with an id that the [auth] middleware has set *)
Definition User_findById (id : Id) : M (option User.t) :=
  storeOp ;;; us <- getUsers ;; ret (findUser id us).

(** [user.save()] *)
Definition User_save (u : User.t) : M unit :=
  storeOp ;;; us <- getUsers ;; setUsers (replaceUser u us).

(** [User.find({ 'priceAlerts.isActive': true,
                 'preferences.emailNotifications': true })
         .populate('priceAlerts.stationId')]: the query and its populate are
    one store operation. *)
Definition User_find_alerting : M (list (User.t * list PopAlert)) :=
  storeOp ;;;
  us <- getUsers ;;
  sts <- getStations ;;
  ret (map (fun u => (u, populate sts u))
           (filter (fun u => hasActiveAlert u && User.emailNotifications u) us)).

(** [transporter.sendMail(mailOptions)] *)
Definition sendMail (m : Mail) : M unit :=
  fun w => if mailFails env (nMail w)
           then (Throw MailError, tickMail w)
           else (Ok tt, tickMail (with_outbox w (outbox w ++ [m]))).
End Effects.

(** ** server/cron/scheduler.js *)

Open Scope Q_scope.

(** Per-fuel floors of the Price Mutator (lines 95, 101, 107). *)
Definition floorOf (f : FuelType) : Q :=
  match f with
  | Gasoline95 => 6.0
  | Gasoline98 => 6.2
  | Diesel => 5.8
  end.

(** [24 * 60 * 60 * 1000] *)
Definition oneDayMs : Z := (24 * 60 * 60 * 1000)%Z.

(** Identifiers bound where line 170 of scheduler.js runs: the body of
    [checkPriceAlerts] outside its [for] loop.  [users] is the only binding of
    the function's [try] block; the others are the bindings of the module,
    of Node's module wrapper and the globals the file uses.  The per-user
    [triggeredAlerts] is declared with [const] inside the loop body (line 135)
    and is not among them. *)
Definition scopeAfterUserLoop : list string :=
  [ "users";
    "cron"; "puppeteer"; "Station"; "User"; "nodemailer"; "transporter";
    "sampleStations"; "scrapeFuelPrices"; "checkPriceAlerts";
    "sendPriceAlertEmail"; "initializeSampleData";
    "require"; "module"; "exports"; "__filename"; "__dirname";
    "console"; "process"; "Date"; "Math" ].

(** Evaluating an identifier: a [ReferenceError] when no enclosing scope
    binds it. *)
Definition resolveIdentifier (scope : list string) (x : string) : M unit :=
  if existsb (String.eqb x) scope then ret tt else throw (ReferenceError x).

(** The arithmetic of the numbers of the source.  A JavaScript number is an
    IEEE double, and [a + b], [a - b], [a * b] give the double nearest to the
    exact result.  The Price Mutator, the one function here that computes
    with prices, is defined for any three such operations [ar]; [exactQ] is
    the arithmetic of the rationals, in which the statements about decimal
    prices are made.  Comparisons and [Math.max] round nothing. *)
Record Arith := mkArith {
  jsAdd : Q -> Q -> Q;
  jsSub : Q -> Q -> Q;
  jsMul : Q -> Q -> Q
}.

Definition exactQ : Arith := mkArith Qplus Qminus Qmult.

Section Scheduler.
Variable env : Env.
Variable ar : Arith.

(** sendPriceAlertEmail (lines 180-216) *)
Definition sendPriceAlertEmail (user : User.t) (alerts : list TriggeredAlert)
  : M unit :=
  tryCatch
    (sendMail env (mkMail (User.email user) (User.firstName user) alerts) ;;;
     consoleLog (LogS "Price alert email sent to" (User.email user)))
    (fun error => consoleLog (LogErr "Error sending price alert email:" error)).

(** The body of the loop over [user.priceAlerts] (lines 138-160);
    [triggeredAlerts] is the per-user array the body pushes to, and the result
    carries the alert as the body leaves it. *)
Definition checkAlert (pa : PopAlert) (triggeredAlerts : list TriggeredAlert)
  : M (Alert.t * list TriggeredAlert) :=
  let alert := fst pa in
  if negb (Alert.isActive alert) then ret (alert, triggeredAlerts)
  else
    match snd pa with
    | None => ret (alert, triggeredAlerts)
    | Some station =>
      match price (getFuel (Station.fuelTypes station) (Alert.fuelType alert)) with
      | None => ret (alert, triggeredAlerts)
      | Some currentPrice =>
        if negb (Qeq_bool currentPrice 0)
           && Qle_bool currentPrice (Alert.targetPrice alert)
        then
          dateNow <- now env ;;
          let oneDayAgo := (dateNow - oneDayMs)%Z in
          if match Alert.lastTriggered alert with
             | None => true
             | Some lastTriggered => (lastTriggered <? oneDayAgo)%Z
             end
          then
            d <- now env ;;
            ret (Alert.with_lastTriggered alert (Some d),
                 triggeredAlerts ++
                 [mkTriggered (Station.name station) (Station.address station)
                              (Alert.fuelType alert) currentPrice
                              (Alert.targetPrice alert)])
          else ret (alert, triggeredAlerts)
        else ret (alert, triggeredAlerts)
      end
    end.

(** [for (const alert of user.priceAlerts) { ... }] *)
Fixpoint alertLoop (pas : list PopAlert) (triggeredAlerts : list TriggeredAlert)
  : M (list Alert.t * list TriggeredAlert) :=
  match pas with
  | [] => ret ([], triggeredAlerts)
  | pa :: rest =>
    r <- checkAlert pa triggeredAlerts ;;
    r' <- alertLoop rest (snd r) ;;
    ret (fst r :: fst r', snd r')
  end.

(** The body of the loop over [users] (lines 135-167). *)
Definition checkUser (up : User.t * list PopAlert) : M unit :=
  let user := fst up in
  r <- alertLoop (snd up) [] ;;
  let triggeredAlerts := snd r in
  if (0 <? List.length triggeredAlerts)%nat then
    sendPriceAlertEmail user triggeredAlerts ;;;
    User_save env (User.with_priceAlerts user (fst r))
  else ret tt.

(** The [try] block of checkPriceAlerts (lines 129-172).  Line 170 first
    evaluates the identifier [triggeredAlerts]; the [console.log] of line 171
    is behind that evaluation. *)
Definition checkPriceAlerts_try : M unit :=
  users <- User_find_alerting env ;;
  forOf users checkUser ;;;
  resolveIdentifier scopeAfterUserLoop "triggeredAlerts" ;;;
  ret tt.

(** checkPriceAlerts (lines 127-177) *)
Definition checkPriceAlerts : M unit :=
  tryCatch checkPriceAlerts_try
    (fun error => consoleLog (LogErr "Error checking price alerts:" error)).

(** One of the three guarded updates of a station's fuel entry
    (lines 94-98, 100-104, 106-110). *)
Definition bumpFuelIn (f : FuelType) (variation : Q) (e : FuelEntry) : M FuelEntry :=
  match price e with
  | Some p =>
    if negb (Qeq_bool p 0) then
      d <- now env ;;
      ret (mkFuelEntry (Some (Qmax (floorOf f) (jsAdd ar p variation))) (Some d))
    else ret e
  | None => ret e
  end.

(** The body of the loop over stations up to the save (lines 91-112). *)
Definition scrapeDocIn (station : Station.t) : M Station.t :=
  r <- mathRandom env ;;
  let variation := jsMul ar (jsSub ar r 0.5) 0.20 in
  let ft := Station.fuelTypes station in
  e95 <- bumpFuelIn Gasoline95 variation (gasoline95 ft) ;;
  e98 <- bumpFuelIn Gasoline98 variation (gasoline98 ft) ;;
  ed <- bumpFuelIn Diesel variation (diesel ft) ;;
  d <- now env ;;
  ret (Station.with_lastScraped
         (Station.with_fuelTypes station (mkFuelTypes e95 e98 ed)) d).

Definition scrapeStationIn (station : Station.t) : M unit :=
  station' <- scrapeDocIn station ;;
  Station_save env station'.

(** scrapeFuelPrices (lines 81-124), in the arithmetic [ar] *)
Definition scrapeFuelPricesIn : M unit :=
  consoleLog (Log "Starting fuel price scraping...") ;;;
  tryCatch
    (stations <- Station_find_active env ;;
     forOf stations scrapeStationIn ;;;
     consoleLog (LogN "Updated prices for stations" (List.length stations)) ;;;
     checkPriceAlerts)
    (fun error => consoleLog (LogErr "Error scraping fuel prices:" error)).
End Scheduler.

(** scrapeFuelPrices (lines 81-124), on decimal prices *)
Definition scrapeFuelPrices (env : Env) : M unit :=
  scrapeFuelPricesIn env exactQ.

(** *** The sample data and its initialisation (lines 17-78, 219-236)

    As for [Station.t], a station datum carries the fields the modelled code
    reads: name, address and fuel prices. *)

Record StationData := mkStationData {
  dName : string;
  dAddress : string;
  dFuelTypes : FuelTypes
}.

Section SampleData.
Variable env : Env.

(** [{ price: p, lastUpdated: new Date() }] *)
Definition sampleEntry (p : Q) : M FuelEntry :=
  d <- now env ;; ret (mkFuelEntry (Some p) (Some d)).

(** One element of the array literal [sampleStations]. *)
Definition sampleStation (name address : string) (p95 p98 pd : Q)
  : M StationData :=
  e95 <- sampleEntry p95 ;;
  e98 <- sampleEntry p98 ;;
  ed <- sampleEntry pd ;;
  ret (mkStationData name address (mkFuelTypes e95 e98 ed)).

(** The module-level constant [sampleStations]: the literal is evaluated
    once, when the module is loaded. *)
Definition loadSampleStations : M (list StationData) :=
  s1 <- sampleStation "Paz Tel Aviv Center" "Rothschild Blvd 45, Tel Aviv"
          6.89 7.15 6.45 ;;
  s2 <- sampleStation "Sonol Jerusalem" "King George St 15, Jerusalem"
          6.95 7.25 6.55 ;;
  s3 <- sampleStation "Delek Haifa Port" "Haifa Port, Haifa" 6.75 7.05 6.35 ;;
  s4 <- sampleStation "Dor Alon Beer Sheva" "Ben Gurion Blvd 123, Beer Sheva"
          6.65 6.95 6.25 ;;
  s5 <- sampleStation "Tene Netanya" "Herzl St 78, Netanya" 6.85 7.10 6.50 ;;
  ret [s1; s2; s3; s4; s5].

(** [Station.countDocuments()] *)
Definition Station_countDocuments : M nat :=
  storeOp env ;;; sts <- getStations ;; ret (List.length sts).

(** [new Station(stationData)]: Mongoose gives the document an [_id] and the
    schema defaults [isActive: true] and [lastScraped: Date.now]. *)
Definition newStation (stationData : StationData) : M Station.t :=
  id <- newObjectId env ;;
  d <- now env ;;
  ret (Station.mk id (dName stationData) (dAddress stationData) true
                  (dFuelTypes stationData) d).

(** [station.save()] of a new document: an insert. *)
Definition Station_insert (s : Station.t) : M unit :=
  storeOp env ;;; sts <- getStations ;; setStations (sts ++ [s]).

(** The body of the loop over [sampleStations] (lines 227-228). *)
Definition createSample (stationData : StationData) : M unit :=
  station <- newStation stationData ;;
  Station_insert station.

(** initializeSampleData (lines 219-236) *)
Definition initializeSampleData (sampleStations : list StationData) : M unit :=
  tryCatch
    (existingStations <- Station_countDocuments ;;
     if (existingStations =? 0)%nat then
       consoleLog (Log "Initializing sample station data...") ;;;
       forOf sampleStations createSample ;;;
       consoleLog (LogN "Created sample stations" (List.length sampleStations))
     else ret tt)
    (fun error => consoleLog (LogErr "Error initializing sample data:" error)).
End SampleData.

(** ** HTTP routes (server/routes/stations.js, server/routes/users.js)

    A handler is modelled from the point where Express calls it: the [auth]
    middleware has put the caller's id in [req.userId], and the validators of
    express-validator have run.  A body field that a validator inspects is a
    [Field]: absent, present but rejected by the validator's type test, or
    present with the value the handler goes on to use. *)

Inductive Field (A : Type) :=
| Absent
| Invalid
| Valid (a : A).
Arguments Absent {A}.
Arguments Invalid {A}.
Arguments Valid {A} a.

(** The object literal [newAlert] of POST /api/users/alerts
    (users.js, lines 157-162): the fields of the request, and no [_id]. *)
Record NewAlert := mkNewAlert {
  nStationId : string;
  nFuelType : FuelType;
  nTargetPrice : Q;
  nIsActive : bool
}.

Inductive Body :=
| BMessage (message : string)
| BErrors (message : string) (errors : list string)
| BStation (station : Station.t)
| BMessageStation (message : string) (station : Station.t)
| BFavorites (message : string) (favorites : list Id)
| BAlert (message : string) (alert : Alert.t)
| BNewAlert (message : string) (alert : NewAlert).

Record Response := mkResponse {
  status : nat;
  body : Body
}.

(** [res.json(b)] answers with status 200. *)
Definition json (b : Body) : Response := mkResponse 200 b.

(** [isMongoId()]: 24 hexadecimal characters. *)
Definition isMongoId (s : string) : bool :=
  (String.length s =? 24)%nat && forallb isHexDigit (list_ascii_of_string s).

(** [isIn(['gasoline95', 'gasoline98', 'diesel'])] *)
Definition isFuelKey (s : string) : bool :=
  match fuelOfKey s with Some _ => true | None => false end.

(** The error list of [validationResult(req)] for a chain of checks, each a
    test with the message of its [withMessage]. *)
Definition validationErrors (checks : list (bool * string)) : list string :=
  map snd (filter (fun c => negb (fst c)) checks).

Definition isEmpty (errors : list string) : bool :=
  match errors with [] => true | _ => false end.

(** Body of PUT /api/stations/:id: [req.body.fuelTypes], when given, as the
    list of its keys in order, each with [fuelTypes[key].price] ([None] when
    [fuelTypes[key]] is falsy or has no price). *)
Definition FuelTypesBody := option (list (string * option Q)).

(** Body of POST /api/users/alerts. *)
Record CreateAlertBody := mkCreateAlertBody {
  cStationId : string;
  cFuelType : string;
  cTargetPrice : Field Q
}.

(** Body of PUT /api/users/alerts/:alertId. *)
Record UpdateAlertBody := mkUpdateAlertBody {
  uTargetPrice : Field Q;
  uIsActive : Field bool
}.

Definition required {A} (f : Field A) : bool :=
  match f with Valid _ => true | _ => false end.

Definition optional {A} (f : Field A) : bool :=
  match f with Invalid => false | _ => true end.

Section Routes.
Variable env : Env.

(** GET /api/stations/:id (stations.js, lines 54-71) *)
Definition getStation (id : string) : M Response :=
  tryCatch
    (station <- Station_findById env id ;;
     match station with
     | None => ret (mkResponse 404 (BMessage "Station not found"))
     | Some station => ret (json (BStation station))
     end)
    (fun error =>
       consoleLog (LogErr "Get station error:" error) ;;;
       ret (mkResponse 500 (BMessage "Server error while fetching station"))).

(** The callback of [Object.keys(fuelTypes).forEach] (lines 125-132).  A key
    outside the schema sets no path of the document. *)
Fixpoint updateFuelPrices (entries : list (string * option Q)) (ft : FuelTypes)
  : M FuelTypes :=
  match entries with
  | [] => ret ft
  | (key, p) :: rest =>
    match p with
    | Some q =>
      if negb (Qeq_bool q 0) then
        d <- now env ;;
        updateFuelPrices rest
          (match fuelOfKey key with
           | Some f => setFuel ft f (mkFuelEntry (Some q) (Some d))
           | None => ft
           end)
      else updateFuelPrices rest ft
    | None => updateFuelPrices rest ft
    end
  end.

(** PUT /api/stations/:id (stations.js, lines 112-148) *)
Definition putStation (id : string) (fuelTypes : FuelTypesBody) : M Response :=
  tryCatch
    (found <- Station_findById env id ;;
     match found with
     | None => ret (mkResponse 404 (BMessage "Station not found"))
     | Some station =>
       ft <- match fuelTypes with
             | Some entries => updateFuelPrices entries (Station.fuelTypes station)
             | None => ret (Station.fuelTypes station)
             end ;;
       d <- now env ;;
       let station' :=
         Station.with_lastScraped (Station.with_fuelTypes station ft) d in
       Station_save env station' ;;;
       ret (json (BMessageStation "Station updated successfully" station'))
     end)
    (fun error =>
       consoleLog (LogErr "Update station error:" error) ;;;
       ret (mkResponse 500 (BMessage "Server error while updating station"))).

(** [await User.findById(req.userId)] followed by a property read of the
    result: a [TypeError] when no user has the id. *)
Definition requireUser (userId : Id) : M User.t :=
  found <- User_findById env userId ;;
  match found with
  | Some user => ret user
  | None => throw (TypeError "Cannot read properties of null")
  end.

(** POST /api/users/favorites (users.js, lines 27-73).  [includes]
    compares the string of the request with the stored ids; [push] casts it
    to the ObjectId that is stored. *)
Definition postFavorite (userId : Id) (stationId : string) : M Response :=
  tryCatch
    (let errors :=
       validationErrors [(isMongoId stationId, "Valid station ID is required")] in
     if negb (isEmpty errors)
     then ret (mkResponse 400 (BErrors "Validation failed" errors))
     else
       station <- Station_findById env stationId ;;
       match station with
       | None => ret (mkResponse 404 (BMessage "Station not found"))
       | Some _ =>
         user <- requireUser userId ;;
         if existsb (String.eqb stationId) (User.favoriteStations user)
         then ret (mkResponse 400 (BMessage "Station already in favorites"))
         else
           oid <- castId stationId ;;
           let user' := User.with_favoriteStations user
                          (User.favoriteStations user ++ [oid]) in
           User_save env user' ;;;
           ret (json (BFavorites "Station added to favorites"
                                 (User.favoriteStations user')))
       end)
    (fun error =>
       consoleLog (LogErr "Add favorite error:" error) ;;;
       ret (mkResponse 500 (BMessage "Server error while adding favorite"))).

(** DELETE /api/users/favorites/:stationId (users.js, lines 78-98) *)
Definition deleteFavorite (userId : Id) (stationId : string) : M Response :=
  tryCatch
    (user <- requireUser userId ;;
     let user' := User.with_favoriteStations user
                    (filter (fun id => negb (String.eqb id stationId))
                            (User.favoriteStations user)) in
     User_save env user' ;;;
     ret (json (BFavorites "Station removed from favorites"
                           (User.favoriteStations user'))))
    (fun error =>
       consoleLog (LogErr "Remove favorite error:" error) ;;;
       ret (mkResponse 500 (BMessage "Server error while removing favorite"))).

(** POST /api/users/alerts (users.js, lines 118-177).  The test of [find]
    compares the string of the request with the stored station ids; [push]
    makes of the literal [newAlert] a subdocument with an [_id] of its own
    and the [stationId] cast; the response carries the literal. *)
Definition postAlert (userId : Id) (b : CreateAlertBody) : M Response :=
  tryCatch
    (let errors :=
       validationErrors
         [(isMongoId (cStationId b), "Valid station ID is required");
          (isFuelKey (cFuelType b), "Valid fuel type is required");
          (required (cTargetPrice b), "Valid target price is required")] in
     if negb (isEmpty errors)
     then ret (mkResponse 400 (BErrors "Validation failed" errors))
     else
       match fuelOfKey (cFuelType b), cTargetPrice b with
       | Some fuelType, Valid targetPrice =>
         station <- Station_findById env (cStationId b) ;;
         match station with
         | None => ret (mkResponse 404 (BMessage "Station not found"))
         | Some _ =>
           user <- requireUser userId ;;
           let existingAlert :=
             find (fun alert =>
                     String.eqb (Alert.stationId alert) (cStationId b)
                     && FuelType_eqb (Alert.fuelType alert) fuelType)
                  (User.priceAlerts user) in
           match existingAlert with
           | Some _ =>
             ret (mkResponse 400
                    (BMessage "Alert already exists for this station and fuel type"))
           | None =>
             let newAlert :=
               mkNewAlert (cStationId b) fuelType targetPrice true in
             oid <- castId (nStationId newAlert) ;;
             id <- newObjectId env ;;
             let subdoc :=
               Alert.mk id oid (nFuelType newAlert) (nTargetPrice newAlert)
                        (nIsActive newAlert) None in
             User_save env
               (User.with_priceAlerts user (User.priceAlerts user ++ [subdoc])) ;;;
             ret (mkResponse 201
                    (BNewAlert "Price alert created successfully" newAlert))
           end
         end
       | _, _ => ret (mkResponse 400 (BErrors "Validation failed" errors))
       end)
    (fun error =>
       consoleLog (LogErr "Create alert error:" error) ;;;
       ret (mkResponse 500 (BMessage "Server error while creating alert"))).

(** DELETE /api/users/alerts/:alertId (users.js, lines 182-201) *)
Definition deleteAlert (userId : Id) (alertId : string) : M Response :=
  tryCatch
    (user <- requireUser userId ;;
     User_save env
       (User.with_priceAlerts user
          (filter (fun alert => negb (String.eqb (Alert._id alert) alertId))
                  (User.priceAlerts user))) ;;;
     ret (json (BMessage "Price alert deleted successfully")))
    (fun error =>
       consoleLog (LogErr "Delete alert error:" error) ;;;
       ret (mkResponse 500 (BMessage "Server error while deleting alert"))).

(** [alert.targetPrice = ...; alert.isActive = ...] on the subdocument with
    the given id (lines 233-239). *)
Definition applyAlertUpdate (b : UpdateAlertBody) (alert : Alert.t) : Alert.t :=
  let alert1 := match uTargetPrice b with
                | Valid p => Alert.with_targetPrice alert p
                | _ => alert
                end in
  match uIsActive b with
  | Valid a => Alert.with_isActive alert1 a
  | _ => alert1
  end.

(** [user.priceAlerts.id(alertId)]: the string is cast, and the
    subdocument returned is the first with that id; there is none when the
    string is no ObjectId. *)
Definition alertById (alertId : string) (l : list Alert.t) : option Alert.t :=
  match castObjectId alertId with
  | Some oid => find (fun a => String.eqb (Alert._id a) oid) l
  | None => None
  end.

(** Assignments to the subdocument found change that element of the array:
    the first with its id. *)
Fixpoint updateFirst (alertId : Id) (f : Alert.t -> Alert.t)
  (l : list Alert.t) : list Alert.t :=
  match l with
  | [] => []
  | a :: rest =>
    if String.eqb (Alert._id a) alertId then f a :: rest
    else a :: updateFirst alertId f rest
  end.

(** PUT /api/users/alerts/:alertId (users.js, lines 206-253) *)
Definition putAlert (userId : Id) (alertId : string) (b : UpdateAlertBody)
  : M Response :=
  tryCatch
    (let errors :=
       validationErrors
         [(optional (uTargetPrice b), "Valid target price is required");
          (optional (uIsActive b), "Active status must be boolean")] in
     if negb (isEmpty errors)
     then ret (mkResponse 400 (BErrors "Validation failed" errors))
     else
       user <- requireUser userId ;;
       match alertById alertId (User.priceAlerts user) with
       | None => ret (mkResponse 404 (BMessage "Alert not found"))
       | Some alert =>
         User_save env
           (User.with_priceAlerts user
              (updateFirst (Alert._id alert) (applyAlertUpdate b)
                 (User.priceAlerts user))) ;;;
         ret (json (BAlert "Price alert updated successfully"
                           (applyAlertUpdate b alert)))
       end)
    (fun error =>
       consoleLog (LogErr "Update alert error:" error) ;;;
       ret (mkResponse 500 (BMessage "Server error while updating alert"))).
End Routes.

(** * Vocabulary of the statements and sample data *)

(** ** Properties of runs *)

(** [m] run from a world satisfying [P] ends, normally or by a throw, in a
    result and world satisfying [Q]. *)
Definition hoare {A} (P : World -> Prop) (m : M A)
  (Q : Result A -> World -> Prop) : Prop :=
  forall w, P w -> Q (fst (m w)) (snd (m w)).

(** A property of the world that every step of [m] keeps, whatever the
    outcome. *)
Definition keeps {A} (J : World -> Prop) (m : M A) : Prop :=
  hoare J m (fun _ w => J w).

(** Steps that leave a projection [g] of the world as it is keep every
    property of that projection. *)
Definition frames {A X} (g : World -> X) (m : M A) : Prop :=
  forall w, g (snd (m w)) = g w.

(** ** The Price Mutator *)

(** What one guarded update does to a fuel entry, the perturbation being
    [delta] and [kc] clock reads having been made before the pass: an entry
    whose price passes the guard gets the clamped sum and a fresh
    [lastUpdated]; any other entry is left alone. *)
Definition bumped (env : Env) (ar : Arith) (kc : nat) (f : FuelType) (delta : Q)
  (e e' : FuelEntry) : Prop :=
  match price e with
  | Some p =>
    if Qeq_bool p 0 then e' = e
    else price e' = Some (Qmax (floorOf f) (jsAdd ar p delta))
         /\ exists k, (kc <= k)%nat /\ lastUpdated e' = Some (clock env k)
  | None => e' = e
  end.

(** What the loop body does to a station document: [kr] is the index of the
    one [Math.random()] draw it makes. *)
Definition mutatedBy (env : Env) (ar : Arith) (kr kc : nat) (s s' : Station.t)
  : Prop :=
  Station._id s' = Station._id s
  /\ Station.isActive s' = Station.isActive s
  /\ (exists k, (kc <= k)%nat /\ Station.lastScraped s' = clock env k)
  /\ forall f, bumped env ar kc f (jsMul ar (jsSub ar (random env kr) 0.5) 0.20)
                 (getFuel (Station.fuelTypes s) f)
                 (getFuel (Station.fuelTypes s') f).

(** [delta] is the perturbation computed from one of the [Math.random()]
    draws made between the worlds [w] and [w']. *)
Definition drawn (env : Env) (ar : Arith) (w w' : World) (delta : Q) : Prop :=
  exists kr, (nRandom w <= kr < nRandom w')%nat
             /\ delta = jsMul ar (jsSub ar (random env kr) 0.5) 0.20.

(** Every price of [s] that passes the guard of the source (present and not
    zero) is, in [s'], the sum with [delta] clamped to the floor of its fuel
    type; an entry whose price is zero is, in [s'], as it is in [s]. *)
Definition bumpedPrices (ar : Arith) (s s' : Station.t) (delta : Q) : Prop :=
  forall f p,
    price (getFuel (Station.fuelTypes s) f) = Some p ->
    (~ p == 0 ->
     price (getFuel (Station.fuelTypes s') f)
     = Some (Qmax (floorOf f) (jsAdd ar p delta)))
    /\ (p == 0 ->
        getFuel (Station.fuelTypes s') f = getFuel (Station.fuelTypes s) f).

(** The timestamps of [s'] that a pass started in [w] sets on the station
    [s]: [lastScraped], and [lastUpdated] of every fuel type whose price in
    [s] passes the guard, are clock readings made from [w] on. *)
Definition stampedFrom (env : Env) (w : World) (s s' : Station.t) : Prop :=
  (exists k, (nClock w <= k)%nat /\ Station.lastScraped s' = clock env k)
  /\ forall f p,
       price (getFuel (Station.fuelTypes s) f) = Some p -> ~ p == 0 ->
       exists k, (nClock w <= k)%nat
                 /\ lastUpdated (getFuel (Station.fuelTypes s') f)
                    = Some (clock env k).

(** The floor invariant of a station's prices. *)
Definition aboveFloor (f : FuelType) (e : FuelEntry) : Prop :=
  exists p, price e = Some p /\ floorOf f <= p.

Definition aboveFloors (s : Station.t) : Prop :=
  forall f, aboveFloor f (getFuel (Station.fuelTypes s) f).

(** Every stored station satisfies [I]. *)
Definition allStations (I : Station.t -> Prop) (w : World) : Prop :=
  Forall I (stations w).

(** ** Sample data

    Stations of [sampleStations] (scheduler.js, lines 17-78), a user with
    one diesel alert, and environments. *)

Definition teneNetanya : Station.t :=
  Station.mk "64b000000000000000000005" "Tene Netanya" "Herzl St 78, Netanya" true
    (mkFuelTypes (mkFuelEntry (Some 6.85) (Some 1000%Z))
                 (mkFuelEntry (Some 7.10) (Some 1000%Z))
                 (mkFuelEntry (Some 6.50) (Some 1000%Z)))
    1000%Z.

(** The clock reads 5000, 5001, ...; [Math.random()] returns 0, so that the
    perturbation is -0.1; no store operation and no mail send rejects. *)
Definition quietEnv : Env :=
  mkEnv (fun k => (5000 + Z.of_nat k)%Z) (fun _ => 0) (fun _ => false)
        (fun _ => false) (fun _ => "64b0000000000000000000aa").

Definition emptyWorld : World := mkWorld [] [] [] [] 0 0 0 0 0.

Definition oneStationWorld : World := with_stations emptyWorld [teneNetanya].

(** The station stored after a pass over [oneStationWorld]. *)
Definition teneNetanyaAfter : Station.t :=
  hd teneNetanya (stations (snd (scrapeFuelPrices quietEnv oneStationWorld))).

(** A station whose stored timestamps are ahead of the server clock (they
    are client-supplied on POST /api/stations), and a clock that reads 5000. *)
Definition futureStation : Station.t :=
  Station.mk "64b000000000000000000001" "Paz Tel Aviv Center"
    "Rothschild Blvd 45, Tel Aviv" true
    (mkFuelTypes (mkFuelEntry (Some 6.89) (Some 9000%Z))
                 (mkFuelEntry (Some 7.15) (Some 9000%Z))
                 (mkFuelEntry (Some 6.45) (Some 9000%Z)))
    9000%Z.

(** The batch entry that lines 149-155 push for an alert on a station. *)
Definition entryOf (alert : Alert.t) (station : Station.t) (currentPrice : Q)
  : TriggeredAlert :=
  mkTriggered (Station.name station) (Station.address station)
              (Alert.fuelType alert) currentPrice (Alert.targetPrice alert).

Definition mailFor (user : User.t) (alerts : list TriggeredAlert) : Mail :=
  mkMail (User.email user) (User.firstName user) alerts.

Definition sonolJerusalem (dieselPrice : Q) : Station.t :=
  Station.mk "64b000000000000000000002" "Sonol Jerusalem"
    "King George St 15, Jerusalem" true
    (mkFuelTypes (mkFuelEntry (Some 6.95) (Some 1000%Z))
                 (mkFuelEntry (Some 7.25) (Some 1000%Z))
                 (mkFuelEntry (Some dieselPrice) (Some 1000%Z)))
    1000%Z.

Definition dieselAlert (lastTriggered : option Date) : Alert.t :=
  Alert.mk "64b0000000000000000000a1" "64b000000000000000000002" Diesel 6.30
           true lastTriggered.

Definition dana (lastTriggered : option Date) : User.t :=
  User.mk "64b0000000000000000000b1" "dana@example.com" "Dana" []
          [dieselAlert lastTriggered] true.

Definition alertWorld (dieselPrice : Q) (lastTriggered : option Date) : World :=
  with_users (with_stations emptyWorld [sonolJerusalem dieselPrice])
             [dana lastTriggered].

(** Worlds that agree on everything but the console and the outbox. *)
Definition agree (w w' : World) : Prop :=
  stations w = stations w' /\ users w = users w'
  /\ nClock w = nClock w' /\ nRandom w = nRandom w'
  /\ nStore w = nStore w' /\ nMail w = nMail w' /\ nIds w = nIds w'.

(** [m] and [m'], run from agreeing worlds, return the same result in
    agreeing worlds. *)
Definition sim {A} (m m' : M A) : Prop :=
  forall w w', agree w w' ->
    fst (m w) = fst (m' w') /\ agree (snd (m w)) (snd (m' w')).

(** The transport rejects every mail; everything else as in [quietEnv]. *)
Definition mailDownEnv : Env :=
  mkEnv (clock quietEnv) (random quietEnv) (storeFails quietEnv)
        (fun _ => true) (objectId quietEnv).

Definition validCreate (b : CreateAlertBody) : Prop :=
  isMongoId (cStationId b) = true
  /\ isFuelKey (cFuelType b) = true
  /\ required (cTargetPrice b) = true.

Definition validUpdate (b : UpdateAlertBody) : Prop :=
  optional (uTargetPrice b) = true /\ optional (uIsActive b) = true.

Definition notFound (what : string) : Result Response :=
  Ok (mkResponse 404 (BMessage what)).

Definition unknownId : Id := "64b0000000000000000000ff".

(** ** Further vocabulary

    [Math.random()] returns a number of the interval [0, 1). *)
Definition unitDraws (env : Env) : Prop :=
  forall k, 0 <= random env k /\ random env k < 1.

(** What identifies a station to its users, as against what a pass prices. *)
Definition identity (s : Station.t) : Id * string * string * bool :=
  (Station._id s, Station.name s, Station.address s, Station.isActive s).

(** [a'] is [a] with, at most, a new [lastTriggered]. *)
Definition reTriggered (a a' : Alert.t) : Prop :=
  a' = a \/ exists d, a' = Alert.with_lastTriggered a (Some d).

(** The batch entry of a populated alert whose price has reached its
    target: the alert is active, its station resolves and the station's price
    for the alert's fuel type is present, not zero and at most the target. *)
Definition reachedEntry (pa : PopAlert) (e : TriggeredAlert) : Prop :=
  exists station p,
    snd pa = Some station
    /\ Alert.isActive (fst pa) = true
    /\ price (getFuel (Station.fuelTypes station) (Alert.fuelType (fst pa)))
       = Some p
    /\ ~ p == 0
    /\ p <= Alert.targetPrice (fst pa)
    /\ e = entryOf (fst pa) station p.

(** A populated alert that cannot fire: inactive, unresolved, or with a price
    that is missing, zero or above the target. *)
Definition dormant (pa : PopAlert) : Prop :=
  Alert.isActive (fst pa) = false
  \/ snd pa = None
  \/ exists station,
       snd pa = Some station
       /\ match price (getFuel (Station.fuelTypes station)
                              (Alert.fuelType (fst pa))) with
          | None => True
          | Some p => p == 0 \/ Alert.targetPrice (fst pa) < p
          end.

(** The users the query of [checkPriceAlerts] selects. *)
Definition alerting (u : User.t) : Prop :=
  hasActiveAlert u = true /\ User.emailNotifications u = true.

(** A mail that [checkPriceAlerts] may send from a world with the stations
    [sts] and the users [us]: to a selected user, with a non-empty list of
    entries, each the entry of one of the user's alerts whose price has
    reached its target. *)
Definition justifiedMail (sts : list Station.t) (us : list User.t) (m : Mail)
  : Prop :=
  exists u batch,
    In u us /\ alerting u /\ m = mailFor u batch /\ batch <> []
    /\ Forall (fun e => exists pa, In pa (populate sts u) /\ reachedEntry pa e)
              batch.

(** The stored station that [initializeSampleData] makes of a datum. *)
Definition createdFrom (d : StationData) (s : Station.t) : Prop :=
  Station.name s = dName d
  /\ Station.address s = dAddress d
  /\ Station.isActive s = true
  /\ Station.fuelTypes s = dFuelTypes d.

(** The status of the response a handler returns. *)
Definition statusOf (r : Result Response) : option nat :=
  match r with
  | Ok resp => Some (status resp)
  | Throw _ => None
  end.

(** The pair that POST /api/users/alerts keeps unique among a user's
    alerts. *)
Definition alertKey (a : Alert.t) : Id * FuelType :=
  (Alert.stationId a, Alert.fuelType a).

Definition distinctAlerts (u : User.t) : Prop :=
  NoDup (map alertKey (User.priceAlerts u)).

Definition distinctFavorites (u : User.t) : Prop :=
  NoDup (User.favoriteStations u).

(** Every stored user satisfies [I]. *)
Definition allUsers (I : User.t -> Prop) (w : World) : Prop :=
  Forall I (users w).

(** A handler run fails safe: it answers, and unless the answer is 200 or
    201 both collections are as they were. *)
Definition failsSafe (w : World) (r : Result Response * World) : Prop :=
  exists resp,
    fst r = Ok resp
    /\ In (status resp) [200; 201; 400; 404; 500]%nat
    /\ (status resp <> 200%nat -> status resp <> 201%nat ->
        stations (snd r) = stations w /\ users (snd r) = users w).

(** [ft'] is [ft] but for the entries that a request body supplies with a
    truthy price under a key of the schema. *)
Definition suppliedBy (entries : list (string * option Q)) (ft ft' : FuelTypes)
  : Prop :=
  forall f,
    getFuel ft' f = getFuel ft f
    \/ exists key q d,
         In (key, Some q) entries /\ fuelOfKey key = Some f /\ ~ q == 0
         /\ getFuel ft' f = mkFuelEntry (Some q) (Some d).


(** [a'] is [a] with, at most, another target price and active flag. *)
Definition retargeted (a a' : Alert.t) : Prop :=
  Alert._id a' = Alert._id a
  /\ Alert.stationId a' = Alert.stationId a
  /\ Alert.fuelType a' = Alert.fuelType a
  /\ Alert.lastTriggered a' = Alert.lastTriggered a.

(** Further sample data: a closed station next to an open one; what the
    stores hold after a pass or an evaluation; a user who has switched the
    notifications off; a datum for the initialisation. *)
Definition closedStation : Station.t :=
  Station.mk "64b000000000000000000006" "Dor Alon Eilat" "HaTmarim Blvd 2, Eilat"
    false
    (mkFuelTypes (mkFuelEntry (Some 6.10) (Some 1000%Z))
                 (mkFuelEntry (Some 6.40) (Some 1000%Z))
                 (mkFuelEntry (Some 5.90) (Some 1000%Z)))
    1000%Z.

Definition twoStationWorld : World :=
  with_stations emptyWorld [teneNetanya; closedStation].

Definition sonolAfter (dieselPrice : Q) : Station.t :=
  hd (sonolJerusalem dieselPrice)
     (stations (snd (scrapeFuelPrices quietEnv (alertWorld dieselPrice None)))).

Definition danaAfter : User.t :=
  hd (dana None) (users (snd (checkPriceAlerts quietEnv (alertWorld 6.20 None)))).

Definition noa : User.t :=
  User.mk "64b0000000000000000000b2" "noa@example.com" "Noa" []
          [dieselAlert None] false.

Definition twoUserWorld : World :=
  with_users (alertWorld 6.20 None) [dana None; noa].

Definition teneData : StationData :=
  mkStationData (Station.name teneNetanya) (Station.address teneNetanya)
                (Station.fuelTypes teneNetanya).

(** The ids of the station and of the alert of [alertWorld], spelled in
    upper case. *)
Definition sonolUpperCase : string := "64B000000000000000000002".

Definition dieselAlertUpperCase : string := "64B0000000000000000000A1".

Definition teneUpperCase : string := "64B000000000000000000005".

(** * Verification *)

(** ** Reasoning about runs *)

Lemma hoare_ret {A} (P : World -> Prop) (a : A) (Q : Result A -> World -> Prop) :
  (forall w, P w -> Q (Ok a) w) -> hoare P (ret a) Q.
Proof. intros H w Hw. apply H, Hw. Qed.

Lemma hoare_bind {A B} (P : World -> Prop) (m : M A) (k : A -> M B)
  (R : A -> World -> Prop) (Q : Result B -> World -> Prop) :
  hoare P m (fun r w => match r with Ok a => R a w | Throw e => Q (Throw e) w end) ->
  (forall a, hoare (R a) (k a) Q) ->
  hoare P (bind m k) Q.
Proof.
  intros Hm Hk w Hw. specialize (Hm w Hw). unfold bind.
  destruct (m w) as [[a|e] w']; simpl in *.
  - apply Hk, Hm.
  - exact Hm.
Qed.

Lemma hoare_tryCatch {A} (P : World -> Prop) (m : M A) (h : Exn -> M A)
  (R : Exn -> World -> Prop) (Q : Result A -> World -> Prop) :
  hoare P m (fun r w => match r with Ok a => Q (Ok a) w | Throw e => R e w end) ->
  (forall e, hoare (R e) (h e) Q) ->
  hoare P (tryCatch m h) Q.
Proof.
  intros Hm Hh w Hw. specialize (Hm w Hw). unfold tryCatch.
  destruct (m w) as [[a|e] w']; simpl in *.
  - exact Hm.
  - apply Hh, Hm.
Qed.

Lemma bind_ok {A B} (m : M A) (k : A -> M B) w a w' :
  m w = (Ok a, w') -> bind m k w = k a w'.
Proof. intros E. unfold bind. rewrite E. reflexivity. Qed.

Lemma bind_throw {A B} (m : M A) (k : A -> M B) w e w' :
  m w = (Throw e, w') -> bind m k w = (Throw e, w').
Proof. intros E. unfold bind. rewrite E. reflexivity. Qed.

Lemma tryCatch_ok {A} (m : M A) (h : Exn -> M A) w a w' :
  m w = (Ok a, w') -> tryCatch m h w = (Ok a, w').
Proof. intros E. unfold tryCatch. rewrite E. reflexivity. Qed.

Lemma tryCatch_throw {A} (m : M A) (h : Exn -> M A) w e w' :
  m w = (Throw e, w') -> tryCatch m h w = h e w'.
Proof. intros E. unfold tryCatch. rewrite E. reflexivity. Qed.

Lemma keeps_bind {A B} (J : World -> Prop) (m : M A) (k : A -> M B) :
  keeps J m -> (forall a, keeps J (k a)) -> keeps J (bind m k).
Proof.
  intros Hm Hk. eapply hoare_bind; [|exact Hk].
  intros w Hw. specialize (Hm w Hw). destruct (fst (m w)); exact Hm.
Qed.

Lemma keeps_tryCatch {A} (J : World -> Prop) (m : M A) (h : Exn -> M A) :
  keeps J m -> (forall e, keeps J (h e)) -> keeps J (tryCatch m h).
Proof.
  intros Hm Hh. eapply hoare_tryCatch; [|exact Hh].
  intros w Hw. specialize (Hm w Hw). destruct (fst (m w)); exact Hm.
Qed.

Lemma keeps_ret {A} (J : World -> Prop) (a : A) : keeps J (ret a).
Proof. intros w Hw. exact Hw. Qed.

Lemma keeps_forOf {A} (J : World -> Prop) (xs : list A) (body : A -> M unit) :
  (forall x, In x xs -> keeps J (body x)) -> keeps J (forOf xs body).
Proof.
  induction xs as [|x xs IH]; intros Hb.
  - apply keeps_ret.
  - simpl. apply keeps_bind.
    + apply Hb. left. reflexivity.
    + intros u. apply IH. intros y Hy. apply Hb. right. exact Hy.
Qed.

Lemma frames_keeps {A X} (g : World -> X) (m : M A) (J : X -> Prop) :
  frames g m -> keeps (fun w => J (g w)) m.
Proof. intros H w Hw. simpl. rewrite H. exact Hw. Qed.

Lemma frames_bind {A B X} (g : World -> X) (m : M A) (k : A -> M B) :
  frames g m -> (forall a, frames g (k a)) -> frames g (bind m k).
Proof.
  intros Hm Hk w. unfold bind. specialize (Hm w).
  destruct (m w) as [[a|e] w']; simpl in *.
  - rewrite Hk. exact Hm.
  - exact Hm.
Qed.

Lemma frames_tryCatch {A X} (g : World -> X) (m : M A) (h : Exn -> M A) :
  frames g m -> (forall e, frames g (h e)) -> frames g (tryCatch m h).
Proof.
  intros Hm Hh w. unfold tryCatch. specialize (Hm w).
  destruct (m w) as [[a|e] w']; simpl in *.
  - exact Hm.
  - rewrite Hh. exact Hm.
Qed.

Lemma frames_forOf {A X} (g : World -> X) (xs : list A) (body : A -> M unit) :
  (forall x, frames g (body x)) -> frames g (forOf xs body).
Proof.
  intros Hb. induction xs as [|x xs IH].
  - intros w. reflexivity.
  - simpl. apply frames_bind; [apply Hb|intros u; exact IH].
Qed.

Lemma frames_if {A X} (g : World -> X) (b : bool) (m1 m2 : M A) :
  frames g m1 -> frames g m2 -> frames g (if b then m1 else m2).
Proof. destruct b; auto. Qed.

(** ** The Price Mutator *)

Ltac prim :=
  intros ?;
  unfold now, mathRandom, storeOp, consoleLog, getStations, getUsers,
    setUsers, setStations, sendMail, newObjectId, resolveIdentifier, ret, throw;
  simpl;
  repeat match goal with
         | |- context [if ?b then _ else _] => destruct b
         end;
  reflexivity.

Ltac frames_step :=
  match goal with
  | |- frames _ (bind _ _) => apply frames_bind; [|intro]
  | |- frames _ (tryCatch _ _) => apply frames_tryCatch; [|intro]
  | |- frames _ (forOf _ _) => apply frames_forOf; intro
  | |- frames _ (if _ then _ else _) => apply frames_if
  | |- frames _ (match ?x with _ => _ end) => destruct x
  end.

Section MutatorFacts.
Variable env : Env.
Variable ar : Arith.

Lemma bumpFuel_eq f v e w :
  bumpFuelIn env ar f v e w =
  match price e with
  | Some p =>
    if negb (Qeq_bool p 0)
    then (Ok (mkFuelEntry (Some (Qmax (floorOf f) (jsAdd ar p v)))
                          (Some (clock env (nClock w)))), tickClock w)
    else (Ok e, w)
  | None => (Ok e, w)
  end.
Proof.
  unfold bumpFuelIn. destruct (price e) as [p|]; [|reflexivity].
  destruct (Qeq_bool p 0); reflexivity.
Qed.

Lemma bumpFuel_bumped f v e w kc :
  (kc <= nClock w)%nat ->
  exists e' w',
    bumpFuelIn env ar f v e w = (Ok e', w')
    /\ bumped env ar kc f v e e'
    /\ (nClock w <= nClock w')%nat
    /\ stations w' = stations w /\ users w' = users w
    /\ console w' = console w /\ outbox w' = outbox w
    /\ nRandom w' = nRandom w /\ nStore w' = nStore w
    /\ nMail w' = nMail w /\ nIds w' = nIds w.
Proof.
  intros Hk. rewrite bumpFuel_eq. unfold bumped.
  destruct (price e) as [p|] eqn:Hp.
  - destruct (Qeq_bool p 0) eqn:Hz; simpl.
    + exists e, w. repeat split; auto.
    + eexists _, _. split; [reflexivity|]. simpl.
      repeat split; auto. exists (nClock w). split; [exact Hk|reflexivity].
  - exists e, w. repeat split; auto.
Qed.

Lemma scrapeDoc_spec s w :
  exists s' w',
    scrapeDocIn env ar s w = (Ok s', w')
    /\ mutatedBy env ar (nRandom w) (nClock w) s s'
    /\ (nClock w <= nClock w')%nat
    /\ nRandom w' = S (nRandom w)
    /\ stations w' = stations w /\ users w' = users w
    /\ console w' = console w /\ outbox w' = outbox w
    /\ nStore w' = nStore w /\ nMail w' = nMail w /\ nIds w' = nIds w.
Proof.
  unfold scrapeDocIn, bind at 1, mathRandom.
  set (v := jsMul ar (jsSub ar (random env (nRandom w)) 0.5) 0.20).
  destruct (bumpFuel_bumped Gasoline95 v
              (gasoline95 (Station.fuelTypes s)) (tickRandom w) (nClock w))
    as (e1 & w1 & E1 & B1 & C1 & S1 & U1 & L1 & O1 & R1 & T1 & M1 & I1);
    [simpl; lia|].
  destruct (bumpFuel_bumped Gasoline98 v
              (gasoline98 (Station.fuelTypes s)) w1 (nClock w))
    as (e2 & w2 & E2 & B2 & C2 & S2 & U2 & L2 & O2 & R2 & T2 & M2 & I2);
    [simpl in C1; lia|].
  destruct (bumpFuel_bumped Diesel v
              (diesel (Station.fuelTypes s)) w2 (nClock w))
    as (e3 & w3 & E3 & B3 & C3 & S3 & U3 & L3 & O3 & R3 & T3 & M3 & I3);
    [simpl in C1; lia|].
  unfold bind. rewrite E1, E2, E3. unfold now, ret.
  eexists _, _. split; [reflexivity|].
  simpl in *. split.
  - unfold mutatedBy. simpl. repeat split.
    + exists (nClock w3). split; [lia|reflexivity].
    + intros [| |]; assumption.
  - repeat split; try congruence; lia.
Qed.

Lemma mutatedBy_aboveFloor kr kc s s' f :
  mutatedBy env ar kr kc s s' ->
  aboveFloor f (getFuel (Station.fuelTypes s) f) ->
  aboveFloor f (getFuel (Station.fuelTypes s') f).
Proof.
  intros (_ & _ & _ & Hf) Ha. specialize (Hf f).
  destruct Ha as (p & Hp & Hle). unfold bumped in Hf. rewrite Hp in Hf.
  destruct (Qeq_bool p 0).
  - rewrite Hf. exists p. split; assumption.
  - destruct Hf as (Hf & _). eexists. split; [exact Hf|]. apply Q.le_max_l.
Qed.
End MutatorFacts.

(** ** What the Alert Evaluator and the Notifier leave alone *)

Section EvaluatorFrames.
Variable env : Env.

Lemma checkAlert_frames {X} (g : World -> X) pa tr :
  (forall w, g (tickClock w) = g w) -> frames g (checkAlert env pa tr).
Proof.
  intros Hg. unfold checkAlert.
  repeat first [frames_step | intros w; unfold now, ret; simpl; auto].
Qed.

Lemma alertLoop_frames {X} (g : World -> X) pas :
  (forall w, g (tickClock w) = g w) ->
  forall tr, frames g (alertLoop env pas tr).
Proof.
  intros Hg. induction pas as [|pa rest IH]; intros tr; simpl.
  - intros w. reflexivity.
  - apply frames_bind; [apply checkAlert_frames, Hg|]. intros r.
    apply frames_bind; [apply IH|]. intros r' w. reflexivity.
Qed.

Lemma sendPriceAlertEmail_frames_stations user alerts :
  frames stations (sendPriceAlertEmail env user alerts).
Proof. unfold sendPriceAlertEmail. repeat frames_step; prim. Qed.

Lemma checkPriceAlerts_frames_stations : frames stations (checkPriceAlerts env).
Proof.
  unfold checkPriceAlerts, checkPriceAlerts_try, User_find_alerting.
  repeat frames_step; try prim.
  unfold checkUser. apply frames_bind.
  - apply alertLoop_frames. reflexivity.
  - intros r. apply frames_if; [|prim].
    apply frames_bind; [apply sendPriceAlertEmail_frames_stations|].
    intros u. unfold User_save. repeat frames_step; prim.
Qed.

Lemma checkPriceAlerts_frames_nRandom : frames nRandom (checkPriceAlerts env).
Proof.
  unfold checkPriceAlerts, checkPriceAlerts_try, User_find_alerting.
  repeat frames_step; try prim.
  unfold checkUser. apply frames_bind.
  - apply alertLoop_frames. reflexivity.
  - intros r. apply frames_if; [|prim].
    unfold sendPriceAlertEmail, User_save. repeat frames_step; prim.
Qed.
End EvaluatorFrames.

Lemma NoDup_map_inj_in {A B} (f : A -> B) (l : list A) (x y : A) :
  NoDup (map f l) -> In x l -> In y l -> f x = f y -> x = y.
Proof.
  induction l as [|z l IH]; [contradiction|].
  simpl. intros Hnd Hx Hy E. inversion Hnd as [|? ? Hnz Hnl]; subst.
  destruct Hx as [->|Hx], Hy as [->|Hy]; auto.
  - exfalso. apply Hnz. rewrite E. apply in_map, Hy.
  - exfalso. apply Hnz. rewrite <- E. apply in_map, Hx.
Qed.

(** ** The floor invariant of a Price Mutator pass *)

Section MutatorPass.
Variable env : Env.
Variable ar : Arith.

(** A property of station documents that the loop body carries from a
    document to its mutated copy holds of every stored station after the
    pass if it held of every stored station before: also when a store
    operation rejects midway. *)
Section Invariant.
Variable I : Station.t -> Prop.
Hypothesis I_mutated :
  forall kr kc d d', mutatedBy env ar kr kc d d' -> I d -> I d'.

Lemma replaceStation_Forall d l : I d -> Forall I l -> Forall I (replaceStation d l).
Proof.
  intros Hd Hl. unfold replaceStation. apply Forall_forall. intros x Hx.
  apply in_map_iff in Hx. destruct Hx as (y & <- & Hy).
  destruct (String.eqb _ _); [exact Hd|].
  rewrite Forall_forall in Hl. apply Hl, Hy.
Qed.

Lemma scrapeStation_keeps d : I d -> keeps (allStations I) (scrapeStationIn env ar d).
Proof.
  intros Hd w Hw. unfold scrapeStationIn, bind at 1.
  destruct (scrapeDoc_spec env ar d w)
    as (d' & w' & E & Hm & _ & _ & Hs & _). rewrite E.
  unfold Station_save, storeOp, bind, getStations, setStations.
  destruct (storeFails env (nStore w')); simpl; unfold allStations in *; simpl.
  - rewrite Hs. exact Hw.
  - apply replaceStation_Forall; [eapply I_mutated; eauto|].
    rewrite Hs. exact Hw.
Qed.

Lemma scrapeFuelPrices_keeps : keeps (allStations I) (scrapeFuelPricesIn env ar).
Proof.
  unfold scrapeFuelPricesIn.
  apply keeps_bind; [intros w Hw; exact Hw|]. intros u0.
  apply keeps_tryCatch; [|intros e w Hw; exact Hw].
  eapply hoare_bind with (R := fun docs w => allStations I w /\ Forall I docs).
  - intros w Hw. unfold Station_find_active, storeOp, bind, getStations, ret.
    destruct (storeFails env (nStore w)); simpl; [exact Hw|].
    split; [exact Hw|]. apply Forall_forall. intros x Hx.
    apply filter_In in Hx. unfold allStations in Hw. rewrite Forall_forall in Hw.
    apply Hw, Hx.
  - intros docs. eapply hoare_bind with (R := fun _ w => allStations I w).
    + intros w [Hw Hdocs].
      assert (K : keeps (allStations I) (forOf docs (scrapeStationIn env ar))).
      { apply keeps_forOf. intros x Hx. apply scrapeStation_keeps.
        rewrite Forall_forall in Hdocs. apply Hdocs, Hx. }
      specialize (K w Hw). simpl in K.
      destruct (fst (forOf docs (scrapeStationIn env ar) w)); exact K.
    + intros u1. apply keeps_bind; [intros w Hw; exact Hw|]. intros u2.
      apply (frames_keeps stations _ (Forall I)).
      apply checkPriceAlerts_frames_stations.
Qed.
End Invariant.

Lemma replaceStation_ids d l :
  map Station._id (replaceStation d l) = map Station._id l.
Proof.
  unfold replaceStation. rewrite map_map. apply map_ext_in. intros x _.
  destruct (String.eqb (Station._id x) (Station._id d)) eqn:E; [|reflexivity].
  apply String.eqb_eq in E. symmetry. exact E.
Qed.

(** The pass neither adds nor removes a station. *)
Lemma scrapeFuelPrices_ids w :
  map Station._id (stations (snd (scrapeFuelPricesIn env ar w)))
  = map Station._id (stations w).
Proof.
  assert (F : frames (fun w => map Station._id (stations w))
                     (scrapeFuelPricesIn env ar)).
  { unfold scrapeFuelPricesIn, Station_find_active.
    repeat frames_step; try prim.
    - intros w0. unfold scrapeStationIn, bind at 1.
      destruct (scrapeDoc_spec env ar x w0)
        as (d' & w' & E & _ & _ & _ & Hs & _). rewrite E.
      unfold Station_save, storeOp, bind, getStations, setStations.
      destruct (storeFails env (nStore w')); simpl.
      + rewrite Hs. reflexivity.
      + rewrite replaceStation_ids, Hs. reflexivity.
    - intros w0.
      rewrite (checkPriceAlerts_frames_stations env w0). reflexivity. }
  apply F.
Qed.
(** One turn of the loop: the document is mutated, then saved unless the
    store rejects the save. *)
Lemma scrapeStation_run d w :
  exists d' w1,
    mutatedBy env ar (nRandom w) (nClock w) d d'
    /\ (nClock w <= nClock w1)%nat
    /\ nRandom w1 = S (nRandom w)
    /\ stations w1 = stations w
    /\ scrapeStationIn env ar d w
       = if storeFails env (nStore w1)
         then (Throw StoreError, tickStore w1)
         else (Ok tt, with_stations (tickStore w1)
                        (replaceStation d' (stations w1))).
Proof.
  destruct (scrapeDoc_spec env ar d w)
    as (d' & w1 & E & Hm & Hc & Hr & Hs & _).
  exists d', w1. do 4 (split; [assumption|]).
  unfold scrapeStationIn. erewrite bind_ok by exact E.
  unfold Station_save, storeOp, bind, getStations, setStations.
  destruct (storeFails env (nStore w1)); reflexivity.
Qed.

(** The loop over the documents [docs], whatever the store does: a stored
    station is afterwards one that was stored before, or the mutated copy of
    one of the documents. *)
Lemma scrapeLoop_any docs : forall w,
  let w' := snd (forOf docs (scrapeStationIn env ar) w) in
  (nRandom w <= nRandom w')%nat
  /\ (nClock w <= nClock w')%nat
  /\ forall s', In s' (stations w') ->
       In s' (stations w)
       \/ exists d kr kc, In d docs /\ (nRandom w <= kr < nRandom w')%nat
                          /\ (nClock w <= kc)%nat /\ mutatedBy env ar kr kc d s'.
Proof.
  induction docs as [|d rest IH]; intros w; cbv zeta.
  - simpl. repeat split; auto.
  - destruct (scrapeStation_run d w)
      as (d' & w1 & Hm & Hc & Hr & Hs & Erun).
    change (forOf (d :: rest) (scrapeStationIn env ar))
      with (bind (scrapeStationIn env ar d) (fun _ => forOf rest (scrapeStationIn env ar))).
    destruct (storeFails env (nStore w1)).
    + erewrite bind_throw by exact Erun. simpl. rewrite Hs, Hr.
      repeat split; auto.
    + erewrite bind_ok by exact Erun.
      set (w2 := with_stations (tickStore w1) (replaceStation d' (stations w1))).
      destruct (IH w2) as (Hr2 & Hc2 & Hst). simpl in Hr2, Hc2.
      split; [lia|]. split; [lia|].
      intros s' Hs'. destruct (Hst s' Hs') as [Hin|(d2 & kr & kc & Hd2 & Hkr & Hkc & Hm2)].
      * simpl in Hin. unfold replaceStation in Hin. apply in_map_iff in Hin.
        destruct Hin as (y & Ey & Hy).
        destruct (String.eqb (Station._id y) (Station._id d')).
        -- right. exists d, (nRandom w), (nClock w). subst s'.
           split; [left; reflexivity|]. split; [lia|]. split; [lia|exact Hm].
        -- left. subst s'. rewrite <- Hs. exact Hy.
      * right. exists d2, kr, kc. simpl in Hkr, Hkc.
        split; [right; exact Hd2|]. split; [lia|]. split; [lia|exact Hm2].
Qed.

(** Where the pass leaves the Station collection and the count of draws:
    as they were, when the query of the active stations is rejected;
    otherwise as the loop over the documents leaves them. *)
Lemma scrapeFuelPrices_shape w :
  let w' := snd (scrapeFuelPricesIn env ar w) in
  let w0 := tickStore (with_console w
                (console w ++ [Log "Starting fuel price scraping..."])) in
  let w1 := snd (forOf (filter Station.isActive (stations w))
                       (scrapeStationIn env ar) w0) in
  (storeFails env (nStore w) = true /\ stations w' = stations w)
  \/ (storeFails env (nStore w) = false
      /\ stations w' = stations w1 /\ nRandom w' = nRandom w1).
Proof.
  intros w' w0 w1. unfold w', scrapeFuelPricesIn.
  erewrite bind_ok by reflexivity. unfold tryCatch.
  destruct (storeFails env (nStore w)) eqn:Hs.
  - left. split; [reflexivity|].
    erewrite bind_throw
      by (unfold Station_find_active, storeOp, bind; simpl; rewrite Hs;
          reflexivity).
    reflexivity.
  - right. split; [reflexivity|].
    erewrite bind_ok
      by (unfold Station_find_active, storeOp, bind, getStations, ret; simpl;
          rewrite Hs; reflexivity).
    fold w0. unfold w1.
    destruct (forOf (filter Station.isActive (stations w)) (scrapeStationIn env ar) w0)
      as [[u|e] w2] eqn:Eloop.
    + erewrite bind_ok by exact Eloop. erewrite bind_ok by reflexivity.
      match goal with
      | |- context [checkPriceAlerts env ?x] =>
        pose proof (checkPriceAlerts_frames_stations env x) as F;
        pose proof (checkPriceAlerts_frames_nRandom env x) as F';
        destruct (checkPriceAlerts env x) as [[u'|e'] w3]
      end; simpl in *; rewrite F, F'; auto.
    + erewrite bind_throw by exact Eloop. simpl. auto.
Qed.

(** The pass, whatever the store does: the station stored under the id of
    [s] is [s] itself or its mutated copy. *)
Lemma scrapeFuelPrices_any w s s' :
  NoDup (map Station._id (stations w)) ->
  In s (stations w) ->
  let w' := snd (scrapeFuelPricesIn env ar w) in
  In s' (stations w') ->
  Station._id s' = Station._id s ->
  s' = s
  \/ exists kr kc, (nRandom w <= kr < nRandom w')%nat /\ (nClock w <= kc)%nat
                   /\ mutatedBy env ar kr kc s s'.
Proof.
  intros Hnd Hin w' Hs' Hid.
  assert (Hcases : In s' (stations w)
                   \/ exists d kr kc, In d (stations w)
                        /\ (nRandom w <= kr < nRandom w')%nat
                        /\ (nClock w <= kc)%nat /\ mutatedBy env ar kr kc d s').
  { destruct (scrapeFuelPrices_shape w) as [[_ Hst]|(_ & Hst & Hr)];
      fold w' in Hst; rewrite Hst in Hs'; [left; exact Hs'|].
    fold w' in Hr. rewrite Hr.
    match type of Hst with
    | _ = stations (snd (forOf ?docs _ ?w0)) =>
      destruct (scrapeLoop_any docs w0) as (_ & _ & Hloop)
    end.
    destruct (Hloop s' Hs') as [H|(d & kr & kc & Hd & Hkr & Hkc & Hm)];
      [left; exact H|].
    right. exists d, kr, kc. apply filter_In in Hd.
    split; [apply Hd|]. split; [exact Hkr|]. split; [exact Hkc|exact Hm]. }
  destruct Hcases as [H|(d & kr & kc & Hd & Hkr & Hkc & Hm)].
  - left. apply (NoDup_map_inj_in Station._id (stations w)); auto.
  - right. exists kr, kc. split; [exact Hkr|]. split; [exact Hkc|].
    assert (d = s); [|subst; exact Hm].
    apply (NoDup_map_inj_in Station._id (stations w)); auto.
    destruct Hm as (E & _). congruence.
Qed.
End MutatorPass.

(** ** The floor after a pass *)

(** C1. For every active station of the store and each fuel type whose
    price is present and at or above its floor (6.0 for gasoline95, 6.2 for
    gasoline98, 5.8 for diesel), the station stored under its id after one
    run of [scrapeFuelPrices] has that price at or above the floor: for every
    environment, so for every random perturbation (and every clock reading
    and every pattern of rejected store operations).  So a station whose
    three prices are at or above their floors keeps the three there. *)
Theorem scrape_keeps_floor (env : Env) (w : World) (s : Station.t) :
  NoDup (map Station._id (stations w)) ->
  In s (stations w) ->
  Station.isActive s = true ->
  let w' := snd (scrapeFuelPrices env w) in
  (exists s', In s' (stations w') /\ Station._id s' = Station._id s)
  /\ (forall f s',
        aboveFloor f (getFuel (Station.fuelTypes s) f) ->
        In s' (stations w') -> Station._id s' = Station._id s ->
        aboveFloor f (getFuel (Station.fuelTypes s') f))
  /\ (aboveFloors s ->
      forall s', In s' (stations w') -> Station._id s' = Station._id s ->
                 aboveFloors s').
Proof.
  intros Hnd Hin Hact w'.
  assert (Hfuel : forall f s',
             aboveFloor f (getFuel (Station.fuelTypes s) f) ->
             In s' (stations w') -> Station._id s' = Station._id s ->
             aboveFloor f (getFuel (Station.fuelTypes s') f)).
  { intros f s' Hfl.
    pose (I := fun x : Station.t =>
                 Station._id x = Station._id s ->
                 aboveFloor f (getFuel (Station.fuelTypes x) f)).
    assert (K : Forall I (stations w')).
    { apply (scrapeFuelPrices_keeps env exactQ I).
      - intros kr kc d d' Hm Hd Hid. eapply mutatedBy_aboveFloor; [exact Hm|].
        apply Hd. destruct Hm as (E & _). congruence.
      - apply Forall_forall. intros x Hx Hid.
        assert (x = s); [|subst; exact Hfl].
        apply (NoDup_map_inj_in Station._id (stations w)); auto. }
    rewrite Forall_forall in K. exact (K s'). }
  split; [|split].
  - assert (Hid : In (Station._id s) (map Station._id (stations w'))).
    { unfold w', scrapeFuelPrices. rewrite scrapeFuelPrices_ids. apply in_map, Hin. }
    apply in_map_iff in Hid. destruct Hid as (s' & E & Hs'). eauto.
  - exact Hfuel.
  - intros Hall s' Hs' Hid f. apply Hfuel; auto.
Qed.

(** ** A pass during which no store operation rejects *)

Section FaultFreePass.
Variable env : Env.
Variable ar : Arith.
Hypothesis store_up : forall k, storeFails env k = false.

Lemma scrapeStation_spec d w :
  exists d' w',
    scrapeStationIn env ar d w = (Ok tt, w')
    /\ mutatedBy env ar (nRandom w) (nClock w) d d'
    /\ stations w' = replaceStation d' (stations w)
    /\ (nClock w <= nClock w')%nat
    /\ nRandom w' = S (nRandom w).
Proof.
  destruct (scrapeDoc_spec env ar d w)
    as (d' & w1 & E & Hm & Hc & Hr & Hs & _).
  unfold scrapeStationIn, bind at 1. rewrite E.
  unfold Station_save, storeOp, bind, getStations, setStations.
  rewrite store_up. simpl. exists d'. eexists. split; [reflexivity|]. simpl.
  rewrite Hs. auto.
Qed.

(** The loop over the documents [docs] that the query returned: every stored
    station is afterwards either the mutated copy of one of them, or a
    station the loop did not visit, unchanged. *)
Lemma scrapeLoop_spec docs : forall w,
  exists w',
    forOf docs (scrapeStationIn env ar) w = (Ok tt, w')
    /\ nRandom w' = (nRandom w + List.length docs)%nat
    /\ (nClock w <= nClock w')%nat
    /\ forall s', In s' (stations w') ->
         (exists d kr kc, In d docs
                          /\ (nRandom w <= kr < nRandom w')%nat
                          /\ (nClock w <= kc)%nat
                          /\ mutatedBy env ar kr kc d s')
         \/ (In s' (stations w)
             /\ ~ In (Station._id s') (map Station._id docs)).
Proof.
  induction docs as [|d rest IH]; intros w.
  - exists w. simpl. repeat split; auto; try lia.
  - destruct (scrapeStation_spec d w) as (d' & w1 & E1 & Hm & Hs1 & Hc1 & Hr1).
    destruct (IH w1) as (w' & E' & Hr' & Hc' & Hst).
    exists w'. simpl. unfold bind. rewrite E1. split; [exact E'|].
    split; [lia|]. split; [lia|].
    intros s' Hs'. destruct (Hst s' Hs') as [(d2 & kr & kc & Hd2 & Hkr & Hkc & Hm2)|[Hin Hnot]].
    + left. exists d2, kr, kc.
      split; [right; exact Hd2|]. split; [lia|]. split; [lia|exact Hm2].
    + rewrite Hs1 in Hin. unfold replaceStation in Hin.
      apply in_map_iff in Hin. destruct Hin as (y & Ey & Hy).
      destruct (String.eqb (Station._id y) (Station._id d')) eqn:Eid.
      * left. exists d, (nRandom w), (nClock w). subst s'.
        split; [left; reflexivity|]. split; [lia|]. split; [lia|exact Hm].
      * right. subst s'. split; [exact Hy|].
        intros [Hd|Hr]; [|exact (Hnot Hr)].
        apply String.eqb_neq in Eid. apply Eid.
        destruct Hm as (Hid & _). congruence.
Qed.

(** The pass as a whole: one [Math.random()] draw per active station, and the
    station stored under the id of an active station [s] is the mutated copy
    of [s]. *)
Lemma scrapeFuelPrices_pass w s :
  NoDup (map Station._id (stations w)) ->
  In s (stations w) ->
  Station.isActive s = true ->
  let w' := snd (scrapeFuelPricesIn env ar w) in
  nRandom w' = (nRandom w + List.length (filter Station.isActive (stations w)))%nat
  /\ exists s' kr kc,
       (nRandom w <= kr < nRandom w')%nat /\ (nClock w <= kc)%nat
       /\ mutatedBy env ar kr kc s s'
       /\ In s' (stations w')
       /\ forall s'', In s'' (stations w') ->
                      Station._id s'' = Station._id s -> s'' = s'.
Proof.
  intros Hnd Hin Hact w'.
  assert (Hids : map Station._id (stations w') = map Station._id (stations w))
    by apply scrapeFuelPrices_ids.
  pose (docs := filter Station.isActive (stations w)).
  pose (w0 := tickStore (with_console w
                 (console w ++ [Log "Starting fuel price scraping..."]))).
  destruct (scrapeLoop_spec docs w0) as (w1 & E1 & Hr1 & Hc1 & Hst).
  assert (Hrun : stations w' = stations w1 /\ nRandom w' = nRandom w1).
  { assert (Efind : Station_find_active env
                      (with_console w
                         (console w ++ [Log "Starting fuel price scraping..."]))
                    = (Ok docs, w0)).
    { unfold Station_find_active, storeOp, bind, getStations, ret. simpl.
      rewrite store_up. reflexivity. }
    unfold w', scrapeFuelPricesIn.
    erewrite bind_ok by reflexivity. unfold tryCatch.
    erewrite bind_ok by exact Efind.
    erewrite bind_ok by exact E1.
    erewrite bind_ok by reflexivity.
    match goal with
    | |- context [checkPriceAlerts env ?x] =>
      pose proof (checkPriceAlerts_frames_stations env x) as F1;
      pose proof (checkPriceAlerts_frames_nRandom env x) as F2;
      destruct (checkPriceAlerts env x) as [[u|e] w2]
    end; simpl in *; rewrite F1, F2; auto. }
  destruct Hrun as [Hst' Hr'].
  split; [rewrite Hr', Hr1; reflexivity|].
  assert (Hex : In (Station._id s) (map Station._id (stations w')))
    by (rewrite Hids; apply in_map, Hin).
  apply in_map_iff in Hex. destruct Hex as (s' & Eid & Hs').
  assert (Hnd' : NoDup (map Station._id (stations w'))) by (rewrite Hids; exact Hnd).
  assert (Hdoc : In s docs) by (apply filter_In; auto).
  rewrite Hst' in Hs'.
  destruct (Hst s' Hs') as [(d & kr & kc & Hd & Hkr & Hkc & Hm)|[_ Hnot]].
  - assert (d = s).
    { apply (NoDup_map_inj_in Station._id (stations w)); auto.
      - apply filter_In in Hd. apply Hd.
      - destruct Hm as (E & _). congruence. }
    subst d. exists s', kr, kc. rewrite Hr'.
    split; [simpl in *; lia|]. split; [simpl in *; lia|].
    split; [exact Hm|]. split.
    + rewrite Hst'. exact Hs'.
    + intros s'' Hs'' E''.
      apply (NoDup_map_inj_in Station._id (stations w')); auto.
      * rewrite Hst'. exact Hs'.
      * congruence.
  - exfalso. apply Hnot. rewrite Eid. apply in_map, Hdoc.
Qed.
End FaultFreePass.

(** ** One draw per station, and the timestamps of a pass *)

Lemma teneNetanya_aboveFloors : aboveFloors teneNetanya.
Proof.
  intros [| |]; eexists; (split; [reflexivity|]); unfold Qle; simpl; lia.
Qed.

Lemma teneNetanyaAfter_stored :
  In teneNetanyaAfter (stations (snd (scrapeFuelPrices quietEnv oneStationWorld)))
  /\ Station._id teneNetanyaAfter = Station._id teneNetanya.
Proof. split; vm_compute; [left|]; reflexivity. Qed.

Lemma oneStationWorld_ids : NoDup (map Station._id (stations oneStationWorld)).
Proof. repeat constructor; simpl; tauto. Qed.

Lemma scrape_keeps_floor_witness :
  NoDup (map Station._id (stations oneStationWorld))
  /\ In teneNetanya (stations oneStationWorld)
  /\ Station.isActive teneNetanya = true
  /\ aboveFloors teneNetanya
  /\ aboveFloors teneNetanyaAfter.
Proof.
  assert (H2 : In teneNetanya (stations oneStationWorld))
    by (left; reflexivity).
  repeat split; auto using teneNetanya_aboveFloors, oneStationWorld_ids.
  destruct (scrape_keeps_floor quietEnv oneStationWorld teneNetanya
              oneStationWorld_ids H2 eq_refl) as (_ & _ & Hall).
  apply (Hall teneNetanya_aboveFloors); apply teneNetanyaAfter_stored.
Defined.

Lemma mutatedBy_bumpedPrices env ar kr kc s s' :
  mutatedBy env ar kr kc s s' ->
  bumpedPrices ar s s' (jsMul ar (jsSub ar (random env kr) 0.5) 0.20).
Proof.
  intros (_ & _ & _ & Hf) f p Hp. specialize (Hf f).
  unfold bumped in Hf. rewrite Hp in Hf.
  destruct (Qeq_bool p 0) eqn:Hz.
  - split; [|intros _; exact Hf].
    intros Hnz. exfalso. apply Hnz, Qeq_bool_eq, Hz.
  - split; [intros _; apply Hf|].
    intros Hq. apply Qeq_bool_iff in Hq. congruence.
Qed.

Lemma mutatedBy_stampedFrom env ar w kr kc s s' :
  (nClock w <= kc)%nat -> mutatedBy env ar kr kc s s' -> stampedFrom env w s s'.
Proof.
  intros Hkc (_ & _ & (k & Hk & Hls) & Hf). split.
  - exists k. split; [lia|exact Hls].
  - intros f p Hp Hnz. specialize (Hf f). unfold bumped in Hf. rewrite Hp in Hf.
    destruct (Qeq_bool p 0) eqn:Hz.
    + exfalso. apply Hnz. apply Qeq_bool_eq, Hz.
    + destruct Hf as (_ & k' & Hk' & Hl). exists k'. split; [lia|exact Hl].
Qed.

(** C4, as the code has it.  In one run of the Price Mutator, in whatever
    arithmetic [ar] its sums and products are computed (the doubles of the
    source or the rationals), the station stored afterwards under the id of
    a station [s] is [s] untouched (the pass did not visit or could not save
    it) or there is one [delta], computed from one [Math.random()] draw of
    the pass, such that each price of [s] that is present and not zero has
    become [max(floor, price + delta)] with the floor of its fuel type, the
    same [delta] for the three fuel types, while an entry whose price is
    zero is left as it is.  When [s] is active and the store answers
    throughout the pass it is the latter, and the pass makes exactly one
    draw per active station. *)
Theorem scrape_single_perturbation (env : Env) (ar : Arith) (w : World)
  (s : Station.t) :
  NoDup (map Station._id (stations w)) ->
  In s (stations w) ->
  let w' := snd (scrapeFuelPricesIn env ar w) in
  (forall s', In s' (stations w') -> Station._id s' = Station._id s ->
     s' = s
     \/ exists delta, drawn env ar w w' delta /\ bumpedPrices ar s s' delta)
  /\ (Station.isActive s = true ->
      (forall k, storeFails env k = false) ->
      nRandom w'
      = (nRandom w + List.length (filter Station.isActive (stations w)))%nat
      /\ exists delta,
           drawn env ar w w' delta
           /\ (exists s', In s' (stations w') /\ Station._id s' = Station._id s)
           /\ forall s', In s' (stations w') ->
                         Station._id s' = Station._id s ->
                         bumpedPrices ar s s' delta).
Proof.
  intros Hnd Hin w'. split.
  - intros s' Hs' Hid.
    destruct (scrapeFuelPrices_any env ar w s s' Hnd Hin Hs' Hid)
      as [E|(kr & kc & Hkr & _ & Hm)]; [left; exact E|].
    right. exists (jsMul ar (jsSub ar (random env kr) 0.5) 0.20).
    split; [exists kr; auto|]. eapply mutatedBy_bumpedPrices, Hm.
  - intros Hact Hup.
    destruct (scrapeFuelPrices_pass env ar Hup w s Hnd Hin Hact)
      as (Hr & s1 & kr & kc & Hkr & Hkc & Hm & Hs1 & Huniq).
    fold w' in Hr, Hkr, Hs1, Huniq. split; [exact Hr|].
    exists (jsMul ar (jsSub ar (random env kr) 0.5) 0.20).
    split; [exists kr; auto|].
    split; [exists s1; split; [exact Hs1|apply Hm]|].
    intros s' Hs' Hid'. rewrite (Huniq s' Hs' Hid').
    eapply mutatedBy_bumpedPrices, Hm.
Qed.

Lemma teneNetanyaAfter_stored_in :
  In teneNetanyaAfter
     (stations (snd (scrapeFuelPricesIn quietEnv exactQ oneStationWorld)))
  /\ Station._id teneNetanyaAfter = Station._id teneNetanya.
Proof. split; vm_compute; [left|]; reflexivity. Qed.

Lemma scrape_single_perturbation_witness :
  exists delta,
    delta == - (1 # 10)
    /\ price (gasoline95 (Station.fuelTypes teneNetanyaAfter))
       = Some (Qmax 6.0 (6.85 + delta))
    /\ price (gasoline98 (Station.fuelTypes teneNetanyaAfter))
       = Some (Qmax 6.2 (7.10 + delta))
    /\ price (diesel (Station.fuelTypes teneNetanyaAfter))
       = Some (Qmax 5.8 (6.50 + delta)).
Proof.
  destruct (proj2 (scrape_single_perturbation quietEnv exactQ oneStationWorld
                     teneNetanya oneStationWorld_ids (or_introl eq_refl))
              eq_refl (fun _ => eq_refl))
    as (_ & delta & (kr & _ & Hd) & _ & H).
  exists delta. split; [rewrite Hd; reflexivity|].
  destruct teneNetanyaAfter_stored_in as [Hin Hid].
  destruct (H _ Hin Hid Gasoline95 6.85 eq_refl) as [H95 _].
  destruct (H _ Hin Hid Gasoline98 7.10 eq_refl) as [H98 _].
  destruct (H _ Hin Hid Diesel 6.50 eq_refl) as [Hd' _].
  split; [exact (H95 ltac:(discriminate))|].
  split; [exact (H98 ltac:(discriminate))|exact (Hd' ltac:(discriminate))].
Defined.

(** C4, as stated, fails for a price of zero.  The diesel price 0 of the
    station is present, yet the pass, which moves the two other prices by
    the perturbation it draws, leaves it at 0; and 0 is [max(floor, 0 +
    delta)] for no [delta], in whatever arithmetic the sum is computed, the
    floor being 5.8. *)
Lemma zero_price_is_not_perturbed :
  let w' := snd (scrapeFuelPrices quietEnv (alertWorld 0 None)) in
  stations (alertWorld 0 None) = [sonolJerusalem 0]
  /\ price (diesel (Station.fuelTypes (sonolJerusalem 0))) = Some 0
  /\ (exists s',
        stations w' = [s']
        /\ price (gasoline95 (Station.fuelTypes s'))
           = Some (Qmax 6.0 (6.95 + (0 - 0.5) * 0.20))
        /\ price (gasoline98 (Station.fuelTypes s'))
           = Some (Qmax 6.2 (7.25 + (0 - 0.5) * 0.20))
        /\ price (diesel (Station.fuelTypes s')) = Some 0)
  /\ forall (ar : Arith) delta, ~ 0 == Qmax (floorOf Diesel) (jsAdd ar 0 delta).
Proof.
  cbv zeta. split; [reflexivity|]. split; [reflexivity|]. split.
  - eexists. split; [vm_compute; reflexivity|].
    split; [vm_compute; reflexivity|]. split; vm_compute; reflexivity.
  - intros ar delta H.
    pose proof (Q.le_max_l (floorOf Diesel) (jsAdd ar 0 delta)) as Hle.
    rewrite <- H in Hle. unfold Qle in Hle. simpl in Hle. lia.
Qed.

(** C9, as the code has it.  In one run of [scrapeFuelPrices], the station
    stored afterwards under the id of a station [s] is [s] untouched, or its
    [lastScraped], and the [lastUpdated] of each fuel type whose price passes
    the guard, are clock readings made during the pass; it is the latter when
    [s] is active and the store answers throughout.  Such timestamps are
    strictly greater than the values before the pass whenever the clock, from
    the start of the pass on, reads later than those values. *)
Theorem scrape_stamps_clock (env : Env) (w : World) (s : Station.t) :
  NoDup (map Station._id (stations w)) ->
  In s (stations w) ->
  let w' := snd (scrapeFuelPrices env w) in
  (forall s', In s' (stations w') -> Station._id s' = Station._id s ->
     s' = s \/ stampedFrom env w s s')
  /\ (Station.isActive s = true ->
      (forall k, storeFails env k = false) ->
      (exists s', In s' (stations w') /\ Station._id s' = Station._id s)
      /\ forall s', In s' (stations w') -> Station._id s' = Station._id s ->
                    stampedFrom env w s s')
  /\ (forall s', stampedFrom env w s s' ->
       ((forall k, (nClock w <= k)%nat ->
                   (Station.lastScraped s < clock env k)%Z) ->
        (Station.lastScraped s < Station.lastScraped s')%Z)
       /\ (forall f p t,
             price (getFuel (Station.fuelTypes s) f) = Some p -> ~ p == 0 ->
             lastUpdated (getFuel (Station.fuelTypes s) f) = Some t ->
             (forall k, (nClock w <= k)%nat -> (t < clock env k)%Z) ->
             exists t', lastUpdated (getFuel (Station.fuelTypes s') f) = Some t'
                        /\ (t < t')%Z)).
Proof.
  intros Hnd Hin w'. split; [|split].
  - intros s' Hs' Hid.
    destruct (scrapeFuelPrices_any env exactQ w s s' Hnd Hin Hs' Hid)
      as [E|(kr & kc & _ & Hkc & Hm)]; [left; exact E|].
    right. eapply mutatedBy_stampedFrom; eauto.
  - intros Hact Hup.
    destruct (scrapeFuelPrices_pass env exactQ Hup w s Hnd Hin Hact)
      as (_ & s1 & kr & kc & _ & Hkc & Hm & Hs1 & Huniq).
    fold w' in Hs1, Huniq.
    split; [exists s1; split; [exact Hs1|apply Hm]|].
    intros s' Hs' Hid'. rewrite (Huniq s' Hs' Hid').
    eapply mutatedBy_stampedFrom; eauto.
  - intros s' ((k & Hk & Hls) & Hfuel). split.
    + intros Hclock. rewrite Hls. apply Hclock, Hk.
    + intros f p t Hp Hnz Ht Hclock.
      destruct (Hfuel f p Hp Hnz) as (k' & Hk' & Hl).
      exists (clock env k'). split; [exact Hl|]. apply Hclock, Hk'.
Qed.

Lemma scrape_stamps_clock_witness :
  (Station.lastScraped teneNetanya < Station.lastScraped teneNetanyaAfter)%Z.
Proof.
  destruct (scrape_stamps_clock quietEnv oneStationWorld teneNetanya
              oneStationWorld_ids (or_introl eq_refl))
    as (_ & Hact & Hlater).
  destruct teneNetanyaAfter_stored as [Hin Hid].
  destruct (Hact eq_refl (fun _ => eq_refl)) as (_ & Hst).
  apply (Hlater _ (Hst _ Hin Hid)).
  intros k _. change (1000 < 5000 + Z.of_nat k)%Z. lia.
Defined.

(** C9, as stated, fails: after the pass the timestamps of [futureStation]
    are the clock readings 5000..5003, which are below the stored 9000. *)
Lemma scrape_stamps_not_strictly_greater :
  exists s',
    stations (snd (scrapeFuelPrices quietEnv (with_stations emptyWorld [futureStation])))
    = [s']
    /\ Station._id s' = Station._id futureStation
    /\ Station.lastScraped s' = 5003%Z
    /\ lastUpdated (gasoline95 (Station.fuelTypes s')) = Some 5000%Z
    /\ ~ (Station.lastScraped futureStation < Station.lastScraped s')%Z
    /\ ~ (9000 < 5000)%Z.
Proof.
  eexists. split; [vm_compute; reflexivity|]. simpl.
  repeat split; try reflexivity; lia.
Qed.

(** ** The Alert Evaluator *)

Section EvaluatorFacts.
Variable env : Env.

(** The loop body never throws, pushes at most at the end of the batch and
    reads the clock at most twice. *)
Lemma checkAlert_total pa tr w :
  exists a b w',
    checkAlert env pa tr w = (Ok (a, tr ++ b), w')
    /\ (w' = w \/ w' = tickClock w \/ w' = tickClock (tickClock w)).
Proof.
  unfold checkAlert. destruct pa as [alert st]. simpl.
  destruct (Alert.isActive alert); simpl;
    [|exists alert, [], w; rewrite app_nil_r; auto].
  destruct st as [station|]; [|exists alert, [], w; rewrite app_nil_r; auto].
  destruct (price _) as [p|]; [|exists alert, [], w; rewrite app_nil_r; auto].
  destruct (negb (Qeq_bool p 0) && Qle_bool p (Alert.targetPrice alert));
    [|exists alert, [], w; rewrite app_nil_r; auto].
  unfold bind, now, ret. simpl.
  destruct (match Alert.lastTriggered alert with
            | Some lastTriggered => _
            | None => true
            end).
  - eexists _, [_], _. split; [reflexivity|auto].
  - exists alert, [], (tickClock w). rewrite app_nil_r. auto.
Qed.

Lemma alertLoop_total pas : forall tr w,
  exists alerts b w',
    alertLoop env pas tr w = (Ok (alerts, tr ++ b), w')
    /\ List.length alerts = List.length pas.
Proof.
  induction pas as [|pa rest IH]; intros tr w; simpl.
  - exists [], [], w. rewrite app_nil_r. auto.
  - destruct (checkAlert_total pa tr w) as (a & b & w1 & E1 & _).
    destruct (IH (tr ++ b) w1) as (alerts & b' & w2 & E2 & Hlen).
    exists (a :: alerts), (b ++ b'), w2.
    unfold bind. rewrite E1. simpl. rewrite E2. simpl.
    rewrite app_assoc. auto.
Qed.

(** The loop over a concatenation is the loop over its first part followed
    by the loop over the rest. *)
Lemma alertLoop_app l1 l2 tr w a1 tr1 w1 :
  alertLoop env l1 tr w = (Ok (a1, tr1), w1) ->
  alertLoop env (l1 ++ l2) tr w =
  match alertLoop env l2 tr1 w1 with
  | (Ok r, w2) => (Ok (a1 ++ fst r, snd r), w2)
  | (Throw e, w2) => (Throw e, w2)
  end.
Proof.
  revert tr w a1 tr1 w1. induction l1 as [|pa rest IH]; intros tr w a1 tr1 w1 E.
  - simpl in E. unfold ret in E. inversion E; subst. simpl.
    destruct (alertLoop env l2 tr1 w1) as [[[a2 tr2]|e] w2]; reflexivity.
  - simpl in *. unfold bind in *.
    destruct (checkAlert env pa tr w) as [[r|e] w0]; [|discriminate].
    destruct (alertLoop env rest (snd r) w0) as [[r'|e] w0'] eqn:E'; [|discriminate].
    unfold ret in E. inversion E; subst.
    rewrite (IH _ _ _ _ _ (eq_trans E' (f_equal (fun x => (Ok x, w1))
                                        (surjective_pairing r')))).
    destruct (alertLoop env l2 (snd r') w1) as [[r2|e] w2]; reflexivity.
Qed.

(** An alert that fires: active, its station resolves, the price read passes
    the guard [currentPrice && currentPrice <= targetPrice], and it was never
    triggered or was last triggered before [Date.now() - 24h]. *)
Lemma checkAlert_fires alert station p tr w :
  Alert.isActive alert = true ->
  price (getFuel (Station.fuelTypes station) (Alert.fuelType alert)) = Some p ->
  ~ p == 0 ->
  p <= Alert.targetPrice alert ->
  (forall t, Alert.lastTriggered alert = Some t ->
             (t < clock env (nClock w) - oneDayMs)%Z) ->
  checkAlert env (alert, Some station) tr w
  = (Ok (Alert.with_lastTriggered alert (Some (clock env (S (nClock w)))),
         tr ++ [entryOf alert station p]),
     tickClock (tickClock w)).
Proof.
  intros Hact Hp Hnz Hle Hlast. unfold checkAlert. simpl.
  rewrite Hact, Hp. simpl.
  assert (Hz : Qeq_bool p 0 = false).
  { destruct (Qeq_bool p 0) eqn:E; [|reflexivity].
    exfalso. apply Hnz, Qeq_bool_eq, E. }
  apply Qle_bool_iff in Hle. rewrite Hz, Hle. simpl.
  unfold bind, now, ret. simpl.
  destruct (Alert.lastTriggered alert) as [t|] eqn:Et; [|reflexivity].
  specialize (Hlast t eq_refl). apply Z.ltb_lt in Hlast. rewrite Hlast.
  reflexivity.
Qed.

(** An alert inside its suppression window: last triggered less than 24
    hours before the time [Date.now()] reads. *)
Lemma checkAlert_suppressed alert st t tr w :
  Alert.lastTriggered alert = Some t ->
  (clock env (nClock w) - t < oneDayMs)%Z ->
  exists w', (w' = w \/ w' = tickClock w)
             /\ checkAlert env (alert, st) tr w = (Ok (alert, tr), w').
Proof.
  intros Et Hwin. unfold checkAlert. simpl.
  destruct (Alert.isActive alert); simpl; [|exists w; auto].
  destruct st as [station|]; [|exists w; auto].
  destruct (price _) as [p|]; [|exists w; auto].
  destruct (negb (Qeq_bool p 0) && Qle_bool p (Alert.targetPrice alert));
    [|exists w; auto].
  unfold bind, now, ret. simpl. rewrite Et.
  assert (Hn : (t <? clock env (nClock w) - oneDayMs)%Z = false)
    by (apply Z.ltb_ge; lia).
  rewrite Hn. exists (tickClock w). auto.
Qed.
End EvaluatorFacts.

(** ** Notifier *)

(** [sendPriceAlertEmail] makes one [sendMail] call and returns normally
    whether or not the transport rejects. *)
Lemma sendPriceAlertEmail_run env user alerts w :
  sendPriceAlertEmail env user alerts w =
  if mailFails env (nMail w)
  then (Ok tt, with_console (tickMail w)
                 (console w ++ [LogErr "Error sending price alert email:" MailError]))
  else (Ok tt, with_console (tickMail (with_outbox w (outbox w ++ [mailFor user alerts])))
                 (console w ++ [LogS "Price alert email sent to" (User.email user)])).
Proof.
  unfold sendPriceAlertEmail, tryCatch, bind, sendMail, consoleLog.
  destruct (mailFails env (nMail w)); reflexivity.
Qed.

(** ** Alerts that fire and alerts that are suppressed *)

(** C2, as the code has it.  For a user whose populated alerts are
    [l1 ++ (alert, Some station) :: l2], once the loop has evaluated [l1]:
    if [alert] is active, the station's price for the alert's fuel type is
    present, not zero and at most the target price, and the alert was never
    triggered or was last triggered more than 24 hours before the time
    [Date.now()] reads, then the loop appends the alert's entry to the user's
    batch and sets its [lastTriggered] to the time [new Date()] reads; the
    evaluator then calls the Notifier once with the batch and saves the user
    with the updated alerts.  In the scenario of a never-triggered alert with
    target 6.30 on a station whose diesel price is 6.20, the run of
    [checkPriceAlerts] hands exactly one mail with exactly one entry to the
    transport and stores the clock reading as [lastTriggered]. *)
Theorem alert_fires (env : Env) :
  (forall user l1 alert station l2 p w a1 tr1 w1,
     alertLoop env l1 [] w = (Ok (a1, tr1), w1) ->
     Alert.isActive alert = true ->
     price (getFuel (Station.fuelTypes station) (Alert.fuelType alert)) = Some p ->
     ~ p == 0 ->
     p <= Alert.targetPrice alert ->
     (forall t, Alert.lastTriggered alert = Some t ->
                (t < clock env (nClock w1) - oneDayMs)%Z) ->
     let alert' :=
       Alert.with_lastTriggered alert (Some (clock env (S (nClock w1)))) in
     let pas := l1 ++ (alert, Some station) :: l2 in
     exists a2 b2 w2,
       alertLoop env pas [] w
       = (Ok (a1 ++ alert' :: a2, tr1 ++ entryOf alert station p :: b2), w2)
       /\ checkUser env (user, pas) w
          = (sendPriceAlertEmail env user (tr1 ++ entryOf alert station p :: b2) ;;;
             User_save env (User.with_priceAlerts user (a1 ++ alert' :: a2))) w2)
  /\ (let w' := snd (checkPriceAlerts quietEnv (alertWorld 6.20 None)) in
      outbox w' = [mailFor (dana None)
                     [entryOf (dieselAlert None) (sonolJerusalem 6.20) 6.20]]
      /\ nMail w' = 1%nat
      /\ users w' = [dana (Some 5001%Z)]).
Proof.
  split.
  - intros user l1 alert station l2 p w a1 tr1 w1 E1 Hact Hp Hnz Hle Hlast alert' pas.
    pose proof (checkAlert_fires env alert station p tr1 w1 Hact Hp Hnz Hle Hlast) as Ef.
    destruct (alertLoop_total env l2 (tr1 ++ [entryOf alert station p])
                (tickClock (tickClock w1))) as (a2 & b2 & w2 & E2 & _).
    assert (Eloop : alertLoop env pas [] w
                    = (Ok (a1 ++ alert' :: a2,
                           tr1 ++ entryOf alert station p :: b2), w2)).
    { unfold pas. rewrite (alertLoop_app env l1 _ [] w a1 tr1 w1 E1).
      simpl. unfold bind. rewrite Ef. simpl. rewrite E2. simpl.
      rewrite <- app_assoc. reflexivity. }
    exists a2, b2, w2. split; [exact Eloop|].
    unfold checkUser. simpl. erewrite bind_ok by exact Eloop. simpl.
    destruct tr1; reflexivity.
  - vm_compute. repeat split; reflexivity.
Qed.

Lemma alert_fires_witness :
  exists a2 b2 w2,
    alertLoop quietEnv [(dieselAlert None, Some (sonolJerusalem 6.20))] []
              (alertWorld 6.20 None)
    = (Ok ([] ++ Alert.with_lastTriggered (dieselAlert None) (Some 5001%Z) :: a2,
           [] ++ entryOf (dieselAlert None) (sonolJerusalem 6.20) 6.20 :: b2), w2).
Proof.
  destruct (proj1 (alert_fires quietEnv) (dana None) []
              (dieselAlert None) (sonolJerusalem 6.20) [] 6.20
              (alertWorld 6.20 None) [] [] (alertWorld 6.20 None))
    as (a2 & b2 & w2 & E & _).
  - reflexivity.
  - reflexivity.
  - reflexivity.
  - discriminate.
  - unfold Qle; simpl; lia.
  - discriminate.
  - exists a2, b2, w2. exact E.
Defined.

(** C2, as stated, fails for a price of zero: the alert is active, its
    station resolves, the diesel price 0 is at most the target 6.30 and the
    alert was never triggered, yet [checkPriceAlerts] sends nothing and leaves
    [lastTriggered] unset. *)
Lemma zero_price_does_not_fire :
  let w := alertWorld 0 None in
  let w' := snd (checkPriceAlerts quietEnv w) in
  Alert.isActive (dieselAlert None) = true
  /\ findStation (Alert.stationId (dieselAlert None)) (stations w)
     = Some (sonolJerusalem 0)
  /\ price (getFuel (Station.fuelTypes (sonolJerusalem 0)) Diesel) = Some 0
  /\ 0 <= Alert.targetPrice (dieselAlert None)
  /\ Alert.lastTriggered (dieselAlert None) = None
  /\ checkAlert quietEnv (dieselAlert None, Some (sonolJerusalem 0)) [] w
     = (Ok (dieselAlert None, []), w)
  /\ outbox w' = []
  /\ nMail w' = 0%nat
  /\ users w' = [dana None].
Proof.
  vm_compute. repeat split; try reflexivity. discriminate.
Qed.

(** C3. For a user whose populated alerts are [l1 ++ (alert, st) :: l2], once
    the loop has evaluated [l1]: if [alert] was last triggered less than 24
    hours before the time the clock then reads, the loop leaves the alert as
    it is, [lastTriggered] included, and pushes nothing for it, whatever the
    station's price: the batch is the one of [l1] followed by what the later
    alerts [l2] push.  The evaluator then hands that batch, which has no
    entry for the alert, to the Notifier and saves the user with the alert
    as it was, or does neither when the batch is empty.  In the scenario of
    an alert with target 6.30, triggered one hour ago, on a station whose
    diesel price is 6.20, the run of [checkPriceAlerts] hands nothing to the
    transport and leaves the stored [lastTriggered] as it was. *)
Theorem alert_suppressed (env : Env) :
  (forall (user : User.t) (l1 l2 : list PopAlert) (alert : Alert.t)
          (st : option Station.t) (t : Date) (w : World)
          (a1 : list Alert.t) (tr1 : list TriggeredAlert) (w1 : World),
     alertLoop env l1 [] w = (Ok (a1, tr1), w1) ->
     Alert.lastTriggered alert = Some t ->
     (clock env (nClock w1) - t < oneDayMs)%Z ->
     let pas := l1 ++ (alert, st) :: l2 in
     exists w1' a2 b2 w2,
       (w1' = w1 \/ w1' = tickClock w1)
       /\ checkAlert env (alert, st) tr1 w1 = (Ok (alert, tr1), w1')
       /\ alertLoop env l2 tr1 w1' = (Ok (a2, tr1 ++ b2), w2)
       /\ alertLoop env pas [] w = (Ok (a1 ++ alert :: a2, tr1 ++ b2), w2)
       /\ checkUser env (user, pas) w
          = (if (0 <? List.length (tr1 ++ b2))%nat
             then sendPriceAlertEmail env user (tr1 ++ b2) ;;;
                  User_save env
                    (User.with_priceAlerts user (a1 ++ alert :: a2))
             else ret tt) w2)
  /\ (let recent := Some (5000 - 3600000)%Z in
      let w := alertWorld 6.20 recent in
      let w' := snd (checkPriceAlerts quietEnv w) in
      outbox w' = []
      /\ nMail w' = 0%nat
      /\ users w' = [dana recent]
      /\ stations w' = stations w).
Proof.
  split.
  - intros user l1 l2 alert st t w a1 tr1 w1 E1 Et Hwin pas.
    destruct (checkAlert_suppressed env alert st t tr1 w1 Et Hwin)
      as (w1' & Hw1' & Es).
    destruct (alertLoop_total env l2 tr1 w1') as (a2 & b2 & w2 & E2 & _).
    assert (Eloop : alertLoop env pas [] w
                    = (Ok (a1 ++ alert :: a2, tr1 ++ b2), w2)).
    { unfold pas. rewrite (alertLoop_app env l1 _ [] w a1 tr1 w1 E1).
      simpl. unfold bind. rewrite Es. simpl. rewrite E2. reflexivity. }
    exists w1', a2, b2, w2.
    split; [exact Hw1'|]. split; [exact Es|]. split; [exact E2|].
    split; [exact Eloop|].
    unfold checkUser. simpl. erewrite bind_ok by exact Eloop. reflexivity.
  - vm_compute. repeat split; reflexivity.
Qed.

(** The alert of [dana] was triggered one hour before the clock reading
    5000 of the pass; the diesel price 6.20 is below the target 6.30. *)
Lemma alert_suppressed_witness :
  let recent := Some (5000 - 3600000)%Z in
  let pas := [] ++ [(dieselAlert recent, Some (sonolJerusalem 6.20))] in
  exists w1' a2 b2 w2,
    (w1' = alertWorld 6.20 recent \/ w1' = tickClock (alertWorld 6.20 recent))
    /\ checkAlert quietEnv (dieselAlert recent, Some (sonolJerusalem 6.20)) []
                  (alertWorld 6.20 recent)
       = (Ok (dieselAlert recent, []), w1')
    /\ alertLoop quietEnv [] [] w1' = (Ok (a2, [] ++ b2), w2)
    /\ alertLoop quietEnv pas [] (alertWorld 6.20 recent)
       = (Ok ([] ++ dieselAlert recent :: a2, [] ++ b2), w2)
    /\ checkUser quietEnv (dana recent, pas) (alertWorld 6.20 recent)
       = (if (0 <? List.length ([] ++ b2))%nat
          then sendPriceAlertEmail quietEnv (dana recent) ([] ++ b2) ;;;
               User_save quietEnv
                 (User.with_priceAlerts (dana recent)
                    ([] ++ dieselAlert recent :: a2))
          else ret tt) w2.
Proof.
  apply (proj1 (alert_suppressed quietEnv) (dana (Some (5000 - 3600000)%Z))
           [] [] (dieselAlert (Some (5000 - 3600000)%Z))
           (Some (sonolJerusalem 6.20)) (5000 - 3600000)%Z
           (alertWorld 6.20 (Some (5000 - 3600000)%Z)) [] []
           (alertWorld 6.20 (Some (5000 - 3600000)%Z))).
  - reflexivity.
  - reflexivity.
  - vm_compute. reflexivity.
Defined.

(** ** Two runs that differ only in what the mail transport does *)

Lemma sim_ret {A} (a : A) : sim (ret a) (ret a).
Proof. intros w w' H. split; [reflexivity|exact H]. Qed.

Lemma sim_bind {A B} (m m' : M A) (k k' : A -> M B) :
  sim m m' -> (forall a, sim (k a) (k' a)) -> sim (bind m k) (bind m' k').
Proof.
  intros Hm Hk w w' H. unfold bind. destruct (Hm w w' H) as [E Ha].
  destruct (m w) as [[a|e] w1], (m' w') as [[a'|e'] w1']; simpl in *;
    try discriminate.
  - inversion E; subst. apply Hk, Ha.
  - inversion E; subst. split; [reflexivity|assumption].
Qed.

Lemma sim_tryCatch {A} (m m' : M A) (h h' : Exn -> M A) :
  sim m m' -> (forall e, sim (h e) (h' e)) -> sim (tryCatch m h) (tryCatch m' h').
Proof.
  intros Hm Hh w w' H. unfold tryCatch. destruct (Hm w w' H) as [E Ha].
  destruct (m w) as [[a|e] w1], (m' w') as [[a'|e'] w1']; simpl in *;
    try discriminate.
  - split; assumption.
  - inversion E; subst. apply Hh, Ha.
Qed.

Lemma sim_forOf {A} (xs : list A) (body body' : A -> M unit) :
  (forall x, sim (body x) (body' x)) -> sim (forOf xs body) (forOf xs body').
Proof.
  intros Hb. induction xs as [|x xs IH]; simpl.
  - apply sim_ret.
  - apply sim_bind; [apply Hb|intros u; exact IH].
Qed.

Ltac sim_prim :=
  let w := fresh "w" in let w' := fresh "w'" in let H := fresh "H" in
  intros w w' H;
  destruct H as (? & ? & ? & ? & ? & ? & ?);
  unfold now, storeOp, consoleLog, getStations, getUsers, setUsers,
    resolveIdentifier, ret, throw, agree in *;
  simpl in *;
  repeat match goal with
         | E : _ = _ |- _ => rewrite E in *; clear E
         end;
  repeat match goal with
         | |- context [if ?b then _ else _] => destruct b
         end;
  simpl; auto 10.

Section MailIndependence.
Variables env env' : Env.
Hypothesis same_clock : forall k, clock env' k = clock env k.
Hypothesis same_store : forall k, storeFails env' k = storeFails env k.

Lemma sim_now : sim (now env) (now env').
Proof.
  intros w w' H. unfold now. simpl. rewrite same_clock.
  destruct H as (? & ? & Hc & ? & ? & ? & ?). rewrite Hc.
  split; [reflexivity|]. unfold agree. simpl. auto 10.
Qed.

Lemma sim_storeOp : sim (storeOp env) (storeOp env').
Proof.
  intros w w' H. unfold storeOp. rewrite same_store.
  destruct H as (? & ? & ? & ? & Hs & ? & ?). rewrite Hs.
  destruct (storeFails env (nStore w')); simpl;
    (split; [reflexivity|unfold agree; simpl; auto 10]).
Qed.

Lemma sim_checkAlert pa tr : sim (checkAlert env pa tr) (checkAlert env' pa tr).
Proof.
  unfold checkAlert.
  destruct (negb (Alert.isActive (fst pa))); [apply sim_ret|].
  destruct (snd pa) as [station|]; [|apply sim_ret].
  destruct (price _) as [p|]; [|apply sim_ret].
  destruct (_ && _); [|apply sim_ret].
  apply sim_bind; [apply sim_now|]. intros d.
  destruct (match Alert.lastTriggered (fst pa) with
            | Some lastTriggered => _
            | None => true
            end); [|apply sim_ret].
  apply sim_bind; [apply sim_now|]. intros d'. apply sim_ret.
Qed.

Lemma sim_alertLoop pas : forall tr,
  sim (alertLoop env pas tr) (alertLoop env' pas tr).
Proof.
  induction pas as [|pa rest IH]; intros tr; simpl.
  - apply sim_ret.
  - apply sim_bind; [apply sim_checkAlert|]. intros r.
    apply sim_bind; [apply IH|]. intros r'. apply sim_ret.
Qed.

(** The Notifier returns normally in agreeing worlds whatever either
    transport does. *)
Lemma sim_sendPriceAlertEmail user alerts :
  sim (sendPriceAlertEmail env user alerts) (sendPriceAlertEmail env' user alerts).
Proof.
  intros w w' H. rewrite !sendPriceAlertEmail_run.
  destruct H as (? & ? & ? & ? & ? & ? & ?).
  destruct (mailFails env (nMail w)), (mailFails env' (nMail w')); simpl;
    (split; [reflexivity|unfold agree; simpl; auto 10]).
Qed.

Lemma sim_User_save u : sim (User_save env u) (User_save env' u).
Proof.
  unfold User_save. apply sim_bind; [apply sim_storeOp|]. intros u0.
  apply sim_bind; [|intros l]; sim_prim.
Qed.

Lemma sim_checkUser up : sim (checkUser env up) (checkUser env' up).
Proof.
  unfold checkUser. apply sim_bind; [apply sim_alertLoop|]. intros r.
  destruct (0 <? List.length (snd r))%nat; [|apply sim_ret].
  apply sim_bind; [apply sim_sendPriceAlertEmail|]. intros u.
  apply sim_User_save.
Qed.

Lemma sim_checkPriceAlerts : sim (checkPriceAlerts env) (checkPriceAlerts env').
Proof.
  unfold checkPriceAlerts, checkPriceAlerts_try.
  apply sim_tryCatch; [|intros e; sim_prim].
  apply sim_bind.
  - unfold User_find_alerting. apply sim_bind; [apply sim_storeOp|]. intros u.
    apply sim_bind; [sim_prim|]. intros us.
    apply sim_bind; [sim_prim|]. intros sts. apply sim_ret.
  - intros us. apply sim_bind; [apply sim_forOf; intros up; apply sim_checkUser|].
    intros u. apply sim_bind; [sim_prim|]. intros u'. apply sim_ret.
Qed.
End MailIndependence.

Lemma agree_refl w : agree w w.
Proof. unfold agree. auto 10. Qed.

(** ** A rejected mail and the save that follows *)

(** C8. For a user whose alert loop ended with a non-empty batch, a rejected
    [sendMail] is caught inside [sendPriceAlertEmail], which logs it and
    returns normally; [checkUser] goes on to save the user with the updated
    alerts, and when the store accepts the save the loop over users continues
    with the next user.  For the whole of [checkPriceAlerts]: the User
    collection it leaves is the same whatever the transport does. *)
Theorem mail_failure_keeps_save (env : Env) :
  (forall user pas w alerts batch w1,
     alertLoop env pas [] w = (Ok (alerts, batch), w1) ->
     batch <> [] ->
     mailFails env (nMail w1) = true ->
     let w2 := with_console (tickMail w1)
                 (console w1 ++
                  [LogErr "Error sending price alert email:" MailError]) in
     let user' := User.with_priceAlerts user alerts in
     sendPriceAlertEmail env user batch w1 = (Ok tt, w2)
     /\ checkUser env (user, pas) w = User_save env user' w2
     /\ (storeFails env (nStore w1) = false ->
         let w3 := with_users (tickStore w2) (replaceUser user' (users w1)) in
         checkUser env (user, pas) w = (Ok tt, w3)
         /\ forall rest,
              forOf ((user, pas) :: rest) (checkUser env) w
              = forOf rest (checkUser env) w3))
  /\ (forall env' w,
        (forall k, clock env' k = clock env k) ->
        (forall k, storeFails env' k = storeFails env k) ->
        users (snd (checkPriceAlerts env' w))
        = users (snd (checkPriceAlerts env w))).
Proof.
  split.
  - intros user pas w alerts batch w1 E1 Hne Hfail w2 user'.
    assert (Es : sendPriceAlertEmail env user batch w1 = (Ok tt, w2)).
    { rewrite sendPriceAlertEmail_run, Hfail. reflexivity. }
    assert (Eu : checkUser env (user, pas) w = User_save env user' w2).
    { unfold checkUser. simpl. erewrite bind_ok by exact E1. simpl.
      destruct batch as [|b batch]; [contradiction|]. simpl.
      erewrite bind_ok by exact Es. reflexivity. }
    split; [exact Es|]. split; [exact Eu|].
    intros Hup w3.
    assert (E3 : checkUser env (user, pas) w = (Ok tt, w3)).
    { rewrite Eu. unfold User_save, storeOp, bind, getUsers, setUsers.
      simpl. rewrite Hup. reflexivity. }
    split; [exact E3|]. intros rest. simpl.
    erewrite bind_ok by exact E3. reflexivity.
  - intros env' w Hc Hs.
    destruct (sim_checkPriceAlerts env env' Hc Hs w w (agree_refl w))
      as (_ & _ & Hu & _).
    symmetry. exact Hu.
Qed.

Lemma mail_failure_keeps_save_witness :
  let w := alertWorld 6.20 None in
  let w' := snd (checkPriceAlerts mailDownEnv w) in
  outbox w' = []
  /\ users w' = [dana (Some 5001%Z)]
  /\ users w' = users (snd (checkPriceAlerts quietEnv w)).
Proof.
  split; [vm_compute; reflexivity|]. split; [vm_compute; reflexivity|].
  apply (proj2 (mail_failure_keeps_save quietEnv) mailDownEnv
           (alertWorld 6.20 None)); reflexivity.
Defined.

(** ** The summary step after the loop over users *)

(** C10. [triggeredAlerts] is not bound where the summary step after the
    loop over users reads it, so whenever that loop completes the [try] block
    of [checkPriceAlerts] throws a ReferenceError: in the very world the loop
    left, that is after every mail send and every save of the loop.  The
    [catch] of the function handles it by logging: [checkPriceAlerts] returns
    normally, and stations, users and outbox are those the loop left. *)
Theorem summary_reference_error (env : Env) (w : World)
  (found : list (User.t * list PopAlert)) (w1 w2 : World) :
  User_find_alerting env w = (Ok found, w1) ->
  forOf found (checkUser env) w1 = (Ok tt, w2) ->
  let error := ReferenceError "triggeredAlerts" in
  checkPriceAlerts_try env w = (Throw error, w2)
  /\ checkPriceAlerts env w
     = (Ok tt, with_console w2
                 (console w2 ++ [LogErr "Error checking price alerts:" error]))
  /\ stations (snd (checkPriceAlerts env w)) = stations w2
  /\ users (snd (checkPriceAlerts env w)) = users w2
  /\ outbox (snd (checkPriceAlerts env w)) = outbox w2.
Proof.
  intros Efind Eloop error.
  assert (Et : checkPriceAlerts_try env w = (Throw error, w2)).
  { unfold checkPriceAlerts_try.
    erewrite bind_ok by exact Efind.
    erewrite bind_ok by exact Eloop.
    reflexivity. }
  assert (Ec : checkPriceAlerts env w
               = (Ok tt, with_console w2
                   (console w2 ++ [LogErr "Error checking price alerts:" error]))).
  { unfold checkPriceAlerts. erewrite tryCatch_throw by exact Et. reflexivity. }
  split; [exact Et|]. split; [exact Ec|]. rewrite Ec. auto.
Qed.

Lemma summary_reference_error_witness :
  let w := alertWorld 6.20 None in
  fst (checkPriceAlerts_try quietEnv w)
  = Throw (ReferenceError "triggeredAlerts")
  /\ fst (checkPriceAlerts quietEnv w) = Ok tt
  /\ users (snd (checkPriceAlerts quietEnv w)) = [dana (Some 5001%Z)]
  /\ List.length (outbox (snd (checkPriceAlerts quietEnv w))) = 1%nat.
Proof.
  destruct (summary_reference_error quietEnv (alertWorld 6.20 None)
              (fst (match User_find_alerting quietEnv (alertWorld 6.20 None) with
                    | (Ok l, _) => (l, tt)
                    | (Throw _, _) => ([], tt)
                    end))
              (snd (User_find_alerting quietEnv (alertWorld 6.20 None)))
              (snd (checkPriceAlerts_try quietEnv (alertWorld 6.20 None))))
    as (Et & Ec & _ & Hu & Ho).
  - vm_compute. reflexivity.
  - vm_compute. reflexivity.
  - cbv zeta. rewrite Et, Hu, Ho, Ec. repeat split; vm_compute; reflexivity.
Defined.

(** ** The routes *)

Lemma findStation_id id l s : findStation id l = Some s -> Station._id s = id.
Proof.
  unfold findStation. intros H. apply find_some in H.
  apply String.eqb_eq, H.
Qed.

Lemma findStation_replace id l s s' :
  findStation id l = Some s -> Station._id s' = id ->
  findStation id (replaceStation s' l) = Some s'.
Proof.
  unfold findStation, replaceStation. intros H Hid. subst id.
  induction l as [|x l IH]; [discriminate|]. simpl in *.
  destruct (String.eqb (Station._id x) (Station._id s')) eqn:E.
  - rewrite String.eqb_refl. reflexivity.
  - rewrite E. apply IH, H.
Qed.

Lemma filter_all {A} (p : A -> bool) (l : list A) :
  (forall x, In x l -> p x = true) -> filter p l = l.
Proof.
  induction l as [|x l IH]; intros H; [reflexivity|]. simpl.
  rewrite (H x (or_introl eq_refl)). f_equal. apply IH.
  intros y Hy. apply H. right. exact Hy.
Qed.

Lemma with_priceAlerts_same u : User.with_priceAlerts u (User.priceAlerts u) = u.
Proof. destruct u; reflexivity. Qed.

Lemma with_favoriteStations_same u :
  User.with_favoriteStations u (User.favoriteStations u) = u.
Proof. destruct u; reflexivity. Qed.

(** The cast of a string and the validator [isMongoId] test the same
    form. *)
Lemma castObjectId_isMongoId s oid :
  castObjectId s = Some oid -> isMongoId s = true.
Proof.
  unfold castObjectId, isMongoId.
  destruct ((String.length s =? 24)%nat
            && forallb isHexDigit (list_ascii_of_string s));
    [reflexivity|discriminate].
Qed.

Lemma isMongoId_castObjectId s :
  isMongoId s = true -> castObjectId s = Some (lowerHex s).
Proof. unfold castObjectId, isMongoId. intros H. rewrite H. reflexivity. Qed.

Lemma castId_run s oid w : castObjectId s = Some oid -> castId s w = (Ok oid, w).
Proof. intros H. unfold castId. rewrite H. reflexivity. Qed.

Lemma castId_fail s w :
  castObjectId s = None -> castId s w = (Throw (CastError s), w).
Proof. intros H. unfold castId. rewrite H. reflexivity. Qed.

Section RouteFacts.
Variable env : Env.

Lemma Station_findById_run id oid w :
  castObjectId id = Some oid ->
  storeFails env (nStore w) = false ->
  Station_findById env id w = (Ok (findStation oid (stations w)), tickStore w).
Proof.
  intros Hc H. unfold Station_findById.
  erewrite bind_ok by (apply castId_run, Hc).
  unfold storeOp, bind, getStations, ret. rewrite H. reflexivity.
Qed.

Lemma Station_findById_fail id w :
  castObjectId id = None ->
  Station_findById env id w = (Throw (CastError id), w).
Proof.
  intros Hc. unfold Station_findById.
  erewrite bind_throw by (apply castId_fail, Hc). reflexivity.
Qed.

Lemma requireUser_run id w user :
  storeFails env (nStore w) = false ->
  findUser id (users w) = Some user ->
  requireUser env id w = (Ok user, tickStore w).
Proof.
  intros H Hu. unfold requireUser, User_findById, storeOp, bind, getUsers, ret.
  rewrite H. simpl. rewrite Hu. reflexivity.
Qed.

Lemma getStation_absent id oid w :
  storeFails env (nStore w) = false ->
  castObjectId id = Some oid ->
  findStation oid (stations w) = None ->
  getStation env id w = (notFound "Station not found", tickStore w).
Proof.
  intros H Hc Hn. unfold getStation.
  erewrite tryCatch_ok; [reflexivity|].
  erewrite bind_ok by (apply Station_findById_run; eassumption).
  rewrite Hn. reflexivity.
Qed.

Lemma putStation_absent id oid ft w :
  storeFails env (nStore w) = false ->
  castObjectId id = Some oid ->
  findStation oid (stations w) = None ->
  putStation env id ft w = (notFound "Station not found", tickStore w).
Proof.
  intros H Hc Hn. unfold putStation.
  erewrite tryCatch_ok; [reflexivity|].
  erewrite bind_ok by (apply Station_findById_run; eassumption).
  rewrite Hn. reflexivity.
Qed.

(** An id that is no ObjectId: the query throws before the store is asked,
    and the handler answers 500. *)
Lemma getStation_uncast id w :
  castObjectId id = None ->
  getStation env id w
  = (Ok (mkResponse 500 (BMessage "Server error while fetching station")),
     with_console w (console w ++ [LogErr "Get station error:" (CastError id)])).
Proof.
  intros Hc. unfold getStation.
  erewrite tryCatch_throw
    by (erewrite bind_throw by (apply Station_findById_fail, Hc); reflexivity).
  reflexivity.
Qed.

Lemma putStation_uncast id ft w :
  castObjectId id = None ->
  putStation env id ft w
  = (Ok (mkResponse 500 (BMessage "Server error while updating station")),
     with_console w
       (console w ++ [LogErr "Update station error:" (CastError id)])).
Proof.
  intros Hc. unfold putStation.
  erewrite tryCatch_throw
    by (erewrite bind_throw by (apply Station_findById_fail, Hc); reflexivity).
  reflexivity.
Qed.

Lemma postFavorite_absent userId stationId oid w :
  storeFails env (nStore w) = false ->
  isMongoId stationId = true ->
  castObjectId stationId = Some oid ->
  findStation oid (stations w) = None ->
  postFavorite env userId stationId w
  = (notFound "Station not found", tickStore w).
Proof.
  intros H Hv Hc Hn. unfold postFavorite, validationErrors. simpl.
  rewrite Hv. simpl.
  erewrite tryCatch_ok; [reflexivity|].
  erewrite bind_ok by (apply Station_findById_run; eassumption).
  rewrite Hn. reflexivity.
Qed.

Lemma postAlert_absent userId b oid w :
  storeFails env (nStore w) = false ->
  validCreate b ->
  castObjectId (cStationId b) = Some oid ->
  findStation oid (stations w) = None ->
  postAlert env userId b w = (notFound "Station not found", tickStore w).
Proof.
  intros H (V1 & V2 & V3) Hc Hn. unfold postAlert, validationErrors. simpl.
  rewrite V1, V2, V3. simpl.
  unfold isFuelKey in V2. destruct (fuelOfKey (cFuelType b)); [|discriminate].
  destruct (cTargetPrice b); try discriminate.
  erewrite tryCatch_ok; [reflexivity|].
  erewrite bind_ok by (apply Station_findById_run; eassumption).
  rewrite Hn. reflexivity.
Qed.

Lemma alertById_absent alertId l :
  (forall oid, castObjectId alertId = Some oid ->
               forall a, In a l -> Alert._id a <> oid) ->
  alertById alertId l = None.
Proof.
  intros H. unfold alertById.
  destruct (castObjectId alertId) as [oid|]; [|reflexivity].
  destruct (find (fun a => String.eqb (Alert._id a) oid) l) as [a|] eqn:E;
    [|reflexivity].
  apply find_some in E. destruct E as [Ha Eid]. apply String.eqb_eq in Eid.
  exfalso. exact (H oid eq_refl a Ha Eid).
Qed.

Lemma putAlert_absent userId alertId b w user :
  storeFails env (nStore w) = false ->
  validUpdate b ->
  findUser userId (users w) = Some user ->
  alertById alertId (User.priceAlerts user) = None ->
  putAlert env userId alertId b w = (notFound "Alert not found", tickStore w).
Proof.
  intros H (V1 & V2) Hu Hn. unfold putAlert, validationErrors. simpl.
  rewrite V1, V2. simpl.
  erewrite tryCatch_ok; [reflexivity|].
  erewrite bind_ok by (eapply requireUser_run; eauto). rewrite Hn. reflexivity.
Qed.

(** Deleting by an id that matches nothing: the handler saves the user with
    the list it had and answers 200. *)
Lemma deleteAlert_absent userId alertId w user :
  storeFails env (nStore w) = false ->
  storeFails env (S (nStore w)) = false ->
  findUser userId (users w) = Some user ->
  (forall a, In a (User.priceAlerts user) -> Alert._id a <> alertId) ->
  deleteAlert env userId alertId w
  = (Ok (json (BMessage "Price alert deleted successfully")),
     with_users (tickStore (tickStore w)) (replaceUser user (users w))).
Proof.
  intros H H' Hu Hn. unfold deleteAlert.
  erewrite tryCatch_ok; [reflexivity|].
  erewrite bind_ok by (eapply requireUser_run; eauto).
  rewrite filter_all.
  - rewrite with_priceAlerts_same.
    unfold User_save, storeOp, bind, getUsers, setUsers, ret. simpl.
    rewrite H'. reflexivity.
  - intros a Ha. apply negb_true_iff, String.eqb_neq, Hn, Ha.
Qed.

Lemma deleteFavorite_absent userId stationId w user :
  storeFails env (nStore w) = false ->
  storeFails env (S (nStore w)) = false ->
  findUser userId (users w) = Some user ->
  ~ In stationId (User.favoriteStations user) ->
  deleteFavorite env userId stationId w
  = (Ok (json (BFavorites "Station removed from favorites"
                          (User.favoriteStations user))),
     with_users (tickStore (tickStore w)) (replaceUser user (users w))).
Proof.
  intros H H' Hu Hn. unfold deleteFavorite.
  erewrite tryCatch_ok; [reflexivity|].
  erewrite bind_ok by (eapply requireUser_run; eauto).
  rewrite filter_all.
  - rewrite with_favoriteStations_same.
    unfold User_save, storeOp, bind, getUsers, setUsers, ret. simpl.
    rewrite H'. reflexivity.
  - intros a Ha. apply negb_true_iff, String.eqb_neq. intros ->. exact (Hn Ha).
Qed.
End RouteFacts.

(** ** Not-found answers *)

(** C5, as the code has it.  While the store answers: the operations that
    look a station up by id (GET and PUT /api/stations/:id, and POST
    /api/users/favorites and POST /api/users/alerts once validation has
    passed) answer 404 when the id is the string of an ObjectId, in either
    case of the letters, that no station has, and PUT
    /api/users/alerts/:alertId answers 404 when the user has no alert with
    the ObjectId that the id spells (validation passed).  The others do
    not.  GET and PUT /api/stations/:id answer 500 for an id that is no
    ObjectId.  The two DELETE operations, with an id that matches nothing,
    save the user unchanged and answer 200. *)
Theorem not_found_responses (env : Env) :
  (forall k, storeFails env k = false) ->
  (forall w id oid,
     castObjectId id = Some oid ->
     findStation oid (stations w) = None ->
     fst (getStation env id w) = notFound "Station not found")
  /\ (forall w id oid ft,
        castObjectId id = Some oid ->
        findStation oid (stations w) = None ->
        fst (putStation env id ft w) = notFound "Station not found")
  /\ (forall w userId stationId oid,
        isMongoId stationId = true ->
        castObjectId stationId = Some oid ->
        findStation oid (stations w) = None ->
        fst (postFavorite env userId stationId w) = notFound "Station not found")
  /\ (forall w userId b oid,
        validCreate b ->
        castObjectId (cStationId b) = Some oid ->
        findStation oid (stations w) = None ->
        fst (postAlert env userId b w) = notFound "Station not found")
  /\ (forall w userId alertId b user,
        validUpdate b ->
        findUser userId (users w) = Some user ->
        String.length alertId <> 12%nat ->
        (forall oid, castObjectId alertId = Some oid ->
                     forall a, In a (User.priceAlerts user) ->
                               Alert._id a <> oid) ->
        fst (putAlert env userId alertId b w) = notFound "Alert not found")
  /\ (forall w id ft,
        castObjectId id = None ->
        String.length id <> 12%nat ->
        fst (getStation env id w)
        = Ok (mkResponse 500 (BMessage "Server error while fetching station"))
        /\ fst (putStation env id ft w)
           = Ok (mkResponse 500
                   (BMessage "Server error while updating station")))
  /\ (forall w userId alertId user,
        findUser userId (users w) = Some user ->
        (forall a, In a (User.priceAlerts user) -> Alert._id a <> alertId) ->
        fst (deleteAlert env userId alertId w)
        = Ok (json (BMessage "Price alert deleted successfully"))
        /\ users (snd (deleteAlert env userId alertId w))
           = replaceUser user (users w))
  /\ (forall w userId stationId user,
        findUser userId (users w) = Some user ->
        ~ In stationId (User.favoriteStations user) ->
        fst (deleteFavorite env userId stationId w)
        = Ok (json (BFavorites "Station removed from favorites"
                               (User.favoriteStations user)))
        /\ users (snd (deleteFavorite env userId stationId w))
           = replaceUser user (users w)).
Proof.
  intros Hup.
  split; [|split; [|split; [|split; [|split; [|split; [|split]]]]]].
  - intros w id oid Hc Hn. rewrite (getStation_absent env id oid); auto.
  - intros w id oid ft Hc Hn. rewrite (putStation_absent env id oid); auto.
  - intros w userId stationId oid Hv Hc Hn.
    rewrite (postFavorite_absent env userId stationId oid); auto.
  - intros w userId b oid Hv Hc Hn.
    rewrite (postAlert_absent env userId b oid); auto.
  - intros w userId alertId b user Hv Hu _ Hn.
    rewrite (putAlert_absent env userId alertId b w user); auto.
    apply alertById_absent, Hn.
  - intros w id ft Hc _.
    rewrite getStation_uncast, putStation_uncast by exact Hc.
    split; reflexivity.
  - intros w userId alertId user Hu Hn.
    rewrite (deleteAlert_absent env userId alertId w user); auto.
  - intros w userId stationId user Hu Hn.
    rewrite (deleteFavorite_absent env userId stationId w user); auto.
Qed.

Lemma not_found_responses_witness :
  fst (getStation quietEnv unknownId oneStationWorld)
  = notFound "Station not found"
  /\ fst (putAlert quietEnv (User._id (dana None)) unknownId
            (mkUpdateAlertBody (Valid 6.10) Absent) (alertWorld 6.20 None))
     = notFound "Alert not found"
  /\ fst (getStation quietEnv "no-such-station" oneStationWorld)
     = Ok (mkResponse 500 (BMessage "Server error while fetching station"))
  /\ fst (deleteAlert quietEnv (User._id (dana None)) unknownId
            (alertWorld 6.20 None))
     = Ok (json (BMessage "Price alert deleted successfully")).
Proof.
  destruct (not_found_responses quietEnv (fun _ => eq_refl))
    as (H1 & _ & _ & _ & H5 & H6 & H7 & _).
  split; [apply (H1 oneStationWorld unknownId unknownId); reflexivity|]. split.
  - apply (H5 (alertWorld 6.20 None) (User._id (dana None)) unknownId
             (mkUpdateAlertBody (Valid 6.10) Absent) (dana None));
      [split; reflexivity|reflexivity|discriminate|].
    intros oid Hc a [<-|[]]. inversion Hc. discriminate.
  - split.
    + destruct (H6 oneStationWorld "no-such-station" None) as [H500 _];
        [reflexivity|discriminate|exact H500].
    + apply (H7 (alertWorld 6.20 None) (User._id (dana None)) unknownId
               (dana None)); [reflexivity|].
      intros a [<-|[]]. discriminate.
Defined.

(** C5, as stated, fails: DELETE /api/users/alerts/:alertId with an id that
    matches none of the user's alerts answers 200, not 404. *)
Lemma delete_unknown_alert_is_not_404 :
  let w := alertWorld 6.20 None in
  let r := deleteAlert quietEnv (User._id (dana None)) unknownId w in
  findUser (User._id (dana None)) (users w) = Some (dana None)
  /\ find (fun a => String.eqb (Alert._id a) unknownId)
          (User.priceAlerts (dana None)) = None
  /\ fst r = Ok (mkResponse 200 (BMessage "Price alert deleted successfully"))
  /\ fst r <> notFound "Alert not found"
  /\ users (snd r) = users w.
Proof.
  vm_compute. repeat split; try reflexivity. discriminate.
Qed.

(** ** The update endpoint and the floor *)

(** C6. PUT /api/stations/:id writes a supplied price as it is.  For an
    existing station, addressed by a string of its id, and a request that
    gives one fuel type a non-zero price below that fuel type's floor, while
    the store answers: the handler answers 200 with the updated station, the
    station then stored has that price, with [lastUpdated] and [lastScraped]
    stamped from the clock, and the floor invariant fails for it.  Such is
    the request that sets the gasoline95 price of a sample station to 1.0. *)
Theorem put_station_bypasses_floor (env : Env) :
  (forall w id oid station f q,
     storeFails env (nStore w) = false ->
     storeFails env (S (nStore w)) = false ->
     castObjectId id = Some oid ->
     findStation oid (stations w) = Some station ->
     ~ q == 0 ->
     q < floorOf f ->
     let r := putStation env id (Some [(fuelKey f, Some q)]) w in
     exists s',
       fst r = Ok (json (BMessageStation "Station updated successfully" s'))
       /\ findStation oid (stations (snd r)) = Some s'
       /\ getFuel (Station.fuelTypes s') f
          = mkFuelEntry (Some q) (Some (clock env (nClock w)))
       /\ Station.lastScraped s' = clock env (S (nClock w))
       /\ ~ aboveFloor f (getFuel (Station.fuelTypes s') f))
  /\ (let r := putStation quietEnv (Station._id teneNetanya)
                 (Some [("gasoline95", Some 1.0)]) oneStationWorld in
      exists s',
        fst r = Ok (mkResponse 200
                      (BMessageStation "Station updated successfully" s'))
        /\ stations (snd r) = [s']
        /\ gasoline95 (Station.fuelTypes s')
           = mkFuelEntry (Some 1.0) (Some 5000%Z)
        /\ Station.lastScraped s' = 5001%Z
        /\ 1.0 < 6.0).
Proof.
  split.
  - intros w id oid station f q H H' Hc Hf Hnz Hlt r.
    assert (Hz : Qeq_bool q 0 = false).
    { destruct (Qeq_bool q 0) eqn:E; [|reflexivity].
      exfalso. apply Hnz, Qeq_bool_eq, E. }
    assert (Hk : fuelOfKey (fuelKey f) = Some f) by (destruct f; reflexivity).
    set (s' := Station.with_lastScraped
                 (Station.with_fuelTypes station
                    (setFuel (Station.fuelTypes station) f
                       (mkFuelEntry (Some q) (Some (clock env (nClock w))))))
                 (clock env (S (nClock w)))).
    assert (Er : r = (Ok (json (BMessageStation "Station updated successfully" s')),
                      with_stations
                        (tickStore (tickClock (tickClock (tickStore w))))
                        (replaceStation s' (stations w)))).
    { unfold r, putStation.
      erewrite tryCatch_ok; [reflexivity|].
      erewrite bind_ok by (apply Station_findById_run; eassumption).
      rewrite Hf. simpl. rewrite Hz, Hk. simpl.
      unfold Station_save, storeOp, getStations, setStations, bind, now, ret.
      simpl. rewrite H'. reflexivity. }
    assert (Hg : getFuel (Station.fuelTypes s') f
                 = mkFuelEntry (Some q) (Some (clock env (nClock w))))
      by (destruct f; reflexivity).
    exists s'. rewrite Er.
    split; [reflexivity|]. split.
    { apply (findStation_replace oid (stations w) station s' Hf).
      apply (findStation_id _ _ _ Hf). }
    split; [exact Hg|]. split; [reflexivity|].
    intros (p & Hp & Hle). rewrite Hg in Hp. simpl in Hp. inversion Hp; subst.
    exact (Qlt_not_le _ _ Hlt Hle).
  - eexists. split; [vm_compute; reflexivity|].
    repeat split; reflexivity.
Qed.

Lemma put_station_bypasses_floor_witness :
  exists s',
    findStation (Station._id teneNetanya)
      (stations (snd (putStation quietEnv (Station._id teneNetanya)
                        (Some [(fuelKey Gasoline95, Some 1.0)]) oneStationWorld)))
    = Some s'
    /\ ~ aboveFloor Gasoline95 (getFuel (Station.fuelTypes s') Gasoline95).
Proof.
  destruct (proj1 (put_station_bypasses_floor quietEnv) oneStationWorld
              (Station._id teneNetanya) (Station._id teneNetanya) teneNetanya
              Gasoline95 1.0)
    as (s' & _ & Hs & _ & _ & Hn).
  - reflexivity.
  - reflexivity.
  - reflexivity.
  - reflexivity.
  - discriminate.
  - reflexivity.
  - exists s'. split; assumption.
Defined.

(** ** Creating an alert on a station that does not exist *)

(** C7, as the code has it.  POST /api/users/alerts never changes the User
    collection when the [stationId] is not the string, in either case of the
    letters, of the id of a stored station; it answers 404 when moreover the
    request passes validation and the store answers the station query, and
    400 when validation fails. *)
Theorem post_alert_unknown_station (env : Env) (w : World) (userId : Id)
  (b : CreateAlertBody) :
  (forall oid, castObjectId (cStationId b) = Some oid ->
               findStation oid (stations w) = None) ->
  users (snd (postAlert env userId b w)) = users w
  /\ (validCreate b -> storeFails env (nStore w) = false ->
      postAlert env userId b w = (notFound "Station not found", tickStore w))
  /\ (~ validCreate b ->
      exists errors,
        postAlert env userId b w
        = (Ok (mkResponse 400 (BErrors "Validation failed" errors)), w)).
Proof.
  intros Hn.
  assert (Hv : forall V : validCreate b,
             postAlert env userId b w
             = if storeFails env (nStore w)
               then (Ok (mkResponse 500
                           (BMessage "Server error while creating alert")),
                     with_console (tickStore w)
                       (console w ++ [LogErr "Create alert error:" StoreError]))
               else (notFound "Station not found", tickStore w)).
  { intros V.
    pose proof (isMongoId_castObjectId _ (proj1 V)) as Hc.
    destruct (storeFails env (nStore w)) eqn:Hs.
    - destruct V as (V1 & V2 & V3).
      unfold postAlert, validationErrors. simpl. rewrite V1, V2, V3. simpl.
      unfold isFuelKey in V2. destruct (fuelOfKey (cFuelType b)); [|discriminate].
      destruct (cTargetPrice b); try discriminate.
      unfold tryCatch, bind, Station_findById, castId, storeOp, consoleLog,
        bind, ret.
      rewrite Hc, Hs. reflexivity.
    - apply (postAlert_absent env userId b (lowerHex (cStationId b))); auto. }
  assert (Hi : ~ validCreate b ->
               exists errors,
                 postAlert env userId b w
                 = (Ok (mkResponse 400 (BErrors "Validation failed" errors)), w)).
  { intros Hnv. unfold postAlert, validationErrors, validCreate in *. simpl.
    destruct (isMongoId (cStationId b)) eqn:V1;
      destruct (isFuelKey (cFuelType b)) eqn:V2;
      destruct (required (cTargetPrice b)) eqn:V3; simpl;
      try (eexists; reflexivity).
    exfalso. apply Hnv. auto. }
  split; [|split].
  - assert (D : validCreate b \/ ~ validCreate b).
    { unfold validCreate.
      destruct (isMongoId (cStationId b)), (isFuelKey (cFuelType b)),
        (required (cTargetPrice b)); intuition discriminate. }
    destruct D as [V|V].
    + rewrite (Hv V). destruct (storeFails env (nStore w)); reflexivity.
    + destruct (Hi V) as (errors & E). rewrite E. reflexivity.
  - intros V Hs. rewrite (Hv V), Hs. reflexivity.
  - exact Hi.
Qed.

Lemma post_alert_unknown_station_witness :
  let b := mkCreateAlertBody unknownId "diesel" (Valid 6.30) in
  let w := alertWorld 6.20 None in
  users (snd (postAlert quietEnv (User._id (dana None)) b w)) = users w
  /\ fst (postAlert quietEnv (User._id (dana None)) b w)
     = notFound "Station not found".
Proof.
  destruct (post_alert_unknown_station quietEnv (alertWorld 6.20 None)
              (User._id (dana None))
              (mkCreateAlertBody unknownId "diesel" (Valid 6.30)))
    as (Hu & H404 & _).
  - intros oid Hc. inversion Hc. reflexivity.
  - split; [exact Hu|]. rewrite H404; [reflexivity| |reflexivity].
    repeat split; reflexivity.
Defined.

(** C7, as stated, fails: a request whose [stationId] resolves to no station
    and whose [fuelType] is not one of the three keys is answered 400, not
    404.  (The alert list is unchanged here too.) *)
Lemma post_alert_unknown_station_invalid_is_400 :
  let b := mkCreateAlertBody unknownId "kerosene" (Valid 6.30) in
  let w := alertWorld 6.20 None in
  let r := postAlert quietEnv (User._id (dana None)) b w in
  castObjectId (cStationId b) = Some unknownId
  /\ findStation unknownId (stations w) = None
  /\ fst r = Ok (mkResponse 400
                   (BErrors "Validation failed" ["Valid fuel type is required"]))
  /\ fst r <> notFound "Station not found"
  /\ users (snd r) = users w.
Proof.
  vm_compute. repeat split; try reflexivity. discriminate.
Qed.

(** * Further properties of the code *)

(** ** The Price Mutator: what a pass leaves alone and what it does to a
       price below the floor *)

Section MutatorMore.
Variable env : Env.

Lemma scrapeDoc_identity s w :
  identity (match fst (scrapeDocIn env exactQ s w) with Ok s' => s' | Throw _ => s end)
  = identity s.
Proof.
  unfold scrapeDocIn, bind, mathRandom, now, ret. simpl.
  rewrite !bumpFuel_eq.
  repeat match goal with
         | |- context [match price ?e with _ => _ end] =>
           destruct (price e); simpl
         | |- context [if negb (Qeq_bool ?p 0) then _ else _] =>
           destruct (Qeq_bool p 0); simpl
         | |- context [bumpFuelIn] => rewrite !bumpFuel_eq
         end; reflexivity.
Qed.

Lemma replaceStation_identity d l :
  (forall x, In x l -> Station._id x = Station._id d -> identity d = identity x) ->
  map identity (replaceStation d l) = map identity l.
Proof.
  intros H. unfold replaceStation. rewrite map_map. apply map_ext_in.
  intros x Hx. destruct (String.eqb (Station._id x) (Station._id d)) eqn:E;
    [|reflexivity].
  apply H; [exact Hx|]. apply String.eqb_eq, E.
Qed.

Lemma scrapeStation_run_identity d w :
  exists d' w1,
    identity d' = identity d
    /\ mutatedBy env exactQ (nRandom w) (nClock w) d d'
    /\ stations w1 = stations w
    /\ (nRandom w <= nRandom w1)%nat /\ (nClock w <= nClock w1)%nat
    /\ scrapeStationIn env exactQ d w
       = if storeFails env (nStore w1)
         then (Throw StoreError, tickStore w1)
         else (Ok tt, with_stations (tickStore w1)
                        (replaceStation d' (stations w1))).
Proof.
  destruct (scrapeDoc_spec env exactQ d w)
    as (d' & w1 & E & Hm & Hc & Hr & Hs & _).
  exists d', w1. split.
  { pose proof (scrapeDoc_identity d w) as Hi. rewrite E in Hi. exact Hi. }
  split; [exact Hm|]. split; [exact Hs|]. split; [lia|]. split; [exact Hc|].
  unfold scrapeStationIn. erewrite bind_ok by exact E.
  unfold Station_save, storeOp, bind, getStations, setStations.
  destruct (storeFails env (nStore w1)); reflexivity.
Qed.

Lemma identity_unique (L : list Station.t) x d :
  NoDup (map Station._id L) ->
  In (identity x) (map identity L) -> In d L ->
  Station._id x = Station._id d -> identity x = identity d.
Proof.
  intros Hnd Hx Hd Hid. apply in_map_iff in Hx. destruct Hx as (y & Ey & Hy).
  rewrite <- Ey. f_equal.
  apply (NoDup_map_inj_in Station._id L); auto.
  unfold identity in Ey. inversion Ey. congruence.
Qed.

(** The loop over documents taken from a collection [L] with distinct ids
    keeps the identities of the stored stations, in order. *)
Lemma scrapeLoop_identity (L : list Station.t) docs :
  NoDup (map Station._id L) ->
  (forall d, In d docs -> In d L) ->
  forall w, map identity (stations w) = map identity L ->
            map identity (stations (snd (forOf docs (scrapeStationIn env exactQ) w)))
            = map identity L.
Proof.
  intros Hnd. induction docs as [|d rest IH]; intros Hdocs w Hw; [exact Hw|].
  destruct (scrapeStation_run_identity d w)
    as (d' & w1 & Hi & _ & Hs & _ & _ & Erun).
  change (forOf (d :: rest) (scrapeStationIn env exactQ))
    with (bind (scrapeStationIn env exactQ d) (fun _ => forOf rest (scrapeStationIn env exactQ))).
  destruct (storeFails env (nStore w1)).
  - erewrite bind_throw by exact Erun. simpl. rewrite Hs. exact Hw.
  - erewrite bind_ok by exact Erun.
    apply IH; [intros x Hx; apply Hdocs; right; exact Hx|].
    simpl. rewrite Hs. rewrite replaceStation_identity; [exact Hw|].
    intros x Hx Hid. rewrite Hi. symmetry.
    apply (identity_unique L); auto.
    + rewrite <- Hw. apply in_map, Hx.
    + apply Hdocs. left. reflexivity.
    + rewrite Hid. unfold identity in Hi. inversion Hi. congruence.
Qed.

(** X1. A pass of [scrapeFuelPrices] neither adds, removes nor reorders
    stations, and changes no station's [_id], name, address or active flag:
    whatever the environment, in a collection whose ids are distinct. *)
Theorem scrape_keeps_identity (w : World) :
  NoDup (map Station._id (stations w)) ->
  map identity (stations (snd (scrapeFuelPrices env w)))
  = map identity (stations w).
Proof.
  intros Hnd. unfold scrapeFuelPrices.
  destruct (scrapeFuelPrices_shape env exactQ w) as [[_ Hst]|(_ & Hst & _)];
    rewrite Hst; [reflexivity|].
  apply scrapeLoop_identity; auto.
  intros d Hd. apply filter_In in Hd. apply Hd.
Qed.
End MutatorMore.

Lemma twoStationWorld_ids : NoDup (map Station._id (stations twoStationWorld)).
Proof.
  constructor; [simpl; intros [H|[]]; discriminate H|].
  constructor; [intros []|constructor].
Qed.

Lemma scrape_keeps_identity_witness :
  map identity (stations (snd (scrapeFuelPrices quietEnv twoStationWorld)))
  = [identity teneNetanya; identity closedStation].
Proof.
  apply (scrape_keeps_identity quietEnv twoStationWorld twoStationWorld_ids).
Defined.

Lemma Qmax_floor (f x : Q) : x <= f -> Qmax f x = f.
Proof.
  intros H. unfold Qmax, GenericMinMax.gmax.
  destruct (f ?= x) eqn:E; try reflexivity.
  exfalso. apply Qlt_alt in E. exact (Qlt_not_le _ _ E H).
Qed.

Lemma perturbation_range (r : Q) :
  0 <= r -> r < 1 -> - 0.1 <= (r - 0.5) * 0.20 /\ (r - 0.5) * 0.20 < 0.1.
Proof. intros H0 H1. split; lra. Qed.

Section MutatorBounds.
Variable env : Env.

(** The station stored under the id of [s] after a pass, whatever the store
    does: [s] itself, or the mutated copy of [s], in which case [s] is
    active. *)
Lemma scrapeFuelPrices_any_active w s s' :
  NoDup (map Station._id (stations w)) ->
  In s (stations w) ->
  In s' (stations (snd (scrapeFuelPrices env w))) ->
  Station._id s' = Station._id s ->
  s' = s
  \/ (Station.isActive s = true
      /\ exists kr kc, mutatedBy env exactQ kr kc s s').
Proof.
  intros Hnd Hin Hs' Hid. unfold scrapeFuelPrices in Hs'.
  assert (Hcases : In s' (stations w)
                   \/ exists d kr kc, In d (stations w)
                        /\ Station.isActive d = true
                        /\ mutatedBy env exactQ kr kc d s').
  { destruct (scrapeFuelPrices_shape env exactQ w) as [[_ Hst]|(_ & Hst & _)];
      rewrite Hst in Hs'; [left; exact Hs'|].
    match type of Hst with
    | _ = stations (snd (forOf ?docs _ ?w0)) =>
      destruct (scrapeLoop_any env exactQ docs w0) as (_ & _ & Hloop)
    end.
    destruct (Hloop s' Hs') as [H|(d & kr & kc & Hd & _ & _ & Hm)];
      [left; exact H|].
    right. exists d, kr, kc. apply filter_In in Hd.
    split; [apply Hd|]. split; [apply Hd|exact Hm]. }
  destruct Hcases as [H|(d & kr & kc & Hd & Hact & Hm)].
  - left. apply (NoDup_map_inj_in Station._id (stations w)); auto.
  - right. assert (d = s).
    { apply (NoDup_map_inj_in Station._id (stations w)); auto.
      destruct Hm as (E & _). congruence. }
    subst d. split; [exact Hact|]. exists kr, kc. exact Hm.
Qed.

(** X2. A pass of [scrapeFuelPrices] leaves an inactive station exactly as it
    is (prices and timestamps included), whatever the environment. *)
Theorem scrape_skips_inactive (w : World) (s : Station.t) :
  NoDup (map Station._id (stations w)) ->
  In s (stations w) ->
  Station.isActive s = false ->
  let w' := snd (scrapeFuelPrices env w) in
  (exists s', In s' (stations w') /\ Station._id s' = Station._id s)
  /\ forall s', In s' (stations w') -> Station._id s' = Station._id s -> s' = s.
Proof.
  intros Hnd Hin Hoff w'. split.
  - assert (Hid : In (Station._id s) (map Station._id (stations w'))).
    { unfold w', scrapeFuelPrices. rewrite scrapeFuelPrices_ids. apply in_map, Hin. }
    apply in_map_iff in Hid. destruct Hid as (s' & E & Hs'). eauto.
  - intros s' Hs' Hid.
    destruct (scrapeFuelPrices_any_active w s s' Hnd Hin Hs' Hid)
      as [E|[Hon _]]; [exact E|congruence].
Qed.
End MutatorBounds.

Lemma quietEnv_unitDraws : unitDraws quietEnv.
Proof. intros k. split; simpl; lra. Qed.

Lemma scrape_skips_inactive_witness :
  In closedStation (stations (snd (scrapeFuelPrices quietEnv twoStationWorld))).
Proof.
  destruct (scrape_skips_inactive quietEnv twoStationWorld closedStation)
    as ((s' & Hin & Hid) & Hsame).
  - exact twoStationWorld_ids.
  - right. left. reflexivity.
  - reflexivity.
  - rewrite <- (Hsame s' Hin Hid). exact Hin.
Defined.

Lemma mutatedBy_floor env kr kc s s' f p :
  mutatedBy env exactQ kr kc s s' ->
  price (getFuel (Station.fuelTypes s) f) = Some p ->
  ~ p == 0 ->
  exists p', price (getFuel (Station.fuelTypes s') f) = Some p'
             /\ floorOf f <= p'
             /\ (unitDraws env -> p + 0.1 <= floorOf f -> p' = floorOf f).
Proof.
  intros (_ & _ & _ & Hf) Hp Hnz. specialize (Hf f).
  unfold bumped in Hf. rewrite Hp in Hf.
  destruct (Qeq_bool p 0) eqn:Hz.
  - exfalso. apply Hnz, Qeq_bool_eq, Hz.
  - destruct Hf as (Hf & _). eexists. split; [exact Hf|].
    split; [apply Q.le_max_l|].
    intros Hdraw Hlow. apply Qmax_floor. cbn [jsAdd jsSub jsMul exactQ].
    destruct (Hdraw kr) as [H0 H1].
    destruct (perturbation_range _ H0 H1) as [_ Hhi]. lra.
Qed.

(** PUT /api/stations/:id with one fuel type and a non-zero price, while
    the store answers. *)
Lemma putStation_one_run env id oid station f q w :
  storeFails env (nStore w) = false ->
  storeFails env (S (nStore w)) = false ->
  castObjectId id = Some oid ->
  findStation oid (stations w) = Some station ->
  ~ q == 0 ->
  let s' := Station.with_lastScraped
              (Station.with_fuelTypes station
                 (setFuel (Station.fuelTypes station) f
                    (mkFuelEntry (Some q) (Some (clock env (nClock w))))))
              (clock env (S (nClock w))) in
  putStation env id (Some [(fuelKey f, Some q)]) w
  = (Ok (json (BMessageStation "Station updated successfully" s')),
     with_stations (tickStore (tickClock (tickClock (tickStore w))))
       (replaceStation s' (stations w))).
Proof.
  intros H H' Hc Hf Hnz s'.
  assert (Hz : Qeq_bool q 0 = false).
  { destruct (Qeq_bool q 0) eqn:E; [|reflexivity].
    exfalso. apply Hnz, Qeq_bool_eq, E. }
  assert (Hk : fuelOfKey (fuelKey f) = Some f) by (destruct f; reflexivity).
  unfold putStation.
  erewrite tryCatch_ok; [reflexivity|].
  erewrite bind_ok by (apply Station_findById_run; eassumption). rewrite Hf.
  simpl. rewrite Hz, Hk. simpl.
  unfold Station_save, storeOp, getStations, setStations, bind, now, ret.
  simpl. rewrite H'. reflexivity.
Qed.

Section MutatorRepairs.
Variable env : Env.
Hypothesis store_up : forall k, storeFails env k = false.

(** X4. A pass during which the store answers establishes the floor: every
    price of an active station that passes the guard (present and not zero)
    is afterwards at or above the floor of its fuel type, also when it was
    below before; with [Math.random()] in [0, 1), a price at least 0.10 below
    the floor becomes exactly the floor. *)
Theorem scrape_restores_floor (w : World) (s : Station.t) (f : FuelType) (p : Q) :
  NoDup (map Station._id (stations w)) ->
  In s (stations w) ->
  Station.isActive s = true ->
  price (getFuel (Station.fuelTypes s) f) = Some p ->
  ~ p == 0 ->
  let w' := snd (scrapeFuelPrices env w) in
  (exists s', In s' (stations w') /\ Station._id s' = Station._id s)
  /\ forall s', In s' (stations w') -> Station._id s' = Station._id s ->
       exists p', price (getFuel (Station.fuelTypes s') f) = Some p'
                  /\ floorOf f <= p'
                  /\ (unitDraws env -> p + 0.1 <= floorOf f -> p' = floorOf f).
Proof.
  intros Hnd Hin Hact Hp Hnz w'.
  destruct (scrapeFuelPrices_pass env exactQ store_up w s Hnd Hin Hact)
    as (_ & s1 & kr & kc & _ & _ & Hm & Hs1 & Huniq).
  fold w' in Hs1, Huniq. split.
  - exists s1. split; [exact Hs1|apply Hm].
  - intros s' Hs' Hid. rewrite (Huniq s' Hs' Hid).
    eapply mutatedBy_floor; eauto.
Qed.

(** X5. The floor that PUT /api/stations/:id bypasses is restored by the next
    pass: after a request that sets a fuel type of an active station,
    addressed by a string of its id, to a non-zero price at least 0.10
    below the floor, one run of [scrapeFuelPrices] leaves that price exactly
    at the floor (the store answering, [Math.random()] in [0, 1)). *)
Theorem put_below_floor_then_scrape (w : World) (id : string) (oid : Id)
  (station : Station.t) (f : FuelType) (q : Q) :
  unitDraws env ->
  NoDup (map Station._id (stations w)) ->
  castObjectId id = Some oid ->
  findStation oid (stations w) = Some station ->
  Station.isActive station = true ->
  ~ q == 0 ->
  q + 0.1 <= floorOf f ->
  let w1 := snd (putStation env id (Some [(fuelKey f, Some q)]) w) in
  let w2 := snd (scrapeFuelPrices env w1) in
  (exists s1, findStation oid (stations w1) = Some s1
              /\ price (getFuel (Station.fuelTypes s1) f) = Some q)
  /\ (exists s2, In s2 (stations w2) /\ Station._id s2 = oid)
  /\ forall s2, In s2 (stations w2) -> Station._id s2 = oid ->
                price (getFuel (Station.fuelTypes s2) f) = Some (floorOf f).
Proof.
  intros Hdraw Hnd Hcast Hfind Hact Hnz Hlow w1 w2.
  pose proof (putStation_one_run env id oid station f q w
                (store_up _) (store_up _) Hcast Hfind Hnz) as Erun.
  cbv zeta in Erun.
  set (s1 := Station.with_lastScraped _ _) in Erun.
  assert (Hid1 : Station._id s1 = oid) by (apply (findStation_id _ _ _ Hfind)).
  assert (Hst1 : stations w1 = replaceStation s1 (stations w))
    by (unfold w1; rewrite Erun; reflexivity).
  assert (Hf1 : findStation oid (stations w1) = Some s1).
  { rewrite Hst1. apply (findStation_replace oid (stations w) station s1 Hfind Hid1). }
  assert (Hp1 : price (getFuel (Station.fuelTypes s1) f) = Some q)
    by (destruct f; reflexivity).
  assert (Hin1 : In s1 (stations w1)).
  { unfold findStation in Hf1. apply find_some in Hf1. apply Hf1. }
  assert (Hnd1 : NoDup (map Station._id (stations w1))).
  { rewrite Hst1, replaceStation_ids. exact Hnd. }
  destruct (scrapeFuelPrices_pass env exactQ store_up w1 s1 Hnd1 Hin1 Hact)
    as (_ & s2 & kr & kc & _ & _ & Hm & Hs2 & Huniq).
  fold w2 in Hs2, Huniq.
  split; [exists s1; auto|]. split.
  - exists s2. split; [exact Hs2|]. destruct Hm as (E & _). congruence.
  - intros s Hs Hid. rewrite (Huniq s Hs (eq_trans Hid (eq_sym Hid1))).
    destruct (mutatedBy_floor env kr kc s1 s2 f q Hm Hp1 Hnz)
      as (p' & Hp' & _ & Hexact).
    rewrite Hp'. f_equal. apply Hexact; assumption.
Qed.
End MutatorRepairs.

Lemma quietEnv_store_up : forall k, storeFails quietEnv k = false.
Proof. intros k. reflexivity. Qed.

Lemma sonolAfter_stored :
  In (sonolAfter 5.50)
     (stations (snd (scrapeFuelPrices quietEnv (alertWorld 5.50 None))))
  /\ Station._id (sonolAfter 5.50) = Station._id (sonolJerusalem 5.50).
Proof. split; vm_compute; [left|]; reflexivity. Qed.

Lemma alertWorld_ids p t : NoDup (map Station._id (stations (alertWorld p t))).
Proof. constructor; [intros []|constructor]. Qed.

Lemma scrape_restores_floor_witness :
  price (getFuel (Station.fuelTypes (sonolAfter 5.50)) Diesel)
  = Some (floorOf Diesel).
Proof.
  destruct (scrape_restores_floor quietEnv quietEnv_store_up
              (alertWorld 5.50 None) (sonolJerusalem 5.50) Diesel 5.50)
    as (_ & Hall).
  - apply alertWorld_ids.
  - left. reflexivity.
  - reflexivity.
  - reflexivity.
  - intros H. discriminate H.
  - destruct (Hall (sonolAfter 5.50)) as (p' & Hp' & _ & Hfloor).
    + apply sonolAfter_stored.
    + apply sonolAfter_stored.
    + rewrite Hp'. f_equal. apply Hfloor; [exact quietEnv_unitDraws|].
      unfold Qle. simpl. lia.
Defined.

Lemma put_below_floor_then_scrape_witness :
  let w1 := snd (putStation quietEnv (Station._id teneNetanya)
                   (Some [("diesel", Some 5.00)]) oneStationWorld) in
  exists s2,
    In s2 (stations (snd (scrapeFuelPrices quietEnv w1)))
    /\ price (getFuel (Station.fuelTypes s2) Diesel) = Some (floorOf Diesel).
Proof.
  destruct (put_below_floor_then_scrape quietEnv quietEnv_store_up
              oneStationWorld (Station._id teneNetanya) (Station._id teneNetanya)
              teneNetanya Diesel 5.00)
    as (_ & (s2 & Hin & Hid) & Hall).
  - exact quietEnv_unitDraws.
  - exact oneStationWorld_ids.
  - reflexivity.
  - reflexivity.
  - reflexivity.
  - intros H. discriminate H.
  - unfold Qle. simpl. lia.
  - exists s2. split; [exact Hin|]. apply (Hall s2 Hin Hid).
Defined.

(** ** The Alert Evaluator: what it writes and whom it mails *)

Section EvaluatorMore.
Variable env : Env.

(** One turn of the alert loop: the alert is left as it is or gets a new
    [lastTriggered]; the batch is left as it is or gets the entry of this
    alert, whose price has then reached its target; only the clock count
    changes in the world. *)
Lemma checkAlert_step pa tr w :
  exists a b w',
    checkAlert env pa tr w = (Ok (a, tr ++ b), w')
    /\ reTriggered (fst pa) a
    /\ (b = [] \/ exists e, b = [e] /\ reachedEntry pa e)
    /\ stations w' = stations w /\ users w' = users w
    /\ outbox w' = outbox w /\ nMail w' = nMail w /\ nStore w' = nStore w.
Proof.
  unfold checkAlert, reachedEntry. destruct pa as [alert st]. simpl.
  destruct (Alert.isActive alert) eqn:Hact; simpl;
    [|exists alert, [], w; rewrite app_nil_r; unfold reTriggered; auto 10].
  destruct st as [station|];
    [|exists alert, [], w; rewrite app_nil_r; unfold reTriggered; auto 10].
  destruct (price _) as [p|] eqn:Hp;
    [|exists alert, [], w; rewrite app_nil_r; unfold reTriggered; auto 10].
  destruct (Qeq_bool p 0) eqn:Hz; simpl;
    [exists alert, [], w; rewrite app_nil_r; unfold reTriggered; auto 10|].
  destruct (Qle_bool p (Alert.targetPrice alert)) eqn:Hle;
    [|exists alert, [], w; rewrite app_nil_r; unfold reTriggered; auto 10].
  unfold bind, now, ret. simpl.
  destruct (match Alert.lastTriggered alert with
            | Some lastTriggered => _
            | None => true
            end).
  - eexists _, [_], _. split; [reflexivity|]. split.
    { right. eexists. reflexivity. }
    split; [|simpl; auto].
    right. eexists. split; [reflexivity|].
    exists station, p. repeat split; auto.
    + apply Qeq_bool_neq, Hz.
    + apply Qle_bool_iff, Hle.
  - exists alert, [], (tickClock w). rewrite app_nil_r.
    unfold reTriggered. simpl. auto 10.
Qed.

Lemma alertLoop_steps pas : forall tr w,
  exists alerts b w',
    alertLoop env pas tr w = (Ok (alerts, tr ++ b), w')
    /\ Forall2 reTriggered (map fst pas) alerts
    /\ Forall (fun e => exists pa, In pa pas /\ reachedEntry pa e) b
    /\ stations w' = stations w /\ users w' = users w
    /\ outbox w' = outbox w /\ nMail w' = nMail w /\ nStore w' = nStore w.
Proof.
  induction pas as [|pa rest IH]; intros tr w; simpl.
  - exists [], [], w. rewrite app_nil_r. repeat split; auto.
  - destruct (checkAlert_step pa tr w)
      as (a & b & w1 & E1 & Hr & Hb & S1 & U1 & O1 & M1 & N1).
    destruct (IH (tr ++ b) w1)
      as (alerts & b' & w2 & E2 & Hrs & Hbs & S2 & U2 & O2 & M2 & N2).
    exists (a :: alerts), (b ++ b'), w2.
    unfold bind. rewrite E1. simpl. rewrite E2. simpl.
    rewrite app_assoc. split; [reflexivity|].
    split; [constructor; assumption|].
    split; [|repeat split; congruence].
    apply Forall_app. split.
    + destruct Hb as [->|(e & -> & He)]; constructor; [|constructor].
      exists pa. split; [left; reflexivity|exact He].
    + eapply Forall_impl; [|exact Hbs]. intros e (pa' & Hin & He).
      exists pa'. split; [right; exact Hin|exact He].
Qed.

Lemma checkAlert_dormant pa tr w :
  dormant pa -> checkAlert env pa tr w = (Ok (fst pa, tr), w).
Proof.
  unfold checkAlert, dormant. destruct pa as [alert st]. simpl.
  intros [H|[H|(station & H & Hp)]].
  - rewrite H. reflexivity.
  - rewrite H. destruct (Alert.isActive alert); reflexivity.
  - rewrite H. destruct (Alert.isActive alert); [|reflexivity]. simpl.
    destruct (price _) as [p|]; [|reflexivity].
    destruct Hp as [Hz|Hgt].
    + apply Qeq_eq_bool in Hz. rewrite Hz. reflexivity.
    + assert (Hle : Qle_bool p (Alert.targetPrice alert) = false).
      { destruct (Qle_bool p (Alert.targetPrice alert)) eqn:E; [|reflexivity].
        apply Qle_bool_iff in E. exfalso. exact (Qlt_not_le _ _ Hgt E). }
      rewrite Hle, andb_false_r. reflexivity.
Qed.

Lemma alertLoop_dormant pas : forall tr w,
  Forall dormant pas -> alertLoop env pas tr w = (Ok (map fst pas, tr), w).
Proof.
  induction pas as [|pa rest IH]; intros tr w H; [reflexivity|].
  inversion H as [|? ? Hpa Hrest]; subst. simpl.
  erewrite bind_ok by (apply checkAlert_dormant, Hpa). simpl.
  erewrite bind_ok by (apply IH, Hrest). reflexivity.
Qed.

(** X6. A user none of whose alerts can fire (each is inactive, or refers to
    a station that no longer exists, or to a price that is missing, zero or
    above the target) costs the evaluator nothing: no clock read, no mail, no
    save, the world is left as it is. *)
Theorem dormant_user_untouched (user : User.t) (pas : list PopAlert) (w : World) :
  Forall dormant pas ->
  checkUser env (user, pas) w = (Ok tt, w).
Proof.
  intros H. unfold checkUser. simpl.
  erewrite bind_ok by (apply alertLoop_dormant, H). reflexivity.
Qed.
End EvaluatorMore.

Lemma dormant_user_untouched_witness :
  checkUser quietEnv (dana None, populate [sonolJerusalem 6.50] (dana None))
            (alertWorld 6.50 None)
  = (Ok tt, alertWorld 6.50 None).
Proof.
  apply (dormant_user_untouched quietEnv (dana None)
           (populate [sonolJerusalem 6.50] (dana None)) (alertWorld 6.50 None)).
  constructor; [|constructor].
  right. right. exists (sonolJerusalem 6.50). split; [reflexivity|].
  simpl. right. unfold Qlt. simpl. lia.
Defined.

Lemma replaceUser_ids u l :
  map User._id (replaceUser u l) = map User._id l.
Proof.
  unfold replaceUser. rewrite map_map. apply map_ext_in. intros x _.
  destruct (String.eqb (User._id x) (User._id u)) eqn:E; [|reflexivity].
  apply String.eqb_eq in E. symmetry. exact E.
Qed.

Lemma replaceUser_In u l y : In y (replaceUser u l) -> y = u \/ In y l.
Proof.
  unfold replaceUser. intros H. apply in_map_iff in H.
  destruct H as (x & E & Hx).
  destruct (String.eqb (User._id x) (User._id u)); subst; auto.
Qed.

Lemma reTriggered_refl l : Forall2 reTriggered l l.
Proof. induction l; constructor; auto. left. reflexivity. Qed.

Section EvaluatorOutcome.
Variable env : Env.

(** What the body of the loop over users does to the world. *)
Lemma checkUser_outcome (u : User.t) (pas : list PopAlert) (w : World) :
  let w' := snd (checkUser env (u, pas) w) in
  stations w' = stations w
  /\ (users w' = users w
      \/ exists alerts,
           Forall2 reTriggered (map fst pas) alerts
           /\ users w' = replaceUser (User.with_priceAlerts u alerts) (users w))
  /\ (outbox w' = outbox w
      \/ exists batch,
           batch <> []
           /\ Forall (fun e => exists pa, In pa pas /\ reachedEntry pa e) batch
           /\ outbox w' = outbox w ++ [mailFor u batch])
  /\ (nMail w' <= S (nMail w))%nat.
Proof.
  cbv zeta. unfold checkUser. simpl.
  destruct (alertLoop_steps env pas [] w)
    as (alerts & b & w1 & E & Hr & Hb & S1 & U1 & O1 & M1 & N1).
  simpl in E. erewrite bind_ok by exact E. simpl.
  destruct b as [|e b]; simpl.
  - rewrite S1, U1, O1, M1. auto.
  - unfold bind. rewrite sendPriceAlertEmail_run.
    unfold User_save, storeOp, bind, getUsers, setUsers.
    destruct (mailFails env (nMail w1)); simpl;
      destruct (storeFails env (nStore w1)); simpl;
      rewrite ?S1, ?U1, ?O1, ?M1;
      (split; [reflexivity|]); (split; [|split; [|lia]]);
      try (left; reflexivity);
      try (right; exists alerts; split; [exact Hr|reflexivity]);
      right; exists (e :: b); (split; [discriminate|]);
      (split; [exact Hb|reflexivity]).
Qed.

(** What the loop over the users [found] does to the world, whether it
    completes or a save rejects. *)
Lemma userLoop_outcome (found : list (User.t * list PopAlert)) : forall w,
  let w' := snd (forOf found (checkUser env) w) in
  stations w' = stations w
  /\ map User._id (users w') = map User._id (users w)
  /\ (forall y, In y (users w') ->
        In y (users w)
        \/ exists u pas alerts,
             In (u, pas) found
             /\ Forall2 reTriggered (map fst pas) alerts
             /\ y = User.with_priceAlerts u alerts)
  /\ (exists mails,
        outbox w' = outbox w ++ mails
        /\ (List.length mails <= List.length found)%nat
        /\ Forall (fun m => exists u pas batch,
                     In (u, pas) found /\ batch <> []
                     /\ Forall (fun e => exists pa, In pa pas /\ reachedEntry pa e)
                               batch
                     /\ m = mailFor u batch) mails)
  /\ (nMail w' <= nMail w + List.length found)%nat.
Proof.
  induction found as [|[u pas] rest IH]; intros w; cbv zeta.
  - simpl. split; [reflexivity|]. split; [reflexivity|].
    split; [intros y Hy; left; exact Hy|]. split; [|lia].
    exists []. rewrite app_nil_r. split; [reflexivity|].
    split; [simpl; lia|constructor].
  - pose proof (checkUser_outcome u pas w) as Hu. cbv zeta in Hu.
    change (forOf ((u, pas) :: rest) (checkUser env))
      with (bind (checkUser env (u, pas)) (fun _ => forOf rest (checkUser env))).
    unfold bind.
    destruct (checkUser env (u, pas) w) as [[t|e] w1]; simpl in Hu.
    + specialize (IH w1). cbv zeta in IH.
      destruct Hu as (S1 & U1 & O1 & M1).
      destruct IH as (S2 & I2 & U2 & (mails & O2 & L2 & F2) & M2).
      split; [congruence|]. split.
      { rewrite I2. destruct U1 as [->|(alerts & _ & ->)]; [reflexivity|].
        apply replaceUser_ids. }
      split.
      { intros y Hy. destruct (U2 y Hy) as [Hin|(u2 & pas2 & al2 & H1 & H2 & H3)].
        - destruct U1 as [E|(alerts & Hr & E)]; rewrite E in Hin; [left; exact Hin|].
          apply replaceUser_In in Hin. destruct Hin as [->|Hin]; [|left; exact Hin].
          right. exists u, pas, alerts. split; [left; reflexivity|auto].
        - right. exists u2, pas2, al2. split; [right; exact H1|auto]. }
      split.
      { assert (Hweak : Forall (fun m => exists u0 pas0 batch,
                           In (u0, pas0) ((u, pas) :: rest) /\ batch <> []
                           /\ Forall (fun e => exists pa, In pa pas0
                                                          /\ reachedEntry pa e)
                                     batch
                           /\ m = mailFor u0 batch) mails).
        { eapply Forall_impl; [|exact F2].
          intros m (u0 & pas0 & batch & H1 & H2 & H3 & H4).
          exists u0, pas0, batch. split; [right; exact H1|auto]. }
        destruct O1 as [E|(batch & Hne & Hb & E)].
        - exists mails. rewrite O2, E. split; [reflexivity|].
          split; [simpl; lia|exact Hweak].
        - exists (mailFor u batch :: mails). rewrite O2, E, <- app_assoc.
          split; [reflexivity|]. split; [simpl; lia|].
          constructor; [|exact Hweak].
          exists u, pas, batch. split; [left; reflexivity|auto]. }
      simpl. lia.
    + simpl. destruct Hu as (S1 & U1 & O1 & M1).
      split; [exact S1|]. split.
      { destruct U1 as [->|(alerts & _ & ->)]; [reflexivity|].
        apply replaceUser_ids. }
      split.
      { intros y Hy. destruct U1 as [E|(alerts & Hr & E)]; rewrite E in Hy;
          [left; exact Hy|].
        apply replaceUser_In in Hy. destruct Hy as [->|Hy]; [|left; exact Hy].
        right. exists u, pas, alerts. split; [left; reflexivity|auto]. }
      split.
      { destruct O1 as [E|(batch & Hne & Hb & E)].
        - exists []. rewrite E, app_nil_r. split; [reflexivity|].
          split; [simpl; lia|constructor].
        - exists [mailFor u batch]. rewrite E. split; [reflexivity|].
          split; [simpl; lia|]. constructor; [|constructor].
          exists u, pas, batch. split; [left; reflexivity|auto]. }
      simpl. lia.
Qed.
End EvaluatorOutcome.

Section EvaluatorPass.
Variable env : Env.

(** Where [checkPriceAlerts] leaves collections, outbox and mail count: as
    they were, when its query is rejected; otherwise as the loop over the
    selected users leaves them. *)
Lemma checkPriceAlerts_shape w :
  let w' := snd (checkPriceAlerts env w) in
  let found :=
    map (fun u => (u, populate (stations w) u))
        (filter (fun u => hasActiveAlert u && User.emailNotifications u)
                (users w)) in
  let w1 := snd (forOf found (checkUser env) (tickStore w)) in
  (stations w' = stations w /\ users w' = users w
   /\ outbox w' = outbox w /\ nMail w' = nMail w)
  \/ (stations w' = stations w1 /\ users w' = users w1
      /\ outbox w' = outbox w1 /\ nMail w' = nMail w1).
Proof.
  intros w' found w1. unfold w', checkPriceAlerts, tryCatch, checkPriceAlerts_try.
  destruct (storeFails env (nStore w)) eqn:Hs.
  - left. erewrite bind_throw
      by (unfold User_find_alerting, storeOp, bind; simpl; rewrite Hs;
          reflexivity).
    simpl. auto.
  - right. erewrite bind_ok
      by (unfold User_find_alerting, storeOp, bind, getUsers, getStations, ret;
          simpl; rewrite Hs; reflexivity).
    fold found. unfold w1.
    destruct (forOf found (checkUser env) (tickStore w)) as [[u|e] w2] eqn:Eloop.
    + erewrite bind_ok by exact Eloop. simpl. auto.
    + erewrite bind_throw by exact Eloop. simpl. auto.
Qed.

Lemma found_alerting (w : World) u pas :
  In (u, pas)
     (map (fun u => (u, populate (stations w) u))
          (filter (fun u => hasActiveAlert u && User.emailNotifications u)
                  (users w))) ->
  In u (users w) /\ alerting u /\ pas = populate (stations w) u.
Proof.
  intros H. apply in_map_iff in H. destruct H as (x & E & Hx).
  inversion E; subst. apply filter_In in Hx. destruct Hx as [Hin Hb].
  apply andb_true_iff in Hb. unfold alerting. auto.
Qed.

Lemma populate_alerts sts u : map fst (populate sts u) = User.priceAlerts u.
Proof.
  unfold populate. rewrite map_map. simpl. apply map_id.
Qed.

(** What one run of [checkPriceAlerts] does to the world, whatever the
    environment. *)
Lemma checkPriceAlerts_outcome w :
  let w' := snd (checkPriceAlerts env w) in
  stations w' = stations w
  /\ map User._id (users w') = map User._id (users w)
  /\ (forall y, In y (users w') ->
        In y (users w)
        \/ exists u alerts,
             In u (users w) /\ alerting u
             /\ Forall2 reTriggered (User.priceAlerts u) alerts
             /\ y = User.with_priceAlerts u alerts)
  /\ (exists mails,
        outbox w' = outbox w ++ mails
        /\ (List.length mails
            <= List.length
                 (filter (fun u => hasActiveAlert u && User.emailNotifications u)
                         (users w)))%nat
        /\ Forall (justifiedMail (stations w) (users w)) mails)
  /\ (nMail w'
      <= nMail w
         + List.length
             (filter (fun u => hasActiveAlert u && User.emailNotifications u)
                     (users w)))%nat.
Proof.
  cbv zeta.
  destruct (checkPriceAlerts_shape w) as [(S & U & O & M)|(S & U & O & M)];
    rewrite S, U, O, M.
  - split; [reflexivity|]. split; [reflexivity|].
    split; [intros y Hy; left; exact Hy|]. split; [|lia].
    exists []. rewrite app_nil_r. split; [reflexivity|].
    split; [simpl; lia|constructor].
  - match goal with
    | |- context [forOf ?found _ ?w0] =>
      destruct (userLoop_outcome env found w0)
        as (S1 & I1 & U1 & (mails & O1 & L1 & F1) & M1);
      pose proof (found_alerting w) as Hfound
    end.
    rewrite length_map in L1, M1. simpl in *.
    split; [exact S1|]. split; [exact I1|]. split.
    { intros y Hy. destruct (U1 y Hy) as [Hin|(u & pas & alerts & H1 & H2 & H3)];
        [left; exact Hin|].
      destruct (Hfound u pas H1) as (Hu & Ha & ->).
      rewrite populate_alerts in H2. right. exists u, alerts. auto. }
    split; [|exact M1].
    exists mails. split; [exact O1|]. split; [exact L1|].
    eapply Forall_impl; [|exact F1].
    intros m (u & pas & batch & H1 & H2 & H3 & H4).
    destruct (Hfound u pas H1) as (Hu & Ha & ->).
    exists u, batch. auto 10.
Qed.

(** X7. All that [checkPriceAlerts] ever writes is the [lastTriggered] of
    alerts: it leaves the Station collection as it is, and the user stored
    afterwards under the id of a user [u] is [u] with its alerts in the same
    order, each the alert it was or that alert with a new [lastTriggered]
    (target price, active flag, station and fuel type are never changed):
    whatever the environment. *)
Theorem evaluator_writes_only_lastTriggered (w : World) (u u' : User.t) :
  NoDup (map User._id (users w)) ->
  In u (users w) ->
  let w' := snd (checkPriceAlerts env w) in
  In u' (users w') ->
  User._id u' = User._id u ->
  stations w' = stations w
  /\ u' = User.with_priceAlerts u (User.priceAlerts u')
  /\ Forall2 reTriggered (User.priceAlerts u) (User.priceAlerts u').
Proof.
  intros Hnd Hin w' Hin' Hid.
  destruct (checkPriceAlerts_outcome w) as (S & _ & U & _).
  fold w' in S, U. split; [exact S|].
  destruct (U u' Hin') as [H|(u0 & alerts & H0 & _ & Hr & ->)].
  - assert (u' = u) by (apply (NoDup_map_inj_in User._id (users w)); auto).
    subst u'. split; [destruct u; reflexivity|apply reTriggered_refl].
  - assert (u0 = u).
    { apply (NoDup_map_inj_in User._id (users w)); auto. }
    subst u0. split; [reflexivity|exact Hr].
Qed.

(** X8. A user who has switched e-mail notifications off, or who has no
    active alert, is left exactly as stored by [checkPriceAlerts], whatever
    the environment. *)
Theorem evaluator_skips_opted_out (w : World) (u : User.t) :
  NoDup (map User._id (users w)) ->
  In u (users w) ->
  User.emailNotifications u = false \/ hasActiveAlert u = false ->
  let w' := snd (checkPriceAlerts env w) in
  (exists u', In u' (users w') /\ User._id u' = User._id u)
  /\ forall u', In u' (users w') -> User._id u' = User._id u -> u' = u.
Proof.
  intros Hnd Hin Hoff w'.
  destruct (checkPriceAlerts_outcome w) as (_ & I & U & _).
  fold w' in I, U. split.
  - assert (Hid : In (User._id u) (map User._id (users w')))
      by (rewrite I; apply in_map, Hin).
    apply in_map_iff in Hid. destruct Hid as (u' & E & Hu'). eauto.
  - intros u' Hin' Hid.
    destruct (U u' Hin') as [H|(u0 & alerts & H0 & (Ha & He) & _ & E)].
    + apply (NoDup_map_inj_in User._id (users w)); auto.
    + assert (u0 = u).
      { apply (NoDup_map_inj_in User._id (users w)); auto.
        subst u'. exact Hid. }
      subst u0. destruct Hoff; congruence.
Qed.

(** X9. Whom [checkPriceAlerts] mails, whatever the environment: the mails it
    hands to the transport go to users of the collection with e-mail
    notifications on and an active alert; none is empty; every entry of a
    mail belongs to an active alert of that user whose station resolves and
    whose price is present, not zero and at most the target; and no more
    mails are sent than there are such users. *)
Theorem evaluator_mails_are_justified (w : World) :
  let w' := snd (checkPriceAlerts env w) in
  let selected :=
    filter (fun u => hasActiveAlert u && User.emailNotifications u) (users w) in
  exists mails,
    outbox w' = outbox w ++ mails
    /\ (List.length mails <= List.length selected)%nat
    /\ (nMail w' <= nMail w + List.length selected)%nat
    /\ Forall (justifiedMail (stations w) (users w)) mails.
Proof.
  cbv zeta.
  destruct (checkPriceAlerts_outcome w) as (_ & _ & _ & (mails & O & L & F) & M).
  exists mails. auto.
Qed.
End EvaluatorPass.

Lemma danaAfter_stored :
  In danaAfter (users (snd (checkPriceAlerts quietEnv (alertWorld 6.20 None))))
  /\ User._id danaAfter = User._id (dana None).
Proof. split; vm_compute; [left|]; reflexivity. Qed.

Lemma evaluator_writes_only_lastTriggered_witness :
  stations (snd (checkPriceAlerts quietEnv (alertWorld 6.20 None)))
  = stations (alertWorld 6.20 None)
  /\ danaAfter = User.with_priceAlerts (dana None) (User.priceAlerts danaAfter)
  /\ Forall2 reTriggered (User.priceAlerts (dana None))
             (User.priceAlerts danaAfter).
Proof.
  apply (evaluator_writes_only_lastTriggered quietEnv (alertWorld 6.20 None)
           (dana None) danaAfter).
  - constructor; [intros []|constructor].
  - left. reflexivity.
  - apply danaAfter_stored.
  - apply danaAfter_stored.
Defined.

Lemma twoUserWorld_ids : NoDup (map User._id (users twoUserWorld)).
Proof.
  constructor; [simpl; intros [H|[]]; discriminate H|].
  constructor; [intros []|constructor].
Qed.

Lemma evaluator_skips_opted_out_witness :
  In noa (users (snd (checkPriceAlerts quietEnv twoUserWorld))).
Proof.
  destruct (evaluator_skips_opted_out quietEnv twoUserWorld noa)
    as ((u' & Hin & Hid) & Hsame).
  - exact twoUserWorld_ids.
  - right. left. reflexivity.
  - left. reflexivity.
  - rewrite <- (Hsame u' Hin Hid). exact Hin.
Defined.

(** ** The initialisation of the sample data *)

Section InitFacts.
Variable env : Env.

Lemma createSample_run d w :
  let s := Station.mk (objectId env (nIds w)) (dName d) (dAddress d) true
                      (dFuelTypes d) (clock env (nClock w)) in
  createSample env d w
  = if storeFails env (nStore w)
    then (Throw StoreError, tickStore (tickClock (tickIds w)))
    else (Ok tt, with_stations (tickStore (tickClock (tickIds w)))
                   (stations w ++ [s])).
Proof.
  cbv zeta. unfold createSample, newStation, Station_insert, storeOp, bind,
    newObjectId, now, getStations, setStations, ret. simpl.
  destruct (storeFails env (nStore w)); reflexivity.
Qed.

(** The loop over the data appends stations made of a prefix of the data,
    in order: of all of them unless an insert is rejected. *)
Lemma createLoop_outcome data : forall w,
  let r := forOf data (createSample env) w in
  exists news,
    stations (snd r) = stations w ++ news
    /\ users (snd r) = users w
    /\ outbox (snd r) = outbox w
    /\ Forall2 createdFrom (firstn (List.length news) data) news
    /\ (List.length news <= List.length data)%nat
    /\ (fst r = Ok tt -> List.length news = List.length data)
    /\ ((forall k, storeFails env k = false) -> fst r = Ok tt).
Proof.
  induction data as [|d rest IH]; intros w; cbv zeta.
  - exists []. simpl. rewrite app_nil_r. repeat split; auto.
  - change (forOf (d :: rest) (createSample env))
      with (bind (createSample env d) (fun _ => forOf rest (createSample env))).
    pose proof (createSample_run d w) as Erun. cbv zeta in Erun.
    destruct (storeFails env (nStore w)) eqn:Hs.
    + erewrite bind_throw by exact Erun. exists []. simpl.
      rewrite app_nil_r. repeat split; auto; try lia; try constructor.
      * discriminate.
      * intros Hup. rewrite Hup in Hs. discriminate.
    + erewrite bind_ok by exact Erun.
      match goal with
      | |- context [forOf rest _ ?w1] =>
        destruct (IH w1) as (news & S & U & O & F & L & Hok & Hup)
      end.
      simpl in S, U, O.
      eexists (_ :: news). rewrite S, U, O, <- app_assoc. simpl.
      split; [reflexivity|]. split; [reflexivity|]. split; [reflexivity|].
      split; [constructor; [repeat split|exact F]|].
      split; [lia|]. split; [intros H; f_equal; apply Hok, H|exact Hup].
Qed.

Lemma Station_countDocuments_run w :
  Station_countDocuments env w
  = if storeFails env (nStore w)
    then (Throw StoreError, tickStore w)
    else (Ok (List.length (stations w)), tickStore w).
Proof.
  unfold Station_countDocuments, storeOp, bind, getStations, ret.
  destruct (storeFails env (nStore w)); reflexivity.
Qed.

(** X10. On a collection that already holds a station, [initializeSampleData]
    creates nothing: stations, users and outbox are left as they are, and no
    id is generated, whatever the data and the environment. *)
Theorem init_leaves_populated_store (data : list StationData) (w : World) :
  stations w <> [] ->
  let w' := snd (initializeSampleData env data w) in
  fst (initializeSampleData env data w) = Ok tt
  /\ stations w' = stations w /\ users w' = users w
  /\ outbox w' = outbox w /\ nIds w' = nIds w.
Proof.
  intros Hne. cbv zeta. unfold initializeSampleData, tryCatch, bind.
  rewrite Station_countDocuments_run.
  assert (Hlen : (List.length (stations w) =? 0)%nat = false)
    by (destruct (stations w); [contradiction|reflexivity]).
  destruct (storeFails env (nStore w)); simpl; [repeat split; reflexivity|].
  rewrite Hlen. simpl. repeat split; reflexivity.
Qed.

(** What a run on an empty collection does. *)
Lemma init_empty_outcome (data : list StationData) (w : World) :
  stations w = [] ->
  let w' := snd (initializeSampleData env data w) in
  fst (initializeSampleData env data w) = Ok tt
  /\ users w' = users w
  /\ outbox w' = outbox w
  /\ Forall2 createdFrom (firstn (List.length (stations w')) data) (stations w')
  /\ (List.length (stations w') <= List.length data)%nat
  /\ ((forall k, storeFails env k = false) ->
      List.length (stations w') = List.length data).
Proof.
  intros Hemp. cbv zeta. unfold initializeSampleData, tryCatch.
  destruct (storeFails env (nStore w)) eqn:Hs.
  - erewrite bind_throw
      by (rewrite Station_countDocuments_run, Hs; reflexivity).
    simpl. rewrite Hemp. simpl.
    split; [reflexivity|]. split; [reflexivity|]. split; [reflexivity|].
    split; [constructor|]. split; [lia|].
    intros Hup. rewrite Hup in Hs. discriminate.
  - erewrite bind_ok
      by (rewrite Station_countDocuments_run, Hs; reflexivity).
    rewrite Hemp. simpl. erewrite bind_ok by reflexivity.
    match goal with
    | |- context [bind (forOf data _) _ ?w1] =>
      destruct (createLoop_outcome data w1) as (news & S & U & O & F & L & Hok & Hup);
      cbv zeta in S, U, O, Hok, Hup;
      destruct (forOf data (createSample env) w1) as [[u|e] w2] eqn:Eloop
    end; simpl in S, U, O, Hok, Hup; rewrite Hemp in S; simpl in S.
    + erewrite bind_ok by exact Eloop. simpl. rewrite S, U, O.
      split; [reflexivity|]. split; [reflexivity|]. split; [reflexivity|].
      split; [exact F|]. split; [exact L|]. intros _. apply Hok.
      destruct u. reflexivity.
    + erewrite bind_throw by exact Eloop. simpl. rewrite S, U, O.
      split; [reflexivity|]. split; [reflexivity|]. split; [reflexivity|].
      split; [exact F|]. split; [exact L|].
      intros H. specialize (Hup H). discriminate.
Qed.
End InitFacts.

Lemma init_leaves_populated_store_witness :
  let r := initializeSampleData quietEnv [teneData] oneStationWorld in
  fst r = Ok tt
  /\ stations (snd r) = stations oneStationWorld
  /\ users (snd r) = users oneStationWorld
  /\ outbox (snd r) = outbox oneStationWorld
  /\ nIds (snd r) = nIds oneStationWorld.
Proof.
  apply (init_leaves_populated_store quietEnv [teneData] oneStationWorld).
  discriminate.
Defined.

(** X11. On an empty collection, [initializeSampleData] stores stations made
    of a prefix of the data, in the order of the data, each active and with
    the name, address and prices of its datum; it touches neither users nor
    outbox and never throws, whatever the environment.  (A rejected insert
    ends the loop: the stations stored so far stay.) *)
Theorem init_stores_prefix (env : Env) (data : list StationData) (w : World) :
  stations w = [] ->
  let w' := snd (initializeSampleData env data w) in
  fst (initializeSampleData env data w) = Ok tt
  /\ users w' = users w
  /\ outbox w' = outbox w
  /\ exists k, (k <= List.length data)%nat
               /\ Forall2 createdFrom (firstn k data) (stations w').
Proof.
  intros Hemp w'.
  destruct (init_empty_outcome env data w Hemp) as (R & U & O & F & L & _).
  fold w' in U, O, F, L. split; [exact R|]. split; [exact U|].
  split; [exact O|]. exists (List.length (stations w')). auto.
Qed.

Lemma init_stores_prefix_witness :
  let r := initializeSampleData quietEnv [teneData] emptyWorld in
  fst r = Ok tt
  /\ users (snd r) = users emptyWorld
  /\ outbox (snd r) = outbox emptyWorld
  /\ exists k, (k <= List.length [teneData])%nat
               /\ Forall2 createdFrom (firstn k [teneData]) (stations (snd r)).
Proof.
  apply (init_stores_prefix quietEnv [teneData] emptyWorld). reflexivity.
Defined.

(** X12. Initialising twice is initialising once: on an empty collection,
    with data that is not empty and with the store answering,
    [initializeSampleData] stores one station per datum, and a further run,
    in any environment and with any data, leaves the collection as the
    first run left it. *)
Theorem init_is_idempotent (env env' : Env) (data data' : list StationData)
  (w : World) :
  stations w = [] ->
  data <> [] ->
  (forall k, storeFails env k = false) ->
  let w1 := snd (initializeSampleData env data w) in
  let w2 := snd (initializeSampleData env' data' w1) in
  Forall2 createdFrom data (stations w1)
  /\ stations w2 = stations w1
  /\ users w2 = users w.
Proof.
  intros Hemp Hdata Hup w1 w2.
  destruct (init_empty_outcome env data w Hemp) as (_ & U & _ & F & _ & Hlen).
  fold w1 in U, F, Hlen. specialize (Hlen Hup).
  rewrite Hlen, firstn_all in F.
  assert (Hlen1 : (List.length (stations w1) =? 0)%nat = false).
  { rewrite Hlen. destruct data; [contradiction|reflexivity]. }
  split; [exact F|].
  unfold w2, initializeSampleData, tryCatch, bind.
  rewrite Station_countDocuments_run.
  destruct (storeFails env' (nStore w1)); simpl; [auto|].
  rewrite Hlen1. simpl. auto.
Qed.

Lemma init_is_idempotent_witness :
  let w1 := snd (initializeSampleData quietEnv [teneData] emptyWorld) in
  let w2 := snd (initializeSampleData mailDownEnv [teneData; teneData] w1) in
  Forall2 createdFrom [teneData] (stations w1)
  /\ stations w2 = stations w1
  /\ users w2 = users emptyWorld.
Proof.
  apply (init_is_idempotent quietEnv mailDownEnv [teneData]
           [teneData; teneData] emptyWorld).
  - reflexivity.
  - discriminate.
  - intros k. reflexivity.
Defined.

Lemma sampleEntry_run env p w :
  sampleEntry env p w
  = (Ok (mkFuelEntry (Some p) (Some (clock env (nClock w)))), tickClock w).
Proof. reflexivity. Qed.

(** The module constant, loaded: five data, whatever the clock reads. *)
Lemma loadSampleStations_run env w :
  exists data w0,
    loadSampleStations env w = (Ok data, w0)
    /\ stations w0 = stations w /\ users w0 = users w
    /\ List.length data = 5%nat
    /\ Forall (fun d => forall f, aboveFloor f (getFuel (dFuelTypes d) f)) data.
Proof.
  eexists _, _. split; [reflexivity|]. simpl.
  split; [reflexivity|]. split; [reflexivity|]. split; [reflexivity|].
  repeat constructor; intros [| |]; eexists; (split; [reflexivity|]);
    unfold Qle; simpl; lia.
Qed.

(** X13. The sample data respects the floors the mutator keeps: loading the
    module constant and initialising an empty collection, with the store
    answering, stores five stations, each active and with its three prices
    at or above their floors, whatever the clock reads. *)
Theorem sample_stations_respect_floors (env env' : Env) (w : World) :
  stations w = [] ->
  (forall k, storeFails env' k = false) ->
  exists data w0,
    loadSampleStations env w = (Ok data, w0)
    /\ let w1 := snd (initializeSampleData env' data w0) in
       List.length (stations w1) = 5%nat
       /\ Forall (fun s => Station.isActive s = true /\ aboveFloors s)
                 (stations w1).
Proof.
  intros Hemp Hup.
  destruct (loadSampleStations_run env w) as (data & w0 & E & S & _ & L & Hfl).
  exists data, w0. split; [exact E|]. intros w1.
  assert (Hemp0 : stations w0 = []) by congruence.
  destruct (init_empty_outcome env' data w0 Hemp0) as (_ & _ & _ & F & _ & Hlen).
  fold w1 in F, Hlen. specialize (Hlen Hup).
  rewrite Hlen, firstn_all in F. split; [congruence|].
  clear - F Hfl. induction F as [|d s' ds ss Hc F IH]; constructor.
  - inversion Hfl; subst. destruct Hc as (_ & _ & Ha & Hft).
    split; [exact Ha|]. unfold aboveFloors. rewrite Hft. assumption.
  - apply IH. inversion Hfl; assumption.
Qed.

Lemma sample_stations_respect_floors_witness :
  exists data w0,
    loadSampleStations quietEnv emptyWorld = (Ok data, w0)
    /\ let w1 := snd (initializeSampleData quietEnv data w0) in
       List.length (stations w1) = 5%nat
       /\ Forall (fun s => Station.isActive s = true /\ aboveFloors s)
                 (stations w1).
Proof.
  apply (sample_stations_respect_floors quietEnv quietEnv emptyWorld).
  - reflexivity.
  - intros k. reflexivity.
Defined.

(** ** The routes: what every handler run looks like *)

Ltac run_handler :=
  unfold requireUser;
  unfold Station_findById, User_findById, User_save, Station_save;
  unfold castId, alertById;
  unfold storeOp, getStations, getUsers, setUsers, setStations, consoleLog,
    newObjectId, now;
  unfold tryCatch, bind, ret, throw;
  simpl;
  repeat (match goal with
          | |- context [match castObjectId ?s with _ => _ end] =>
            destruct (castObjectId s) eqn:?
          | |- context [if storeFails ?e ?k then _ else _] =>
            destruct (storeFails e k) eqn:?
          | |- context [match findStation ?i ?l with _ => _ end] =>
            destruct (findStation i l) eqn:?
          | |- context [match findUser ?i ?l with _ => _ end] =>
            destruct (findUser i l) eqn:?
          | |- context [match find ?f ?l with _ => _ end] =>
            destruct (find f l) eqn:?
          | |- context [if existsb ?f ?l then _ else _] =>
            destruct (existsb f l) eqn:?
          end; simpl).

Section HandlerOutcomes.
Variable env : Env.

(** POST /api/users/alerts: either the User collection is as it was and the
    status is 400, 404 or 500, or the status is 201 and a subdocument made
    of the request has been appended to the alerts of the requesting
    user. *)
Lemma postAlert_outcome userId b w :
  let r := postAlert env userId b w in
  stations (snd r) = stations w
  /\ ((users (snd r) = users w
       /\ exists resp, fst r = Ok resp /\ In (status resp) [400; 404; 500]%nat)
      \/ exists user fuelType targetPrice id oid,
           findUser userId (users w) = Some user
           /\ validCreate b
           /\ fuelOfKey (cFuelType b) = Some fuelType
           /\ cTargetPrice b = Valid targetPrice
           /\ castObjectId (cStationId b) = Some oid
           /\ findStation oid (stations w) <> None
           /\ find (fun alert =>
                      String.eqb (Alert.stationId alert) (cStationId b)
                      && FuelType_eqb (Alert.fuelType alert) fuelType)
                   (User.priceAlerts user) = None
           /\ fst r = Ok (mkResponse 201
                            (BNewAlert "Price alert created successfully"
                               (mkNewAlert (cStationId b) fuelType targetPrice
                                           true)))
           /\ users (snd r)
              = replaceUser
                  (User.with_priceAlerts user
                     (User.priceAlerts user
                      ++ [Alert.mk id oid fuelType targetPrice true None]))
                  (users w)).
Proof.
  cbv zeta. unfold postAlert, validationErrors, validCreate. simpl.
  destruct (isMongoId (cStationId b)) eqn:V1;
    destruct (isFuelKey (cFuelType b)) eqn:V2;
    destruct (required (cTargetPrice b)) eqn:V3; simpl;
    try (split; [reflexivity|]; left; split; [reflexivity|];
         eexists; split; [reflexivity|]; simpl; tauto).
  unfold isFuelKey in V2.
  destruct (fuelOfKey (cFuelType b)) as [fuelType|] eqn:Hk; [|discriminate].
  destruct (cTargetPrice b) as [| |targetPrice] eqn:Ht; try discriminate.
  run_handler;
    try (split; [reflexivity|]; left; split; [reflexivity|];
         eexists; split; [reflexivity|]; simpl; tauto).
  split; [reflexivity|]. right.
  eexists _, fuelType, targetPrice, _, _. split; [reflexivity|].
  split; [auto|]. split; [reflexivity|]. split; [reflexivity|].
  split; [reflexivity|].
  split; [congruence|]. split; [assumption|]. split; reflexivity.
Qed.

(** DELETE /api/users/alerts/:alertId: status 500 with the collection as it
    was, or status 200 with the filtered alerts saved. *)
Lemma deleteAlert_outcome userId alertId w :
  let r := deleteAlert env userId alertId w in
  stations (snd r) = stations w
  /\ ((users (snd r) = users w
       /\ exists resp, fst r = Ok resp /\ status resp = 500%nat)
      \/ exists user,
           findUser userId (users w) = Some user
           /\ fst r = Ok (json (BMessage "Price alert deleted successfully"))
           /\ users (snd r)
              = replaceUser
                  (User.with_priceAlerts user
                     (filter (fun alert =>
                                negb (String.eqb (Alert._id alert) alertId))
                             (User.priceAlerts user)))
                  (users w)).
Proof.
  cbv zeta. unfold deleteAlert.
  run_handler;
    try (split; [reflexivity|]; left; split; [reflexivity|];
         eexists; split; reflexivity).
  split; [reflexivity|]. right.
  eexists. split; [reflexivity|]. split; reflexivity.
Qed.

(** PUT /api/users/alerts/:alertId *)
Lemma putAlert_outcome userId alertId b w :
  let r := putAlert env userId alertId b w in
  stations (snd r) = stations w
  /\ ((users (snd r) = users w
       /\ exists resp, fst r = Ok resp /\ In (status resp) [400; 404; 500]%nat)
      \/ exists user alert,
           findUser userId (users w) = Some user
           /\ validUpdate b
           /\ alertById alertId (User.priceAlerts user) = Some alert
           /\ fst r = Ok (json (BAlert "Price alert updated successfully"
                                       (applyAlertUpdate b alert)))
           /\ users (snd r)
              = replaceUser
                  (User.with_priceAlerts user
                     (updateFirst (Alert._id alert) (applyAlertUpdate b)
                        (User.priceAlerts user)))
                  (users w)).
Proof.
  cbv zeta. unfold putAlert, validationErrors, validUpdate. simpl.
  destruct (optional (uTargetPrice b)) eqn:V1;
    destruct (optional (uIsActive b)) eqn:V2; simpl;
    try (split; [reflexivity|]; left; split; [reflexivity|];
         eexists; split; [reflexivity|]; simpl; tauto).
  unfold requireUser, User_findById, User_save, storeOp, getUsers, setUsers,
    consoleLog.
  unfold tryCatch, bind, ret, throw. simpl.
  destruct (storeFails env (nStore w)) eqn:F1; simpl;
    try (split; [reflexivity|]; left; split; [reflexivity|];
         eexists; split; [reflexivity|]; simpl; tauto).
  destruct (findUser userId (users w)) as [user|] eqn:Hu; simpl;
    try (split; [reflexivity|]; left; split; [reflexivity|];
         eexists; split; [reflexivity|]; simpl; tauto).
  destruct (alertById alertId (User.priceAlerts user)) as [alert|] eqn:Ha; simpl;
    try (split; [reflexivity|]; left; split; [reflexivity|];
         eexists; split; [reflexivity|]; simpl; tauto).
  destruct (storeFails env (S (nStore w))) eqn:F2; simpl;
    try (split; [reflexivity|]; left; split; [reflexivity|];
         eexists; split; [reflexivity|]; simpl; tauto).
  split; [reflexivity|]. right.
  exists user, alert. split; [reflexivity|]. split; [auto|].
  split; [exact Ha|]. split; reflexivity.
Qed.

(** POST /api/users/favorites *)
Lemma postFavorite_outcome userId stationId w :
  let r := postFavorite env userId stationId w in
  stations (snd r) = stations w
  /\ ((users (snd r) = users w
       /\ exists resp, fst r = Ok resp /\ In (status resp) [400; 404; 500]%nat)
      \/ exists user oid,
           findUser userId (users w) = Some user
           /\ isMongoId stationId = true
           /\ castObjectId stationId = Some oid
           /\ findStation oid (stations w) <> None
           /\ existsb (String.eqb stationId) (User.favoriteStations user) = false
           /\ fst r = Ok (json (BFavorites "Station added to favorites"
                                  (User.favoriteStations user ++ [oid])))
           /\ users (snd r)
              = replaceUser
                  (User.with_favoriteStations user
                     (User.favoriteStations user ++ [oid]))
                  (users w)).
Proof.
  cbv zeta. unfold postFavorite, validationErrors. simpl.
  destruct (isMongoId stationId) eqn:V1; simpl;
    try (split; [reflexivity|]; left; split; [reflexivity|];
         eexists; split; [reflexivity|]; simpl; tauto).
  run_handler;
    try (split; [reflexivity|]; left; split; [reflexivity|];
         eexists; split; [reflexivity|]; simpl; tauto).
  split; [reflexivity|]. right.
  eexists _, _. split; [reflexivity|]. split; [reflexivity|].
  split; [reflexivity|].
  split; [congruence|]. split; [assumption|]. split; reflexivity.
Qed.

(** DELETE /api/users/favorites/:stationId *)
Lemma deleteFavorite_outcome userId stationId w :
  let r := deleteFavorite env userId stationId w in
  stations (snd r) = stations w
  /\ ((users (snd r) = users w
       /\ exists resp, fst r = Ok resp /\ status resp = 500%nat)
      \/ exists user,
           findUser userId (users w) = Some user
           /\ let kept := filter (fun id => negb (String.eqb id stationId))
                                 (User.favoriteStations user) in
              fst r = Ok (json (BFavorites "Station removed from favorites" kept))
              /\ users (snd r)
                 = replaceUser (User.with_favoriteStations user kept) (users w)).
Proof.
  cbv zeta. unfold deleteFavorite.
  run_handler;
    try (split; [reflexivity|]; left; split; [reflexivity|];
         eexists; split; reflexivity).
  split; [reflexivity|]. right.
  eexists. split; [reflexivity|]. split; reflexivity.
Qed.

(** GET /api/stations/:id reads and, when the read fails, logs. *)
Lemma getStation_outcome id w :
  let r := getStation env id w in
  stations (snd r) = stations w
  /\ users (snd r) = users w
  /\ exists resp, fst r = Ok resp /\ In (status resp) [200; 404; 500]%nat.
Proof.
  cbv zeta. unfold getStation.
  run_handler;
    (split; [reflexivity|]; split; [reflexivity|];
     eexists; split; [reflexivity|]; simpl; tauto).
Qed.

Lemma getFuel_setFuel ft f g e :
  getFuel (setFuel ft f e) g = if FuelType_eqb f g then e else getFuel ft g.
Proof. destruct f, g; reflexivity. Qed.

(** The loop over the keys of the body always completes; it reads the clock
    and nothing else. *)
Lemma updateFuelPrices_outcome entries :
  forall ft w,
    exists ft' w',
      updateFuelPrices env entries ft w = (Ok ft', w')
      /\ stations w' = stations w
      /\ users w' = users w
      /\ nStore w' = nStore w
      /\ suppliedBy entries ft ft'.
Proof.
  induction entries as [|[key p] rest IH]; intros ft w.
  - exists ft, w. split; [reflexivity|]. split; [reflexivity|].
    split; [reflexivity|]. split; [reflexivity|]. intros f. left. reflexivity.
  - assert (Hskip :
      (exists ft' w',
         updateFuelPrices env rest ft w = (Ok ft', w')
         /\ stations w' = stations w /\ users w' = users w
         /\ nStore w' = nStore w /\ suppliedBy rest ft ft') ->
      exists ft' w',
         updateFuelPrices env rest ft w = (Ok ft', w')
         /\ stations w' = stations w /\ users w' = users w
         /\ nStore w' = nStore w /\ suppliedBy ((key, p) :: rest) ft ft').
    { intros (ft' & w' & E & Hs & Hu & Hn & Hsup).
      exists ft', w'. split; [exact E|]. split; [exact Hs|].
      split; [exact Hu|]. split; [exact Hn|].
      intros f. destruct (Hsup f) as [Hsame|(k & q & d & Hin & Hk & Hq & Hg)].
      - left. exact Hsame.
      - right. exists k, q, d. split; [right; exact Hin|]. auto. }
    simpl. destruct p as [q|]; [|apply Hskip, IH].
    destruct (Qeq_bool q 0) eqn:Ez; simpl; [apply Hskip, IH|].
    assert (Hnz : ~ q == 0).
    { intros Hq. apply Qeq_bool_iff in Hq. congruence. }
    unfold bind at 1. unfold now at 1. simpl.
    destruct (fuelOfKey key) as [f|] eqn:Ek.
    + destruct (IH (setFuel ft f (mkFuelEntry (Some q)
                                    (Some (clock env (nClock w)))))
                   (tickClock w))
        as (ft' & w' & E & Hs & Hu & Hn & Hsup).
      exists ft', w'. split; [exact E|]. split; [exact Hs|].
      split; [exact Hu|]. split; [exact Hn|].
      intros g. destruct (Hsup g) as [Hsame|(k & q' & d & Hin & Hk & Hq & Hg)].
      * rewrite Hsame, getFuel_setFuel.
        destruct (FuelType_eqb f g) eqn:Efg; [|left; reflexivity].
        right. exists key, q, (clock env (nClock w)).
        split; [left; reflexivity|]. split; [|split; [exact Hnz|reflexivity]].
        destruct f, g; try discriminate; exact Ek.
      * right. exists k, q', d. split; [right; exact Hin|]. auto.
    + destruct (IH ft (tickClock w)) as (ft' & w' & E & Hs & Hu & Hn & Hsup).
      exists ft', w'. split; [exact E|]. split; [exact Hs|].
      split; [exact Hu|]. split; [exact Hn|].
      intros g. destruct (Hsup g) as [Hsame|(k & q' & d & Hin & Hk & Hq & Hg)].
      * left. exact Hsame.
      * right. exists k, q', d. split; [right; exact Hin|]. auto.
Qed.

(** PUT /api/stations/:id *)
Lemma putStation_outcome id fuelTypes w :
  let r := putStation env id fuelTypes w in
  users (snd r) = users w
  /\ ((stations (snd r) = stations w
       /\ exists resp, fst r = Ok resp /\ In (status resp) [404; 500]%nat)
      \/ exists oid station ft d,
           castObjectId id = Some oid
           /\ findStation oid (stations w) = Some station
           /\ match fuelTypes with
              | Some entries => suppliedBy entries (Station.fuelTypes station) ft
              | None => ft = Station.fuelTypes station
              end
           /\ let station' :=
                Station.with_lastScraped (Station.with_fuelTypes station ft) d in
              fst r = Ok (json (BMessageStation "Station updated successfully"
                                                station'))
              /\ stations (snd r) = replaceStation station' (stations w)).
Proof.
  cbv zeta. destruct (putStation env id fuelTypes w) as [r w1] eqn:E0.
  unfold putStation, Station_findById, Station_save, castId in E0.
  unfold storeOp, getStations, setStations, consoleLog, now in E0.
  unfold tryCatch, bind, ret, throw in E0. simpl in *.
  destruct (castObjectId id) as [oid|] eqn:Hc; simpl in E0.
  2:{ inversion E0; subst. split; [reflexivity|]. left. split; [reflexivity|].
      eexists; split; [reflexivity|]. simpl; tauto. }
  destruct (storeFails env (nStore w)) eqn:F1; simpl in E0.
  { inversion E0; subst. split; [reflexivity|]. left. split; [reflexivity|].
    eexists; split; [reflexivity|]. simpl; tauto. }
  destruct (findStation oid (stations w)) as [station|] eqn:Hf; simpl in E0.
  2:{ inversion E0; subst. split; [reflexivity|]. left. split; [reflexivity|].
      eexists; split; [reflexivity|]. simpl; tauto. }
  assert (Hft : exists ft w',
             match fuelTypes with
             | Some entries =>
               updateFuelPrices env entries (Station.fuelTypes station)
             | None => fun w0 => (Ok (Station.fuelTypes station), w0)
             end (tickStore w) = (Ok ft, w')
             /\ stations w' = stations w /\ users w' = users w
             /\ match fuelTypes with
                | Some entries =>
                  suppliedBy entries (Station.fuelTypes station) ft
                | None => ft = Station.fuelTypes station
                end).
  { destruct fuelTypes as [entries|].
    - destruct (updateFuelPrices_outcome entries (Station.fuelTypes station)
                  (tickStore w)) as (ft & w' & E & Hs & Hu & _ & Hsup).
      exists ft, w'. auto.
    - exists (Station.fuelTypes station), (tickStore w).
      split; [reflexivity|]. auto. }
  destruct Hft as (ft & w' & E & Hs & Hu & Hsup).
  rewrite E in E0. simpl in E0.
  destruct (storeFails env (nStore w')) eqn:F2; simpl in E0.
  { inversion E0; subst. split; [exact Hu|]. left. split; [exact Hs|].
    eexists; split; [reflexivity|]. simpl; tauto. }
  inversion E0; subst. simpl. split; [exact Hu|]. right.
  exists oid, station, ft, (clock env (nClock w')).
  split; [reflexivity|]. split; [exact Hf|]. split; [exact Hsup|].
  split; [reflexivity|]. rewrite Hs. reflexivity.
Qed.
End HandlerOutcomes.

(** ** The routes: failure and rejection *)

Ltac settle_outcome :=
  cbv zeta in *;
  repeat match goal with
         | H : exists _, _ |- _ => destruct H
         | H : _ /\ _ |- _ => destruct H
         end.

Ltac fails_safe H :=
  let Hs := fresh "Hs" in
  destruct H as [Hs H]; destruct H as [H|H]; settle_outcome;
  (eexists; split; [eassumption|]; split;
   [simpl in *; intuition congruence|];
   intros N200 N201;
   first [split; assumption | exfalso; simpl in *; congruence]).

(** X14.  Each modelled handler answers whatever the store does, with one of
    the statuses 200, 201, 400, 404 and 500, and an answer other than 200 or
    201 comes with both collections as they were.  GET /api/stations/:id
    leaves them as they were in any case. *)
Theorem handlers_fail_safe (env : Env) (w : World) (userId : Id) (id : string)
  (fuelTypes : FuelTypesBody) (b : CreateAlertBody) (c : UpdateAlertBody) :
  (failsSafe w (getStation env id w)
   /\ stations (snd (getStation env id w)) = stations w
   /\ users (snd (getStation env id w)) = users w)
  /\ failsSafe w (putStation env id fuelTypes w)
  /\ failsSafe w (postFavorite env userId id w)
  /\ failsSafe w (deleteFavorite env userId id w)
  /\ failsSafe w (postAlert env userId b w)
  /\ failsSafe w (deleteAlert env userId id w)
  /\ failsSafe w (putAlert env userId id c w).
Proof.
  split; [|split; [|split; [|split; [|split; [|split]]]]].
  - pose proof (getStation_outcome env id w) as H. cbv zeta in H.
    destruct H as (Hs & Hu & resp & Hr & Hst).
    split; [|split; assumption].
    exists resp. split; [exact Hr|]. split; [simpl in *; tauto|].
    intros _ _. split; assumption.
  - pose proof (putStation_outcome env id fuelTypes w) as H. cbv zeta in H.
    destruct H as [Hu [(Hs & resp & Hr & Hst)|H]].
    + exists resp. split; [exact Hr|]. split; [simpl in *; tauto|].
      intros _ _. split; assumption.
    + destruct H as (oid & station & ft & d & _ & _ & _ & Hr & _).
      eexists. split; [exact Hr|]. split; [simpl; tauto|].
      intros N200. exfalso. apply N200. reflexivity.
  - pose proof (postFavorite_outcome env userId id w) as H. fails_safe H.
  - pose proof (deleteFavorite_outcome env userId id w) as H. fails_safe H.
  - pose proof (postAlert_outcome env userId b w) as H. fails_safe H.
  - pose proof (deleteAlert_outcome env userId id w) as H. fails_safe H.
  - pose proof (putAlert_outcome env userId id c w) as H. fails_safe H.
Qed.

(** X15.  A request that fails a validator of POST /api/users/favorites,
    POST /api/users/alerts or PUT /api/users/alerts/:alertId is answered 400
    with the messages of the failed validators, before any store operation:
    the whole state, counters and console included, is as it was. *)
Theorem invalid_request_is_rejected_untouched (env : Env) (w : World)
  (userId : Id) (stationId alertId : string) (b : CreateAlertBody)
  (c : UpdateAlertBody) :
  isMongoId stationId = false ->
  ~ validCreate b ->
  ~ validUpdate c ->
  (exists errors,
     errors <> []
     /\ postFavorite env userId stationId w
        = (Ok (mkResponse 400 (BErrors "Validation failed" errors)), w))
  /\ (exists errors,
        errors <> []
        /\ postAlert env userId b w
           = (Ok (mkResponse 400 (BErrors "Validation failed" errors)), w))
  /\ (exists errors,
        errors <> []
        /\ putAlert env userId alertId c w
           = (Ok (mkResponse 400 (BErrors "Validation failed" errors)), w)).
Proof.
  intros H1 H2 H3. split; [|split].
  - unfold postFavorite, validationErrors. simpl. rewrite H1. simpl.
    eexists. split; [|reflexivity]. discriminate.
  - unfold postAlert, validationErrors, validCreate in *. simpl.
    destruct (isMongoId (cStationId b)) eqn:V1;
      destruct (isFuelKey (cFuelType b)) eqn:V2;
      destruct (required (cTargetPrice b)) eqn:V3; simpl;
      try (eexists; split; [|reflexivity]; discriminate).
    exfalso. apply H2. auto.
  - unfold putAlert, validationErrors, validUpdate in *. simpl.
    destruct (optional (uTargetPrice c)) eqn:V1;
      destruct (optional (uIsActive c)) eqn:V2; simpl;
      try (eexists; split; [|reflexivity]; discriminate).
    exfalso. apply H3. auto.
Qed.

Lemma invalid_request_is_rejected_untouched_witness :
  let w := alertWorld 6.20 None in
  postFavorite quietEnv (User._id (dana None)) "tene-netanya" w
  = (Ok (mkResponse 400
           (BErrors "Validation failed" ["Valid station ID is required"])), w)
  /\ postAlert quietEnv (User._id (dana None))
       (mkCreateAlertBody "tene-netanya" "diesel" Absent) w
     = (Ok (mkResponse 400
              (BErrors "Validation failed"
                 ["Valid station ID is required";
                  "Valid target price is required"])), w)
  /\ putAlert quietEnv (User._id (dana None)) (Alert._id (dieselAlert None))
       (mkUpdateAlertBody Invalid Absent) w
     = (Ok (mkResponse 400
              (BErrors "Validation failed" ["Valid target price is required"])),
        w).
Proof.
  destruct (invalid_request_is_rejected_untouched quietEnv (alertWorld 6.20 None)
              (User._id (dana None)) "tene-netanya"
              (Alert._id (dieselAlert None))
              (mkCreateAlertBody "tene-netanya" "diesel" Absent)
              (mkUpdateAlertBody Invalid Absent))
    as ((e1 & _ & E1) & (e2 & _ & E2) & (e3 & _ & E3)).
  - reflexivity.
  - intros (V & _). discriminate V.
  - intros (V & _). discriminate V.
  - split; [|split]; reflexivity.
Defined.

Ltac run_up Hup :=
  unfold requireUser;
  unfold Station_findById, User_findById, User_save, Station_save;
  unfold castId, alertById;
  unfold storeOp, getStations, getUsers, setUsers, setStations, consoleLog,
    newObjectId, now;
  unfold tryCatch, bind, ret, throw;
  simpl;
  repeat (rewrite Hup; simpl).

(** X16.  When no stored user has the id the handler is given, the property
    read on the result of [User.findById] throws: the handlers that load the
    user answer 500, log the [TypeError] and leave both collections as they
    were (the request being valid, the station that the id spells existing
    and the store answering). *)
Theorem missing_user_is_500 (env : Env) (w : World) (userId : Id)
  (id : string) (b : CreateAlertBody) (c : UpdateAlertBody) :
  (forall k, storeFails env k = false) ->
  findUser userId (users w) = None ->
  (forall oid, castObjectId id = Some oid ->
               findStation oid (stations w) <> None) ->
  isMongoId id = true ->
  validCreate b -> cStationId b = id ->
  validUpdate c ->
  let lost (r : Result Response * World) :=
    statusOf (fst r) = Some 500%nat
    /\ stations (snd r) = stations w
    /\ users (snd r) = users w
    /\ exists msg,
         console (snd r)
         = console w
           ++ [LogErr msg (TypeError "Cannot read properties of null")] in
  lost (postFavorite env userId id w)
  /\ lost (deleteFavorite env userId id w)
  /\ lost (postAlert env userId b w)
  /\ lost (deleteAlert env userId id w)
  /\ lost (putAlert env userId id c w).
Proof.
  intros Hup Hu Hs Hid (V1 & V2 & V3) Hb (U1 & U2) lost. unfold lost.
  pose proof (isMongoId_castObjectId id Hid) as Hc.
  specialize (Hs _ Hc).
  destruct (findStation (lowerHex id) (stations w)) as [st|] eqn:Hst;
    [|congruence].
  split; [|split; [|split; [|split]]].
  - unfold postFavorite, validationErrors. simpl. rewrite Hid. simpl.
    run_up Hup. rewrite Hc. simpl. rewrite Hup. simpl. rewrite Hst. simpl.
    rewrite Hup. simpl. rewrite Hu. simpl.
    split; [reflexivity|]. split; [reflexivity|]. split; [reflexivity|].
    eexists. reflexivity.
  - unfold deleteFavorite. run_up Hup. rewrite Hu. simpl.
    split; [reflexivity|]. split; [reflexivity|]. split; [reflexivity|].
    eexists. reflexivity.
  - unfold postAlert, validationErrors. simpl. rewrite V1, V2, V3. simpl.
    unfold isFuelKey in V2.
    destruct (fuelOfKey (cFuelType b)); [|discriminate].
    destruct (cTargetPrice b); try discriminate.
    run_up Hup. rewrite Hb, Hc. simpl. rewrite Hup. simpl. rewrite Hst. simpl.
    rewrite Hup. simpl. rewrite Hu. simpl.
    split; [reflexivity|]. split; [reflexivity|]. split; [reflexivity|].
    eexists. reflexivity.
  - unfold deleteAlert. run_up Hup. rewrite Hu. simpl.
    split; [reflexivity|]. split; [reflexivity|]. split; [reflexivity|].
    eexists. reflexivity.
  - unfold putAlert, validationErrors. simpl. rewrite U1, U2. simpl.
    run_up Hup. rewrite Hu. simpl.
    split; [reflexivity|]. split; [reflexivity|]. split; [reflexivity|].
    eexists. reflexivity.
Qed.

Lemma missing_user_is_500_witness :
  let id := Station._id teneNetanya in
  let b := mkCreateAlertBody id "diesel" (Valid 6.30) in
  let c := mkUpdateAlertBody (Valid 6.10) Absent in
  let userId := User._id (dana None) in
  statusOf (fst (postFavorite quietEnv userId id oneStationWorld)) = Some 500%nat
  /\ statusOf (fst (deleteFavorite quietEnv userId id oneStationWorld))
     = Some 500%nat
  /\ statusOf (fst (postAlert quietEnv userId b oneStationWorld)) = Some 500%nat
  /\ statusOf (fst (deleteAlert quietEnv userId id oneStationWorld))
     = Some 500%nat
  /\ statusOf (fst (putAlert quietEnv userId id c oneStationWorld))
     = Some 500%nat.
Proof.
  destruct (missing_user_is_500 quietEnv oneStationWorld (User._id (dana None))
              (Station._id teneNetanya)
              (mkCreateAlertBody (Station._id teneNetanya) "diesel" (Valid 6.30))
              (mkUpdateAlertBody (Valid 6.10) Absent))
    as ((H1 & _) & (H2 & _) & (H3 & _) & (H4 & _) & (H5 & _)).
  - intros k. reflexivity.
  - reflexivity.
  - intros oid Hc. inversion Hc. discriminate.
  - reflexivity.
  - repeat split; reflexivity.
  - reflexivity.
  - split; reflexivity.
  - repeat split; assumption.
Defined.


(** ** The routes: a user's price alerts *)

Lemma findUser_id id l u : findUser id l = Some u -> User._id u = id.
Proof.
  unfold findUser. intros H. apply find_some in H.
  apply String.eqb_eq, H.
Qed.

Lemma findUser_In id l u : findUser id l = Some u -> In u l.
Proof. unfold findUser. intros H. apply find_some in H. apply H. Qed.

(** Looking a user up after a save. *)
Lemma findUser_replaceUser i n l :
  findUser i (replaceUser n l)
  = if String.eqb (User._id n) i
    then match findUser i l with Some _ => Some n | None => None end
    else findUser i l.
Proof.
  unfold findUser, replaceUser. induction l as [|x l IH]; simpl.
  - destruct (String.eqb (User._id n) i); reflexivity.
  - destruct (String.eqb (User._id x) (User._id n)) eqn:E.
    + apply String.eqb_eq in E. rewrite E.
      destruct (String.eqb (User._id n) i) eqn:En; [reflexivity|].
      exact IH.
    + destruct (String.eqb (User._id x) i) eqn:Ex.
      * destruct (String.eqb (User._id n) i) eqn:En; [|reflexivity].
        apply String.eqb_eq in Ex, En. apply String.eqb_neq in E.
        congruence.
      * exact IH.
Qed.

Lemma findUser_saved userId l user user' :
  findUser userId l = Some user -> User._id user' = User._id user ->
  findUser userId (replaceUser user' l) = Some user'.
Proof.
  intros H Hid. rewrite findUser_replaceUser, Hid, (findUser_id _ _ _ H).
  rewrite String.eqb_refl, H. reflexivity.
Qed.

Lemma replaceUser_twice u l : replaceUser u (replaceUser u l) = replaceUser u l.
Proof.
  unfold replaceUser. rewrite map_map. apply map_ext. intros x.
  destruct (String.eqb (User._id x) (User._id u)) eqn:E.
  - rewrite String.eqb_refl. reflexivity.
  - rewrite E. reflexivity.
Qed.

Lemma replaceUser_allUsers (I : User.t -> Prop) u l :
  I u -> Forall I l -> Forall I (replaceUser u l).
Proof.
  intros Hu Hl. apply Forall_forall. intros y Hy.
  apply replaceUser_In in Hy. destruct Hy as [->|Hy]; [exact Hu|].
  rewrite Forall_forall in Hl. apply Hl, Hy.
Qed.

Lemma FuelType_eqb_eq f g : FuelType_eqb f g = true <-> f = g.
Proof. destruct f, g; simpl; split; congruence. Qed.

(** The test of [user.priceAlerts.find] in POST /api/users/alerts is
    equality of the alert's key with the pair of the request. *)
Lemma existing_alert_test sid f a :
  String.eqb (Alert.stationId a) sid && FuelType_eqb (Alert.fuelType a) f = true
  <-> alertKey a = (sid, f).
Proof.
  unfold alertKey. rewrite andb_true_iff, String.eqb_eq, FuelType_eqb_eq.
  split; [intros (-> & ->); reflexivity|intros E; inversion E; auto].
Qed.

Lemma existing_alert_none sid f l :
  find (fun alert =>
          String.eqb (Alert.stationId alert) sid
          && FuelType_eqb (Alert.fuelType alert) f) l = None
  <-> (forall a, In a l -> alertKey a <> (sid, f)).
Proof.
  split.
  - intros H a Ha E. apply existing_alert_test in E.
    pose proof (find_none _ _ H a Ha) as N. simpl in N. congruence.
  - intros H. induction l as [|x l IH]; [reflexivity|]. simpl.
    destruct (String.eqb (Alert.stationId x) sid
              && FuelType_eqb (Alert.fuelType x) f) eqn:E.
    + apply existing_alert_test in E. exfalso.
      apply (H x (or_introl eq_refl) E).
    + apply IH. intros a Ha. apply H. right. exact Ha.
Qed.

Lemma distinct_snoc {A} (l : list A) (x : A) :
  NoDup l -> ~ In x l -> NoDup (l ++ [x]).
Proof.
  induction l as [|y l IH]; intros Hl Hx; simpl.
  - constructor; [intros []|constructor].
  - inversion Hl as [|? ? Hy Hl']; subst. constructor.
    + rewrite in_app_iff. intros [H|[H|[]]]; [exact (Hy H)|].
      apply Hx. left. symmetry. exact H.
    + apply IH; [exact Hl'|]. intros H. apply Hx. right. exact H.
Qed.

Lemma distinct_keys_kept (p : Alert.t -> bool) (l : list Alert.t) :
  NoDup (map alertKey l) -> NoDup (map alertKey (filter p l)).
Proof.
  induction l as [|a l IH]; intros H; simpl; [constructor|].
  simpl in H. inversion H as [|? ? Hout Hrest]; subst.
  destruct (p a); [|exact (IH Hrest)].
  simpl. constructor; [|exact (IH Hrest)].
  intros Hin. apply Hout. apply in_map_iff in Hin.
  destruct Hin as (a' & Ek & Ha'). apply filter_In in Ha'.
  apply in_map_iff. exists a'. split; [exact Ek|apply Ha'].
Qed.

Lemma applyAlertUpdate_retargeted c a : retargeted a (applyAlertUpdate c a).
Proof.
  unfold retargeted, applyAlertUpdate.
  destruct (uTargetPrice c), (uIsActive c); simpl; auto.
Qed.

Lemma updateFirst_retargeted alertId c l :
  Forall2 (fun a a' => retargeted a a' /\ (Alert._id a <> alertId -> a' = a))
          l (updateFirst alertId (applyAlertUpdate c) l).
Proof.
  assert (R : forall l0 : list Alert.t,
             Forall2 (fun a a' =>
                        retargeted a a' /\ (Alert._id a <> alertId -> a' = a))
                     l0 l0).
  { induction l0; constructor; auto. split; [|reflexivity].
    unfold retargeted. auto. }
  induction l as [|a l IH]; simpl; [constructor|].
  destruct (String.eqb (Alert._id a) alertId) eqn:E.
  - constructor; [|apply R]. split; [apply applyAlertUpdate_retargeted|].
    apply String.eqb_eq in E. intros N. contradiction.
  - constructor; [|exact IH]. split; [|reflexivity]. unfold retargeted. auto.
Qed.

Lemma updateFirst_keys alertId c l :
  map alertKey (updateFirst alertId (applyAlertUpdate c) l) = map alertKey l.
Proof.
  pose proof (updateFirst_retargeted alertId c l) as H.
  induction H as [|a a' l0 l1 ((_ & Hs & Hf & _) & _) _ IH]; [reflexivity|].
  simpl. rewrite IH. unfold alertKey. rewrite Hs, Hf. reflexivity.
Qed.

Lemma alertById_some alertId l alert :
  alertById alertId l = Some alert ->
  castObjectId alertId = Some (Alert._id alert) /\ In alert l.
Proof.
  unfold alertById. destruct (castObjectId alertId) as [oid|]; [|discriminate].
  intros H. apply find_some in H. destruct H as [Hin E].
  apply String.eqb_eq in E. subst oid. auto.
Qed.

(** X17.  POST /api/users/alerts, when the request is valid, the station
    that the [stationId] spells and the user exist, no alert of the user has
    the string of the request as station id together with the fuel type, and
    the store answers: the answer is 201 with the literal made of the
    request (the station id as sent, no [_id]), and the stored user has a
    subdocument appended that carries a fresh id and the ObjectId that the
    string spells, is active and has never been triggered.  An alert for the
    same station and fuel type does not prevent this when the request spells
    the id otherwise than it is stored (in upper case). *)
Theorem post_alert_creates (env : Env) (w : World) (userId : Id)
  (b : CreateAlertBody) (user : User.t) (fuelType : FuelType)
  (targetPrice : Q) (oid : Id) :
  (forall k, storeFails env k = false) ->
  isMongoId (cStationId b) = true ->
  fuelOfKey (cFuelType b) = Some fuelType ->
  cTargetPrice b = Valid targetPrice ->
  castObjectId (cStationId b) = Some oid ->
  findStation oid (stations w) <> None ->
  findUser userId (users w) = Some user ->
  (forall a, In a (User.priceAlerts user) ->
             alertKey a <> (cStationId b, fuelType)) ->
  let r := postAlert env userId b w in
  fst r = Ok (mkResponse 201
                (BNewAlert "Price alert created successfully"
                   (mkNewAlert (cStationId b) fuelType targetPrice true)))
  /\ findUser userId (users (snd r))
     = Some (User.with_priceAlerts user
               (User.priceAlerts user
                ++ [Alert.mk (objectId env (nIds w)) oid fuelType targetPrice
                             true None]))
  /\ stations (snd r) = stations w.
Proof.
  intros Hup V1 V2 V3 Hc Hst Hu Hnew r. subst r.
  destruct (findStation oid (stations w)) as [st|] eqn:Hs; [|congruence].
  apply existing_alert_none in Hnew.
  unfold postAlert, validationErrors. simpl.
  unfold isFuelKey. rewrite V1, V2, V3. simpl.
  run_up Hup. rewrite Hc. simpl. rewrite Hup. simpl. rewrite Hs. simpl.
  rewrite Hup. simpl. rewrite Hu. simpl.
  rewrite Hnew. simpl. rewrite Hup. simpl.
  split; [reflexivity|]. split; [|reflexivity].
  apply (findUser_saved _ _ user); [exact Hu|reflexivity].
Qed.

Lemma post_alert_creates_witness :
  let b := mkCreateAlertBody sonolUpperCase "diesel" (Valid 5.90) in
  let r := postAlert quietEnv (User._id (dana None)) b (alertWorld 6.20 None) in
  statusOf (fst r) = Some 201%nat
  /\ option_map (fun u => map alertKey (User.priceAlerts u))
                (findUser (User._id (dana None)) (users (snd r)))
     = Some [(Station._id (sonolJerusalem 6.20), Diesel);
             (Station._id (sonolJerusalem 6.20), Diesel)].
Proof.
  destruct (post_alert_creates quietEnv (alertWorld 6.20 None)
              (User._id (dana None))
              (mkCreateAlertBody sonolUpperCase "diesel" (Valid 5.90))
              (dana None) Diesel 5.90 (Station._id (sonolJerusalem 6.20)))
    as (Hr & Hf & _).
  - intros k. reflexivity.
  - reflexivity.
  - reflexivity.
  - reflexivity.
  - reflexivity.
  - discriminate.
  - reflexivity.
  - intros a [<-|[]]. discriminate.
  - cbv zeta. rewrite Hr, Hf. split; reflexivity.
Defined.

(** X18.  POST /api/users/alerts with a station id and fuel type that an
    alert of the user has, the id being spelled in the request as it is
    stored, whatever the alert's target price and whether or not it is
    active: the answer is 400 and nothing is stored. *)
Theorem post_alert_rejects_duplicate (env : Env) (w : World) (userId : Id)
  (b : CreateAlertBody) (user : User.t) (fuelType : FuelType)
  (targetPrice : Q) (a : Alert.t) (oid : Id) :
  (forall k, storeFails env k = false) ->
  isMongoId (cStationId b) = true ->
  fuelOfKey (cFuelType b) = Some fuelType ->
  cTargetPrice b = Valid targetPrice ->
  castObjectId (cStationId b) = Some oid ->
  findStation oid (stations w) <> None ->
  findUser userId (users w) = Some user ->
  In a (User.priceAlerts user) ->
  Alert.stationId a = cStationId b ->
  Alert.fuelType a = fuelType ->
  postAlert env userId b w
  = (Ok (mkResponse 400
           (BMessage "Alert already exists for this station and fuel type")),
     tickStore (tickStore w)).
Proof.
  intros Hup V1 V2 V3 Hc Hst Hu Ha Hks Hkf.
  destruct (findStation oid (stations w)) as [st|] eqn:Hs; [|congruence].
  destruct (find (fun alert =>
                    String.eqb (Alert.stationId alert) (cStationId b)
                    && FuelType_eqb (Alert.fuelType alert) fuelType)
                 (User.priceAlerts user)) as [a'|] eqn:Hfind.
  2:{ exfalso. rewrite existing_alert_none in Hfind.
      apply (Hfind a Ha). unfold alertKey. rewrite Hks, Hkf. reflexivity. }
  unfold postAlert, validationErrors. simpl.
  unfold isFuelKey. rewrite V1, V2, V3. simpl.
  run_up Hup. rewrite Hc. simpl. rewrite Hup. simpl. rewrite Hs. simpl.
  rewrite Hup. simpl. rewrite Hu. simpl.
  rewrite Hfind. reflexivity.
Qed.

Lemma post_alert_rejects_duplicate_witness :
  let b := mkCreateAlertBody (Station._id (sonolJerusalem 6.20)) "diesel"
                             (Valid 5.90) in
  let r := postAlert quietEnv (User._id (dana None)) b (alertWorld 6.20 None) in
  statusOf (fst r) = Some 400%nat
  /\ users (snd r) = users (alertWorld 6.20 None).
Proof.
  cbv zeta.
  rewrite (post_alert_rejects_duplicate quietEnv (alertWorld 6.20 None)
             (User._id (dana None))
             (mkCreateAlertBody (Station._id (sonolJerusalem 6.20)) "diesel"
                                (Valid 5.90))
             (dana None) Diesel 5.90 (dieselAlert None)
             (Station._id (sonolJerusalem 6.20))).
  - split; reflexivity.
  - intros k. reflexivity.
  - reflexivity.
  - reflexivity.
  - reflexivity.
  - reflexivity.
  - discriminate.
  - reflexivity.
  - left. reflexivity.
  - reflexivity.
  - reflexivity.
Defined.

(** X19.  If no stored user has two alerts for the same station and fuel
    type, none has after PUT or DELETE on /api/users/alerts, whatever the
    request and whatever the store does, and none has after POST
    /api/users/alerts when the request spells the station id as ObjectIds
    are stored.  A POST that spells it otherwise can break this: with the
    id of the station of an existing diesel alert in upper case, the user
    is stored with two diesel alerts for that station. *)
Theorem alerts_stay_distinct (env : Env) (w : World) (userId : Id)
  (alertId : string) (b : CreateAlertBody) (c : UpdateAlertBody) :
  allUsers distinctAlerts w ->
  ((forall oid, castObjectId (cStationId b) = Some oid -> oid = cStationId b) ->
   allUsers distinctAlerts (snd (postAlert env userId b w)))
  /\ allUsers distinctAlerts (snd (putAlert env userId alertId c w))
  /\ allUsers distinctAlerts (snd (deleteAlert env userId alertId w))
  /\ (let w0 := alertWorld 6.20 None in
      let w1 := snd (postAlert quietEnv (User._id (dana None))
                       (mkCreateAlertBody sonolUpperCase "diesel" (Valid 5.90))
                       w0) in
      allUsers distinctAlerts w0 /\ ~ allUsers distinctAlerts w1).
Proof.
  unfold allUsers. intros H.
  assert (Hin : forall user, findUser userId (users w) = Some user ->
                             distinctAlerts user).
  { intros user Hu. rewrite Forall_forall in H. apply H.
    apply (findUser_In _ _ _ Hu). }
  split; [|split; [|split]].
  - intros Hspell.
    pose proof (postAlert_outcome env userId b w) as O. cbv zeta in O.
    destruct O as (_ & [(E & _)|O]); [rewrite E; exact H|].
    destruct O as (user & f & p & id & oid & Hu & _ & _ & _ & Hc & _ & Hnone
                   & _ & E).
    rewrite E. apply replaceUser_allUsers; [|exact H].
    unfold distinctAlerts. simpl. rewrite map_app. simpl.
    apply distinct_snoc; [apply (Hin user Hu)|].
    rewrite existing_alert_none in Hnone. intros Hk.
    apply in_map_iff in Hk. destruct Hk as (a & Ek & Ha).
    apply (Hnone a Ha). rewrite Ek. unfold alertKey. simpl.
    rewrite (Hspell oid Hc). reflexivity.
  - pose proof (putAlert_outcome env userId alertId c w) as O. cbv zeta in O.
    destruct O as (_ & [(E & _)|O]); [rewrite E; exact H|].
    destruct O as (user & alert & Hu & _ & _ & _ & E).
    rewrite E. apply replaceUser_allUsers; [|exact H].
    unfold distinctAlerts. simpl. rewrite updateFirst_keys.
    apply (Hin user Hu).
  - pose proof (deleteAlert_outcome env userId alertId w) as O. cbv zeta in O.
    destruct O as (_ & [(E & _)|O]); [rewrite E; exact H|].
    destruct O as (user & Hu & _ & E).
    rewrite E. apply replaceUser_allUsers; [|exact H].
    unfold distinctAlerts. simpl. apply distinct_keys_kept, (Hin user Hu).
  - cbv zeta. split.
    + constructor; [|constructor]. constructor; [intros []|constructor].
    + match goal with
      | |- ~ Forall _ (users ?w1) =>
        assert (E : map (fun u => map alertKey (User.priceAlerts u)) (users w1)
                    = [[(Station._id (sonolJerusalem 6.20), Diesel);
                        (Station._id (sonolJerusalem 6.20), Diesel)]])
          by (vm_compute; reflexivity);
        destruct (users w1) as [|u1 rest]; [discriminate E|]
      end.
      intros Hall. inversion Hall as [|? ? Hnd _]; subst.
      unfold distinctAlerts in Hnd. simpl in E. inversion E as [[Ek Er]].
      rewrite Ek in Hnd. inversion Hnd as [|? ? Hout _]; subst.
      apply Hout. left. reflexivity.
Qed.

Lemma alerts_stay_distinct_witness :
  let w := alertWorld 6.20 None in
  let userId := User._id (dana None) in
  let sonol := Station._id (sonolJerusalem 6.20) in
  allUsers distinctAlerts
    (snd (postAlert quietEnv userId
            (mkCreateAlertBody sonol "gasoline98" (Valid 7.00)) w))
  /\ allUsers distinctAlerts
       (snd (putAlert quietEnv userId (Alert._id (dieselAlert None))
               (mkUpdateAlertBody (Valid 6.00) Absent) w))
  /\ allUsers distinctAlerts
       (snd (deleteAlert quietEnv userId (Alert._id (dieselAlert None)) w)).
Proof.
  destruct (alerts_stay_distinct quietEnv (alertWorld 6.20 None)
              (User._id (dana None)) (Alert._id (dieselAlert None))
              (mkCreateAlertBody (Station._id (sonolJerusalem 6.20))
                                 "gasoline98" (Valid 7.00))
              (mkUpdateAlertBody (Valid 6.00) Absent))
    as (Hpost & Hput & Hdel & _).
  - constructor; [|constructor].
    constructor; [intros []|constructor].
  - split; [|split; [exact Hput|exact Hdel]].
    apply Hpost. intros oid Hc. inversion Hc. reflexivity.
Defined.

(** X20.  DELETE /api/users/alerts/:alertId, when the user exists and the
    store answers: the answer is 200; the stored user keeps exactly the
    alerts with another id; and the same request once more changes nothing
    in the User collection. *)
Theorem delete_alert_removes_it (env : Env) (w : World) (userId : Id)
  (alertId : string) (user : User.t) :
  (forall k, storeFails env k = false) ->
  findUser userId (users w) = Some user ->
  let r := deleteAlert env userId alertId w in
  statusOf (fst r) = Some 200%nat
  /\ (exists user',
        findUser userId (users (snd r)) = Some user'
        /\ forall a, In a (User.priceAlerts user')
                     <-> In a (User.priceAlerts user) /\ Alert._id a <> alertId)
  /\ users (snd (deleteAlert env userId alertId (snd r))) = users (snd r).
Proof.
  intros Hup Hu r.
  remember (User.with_priceAlerts user
              (filter (fun alert => negb (String.eqb (Alert._id alert) alertId))
                      (User.priceAlerts user))) as user' eqn:Eu'.
  assert (E : r = (Ok (json (BMessage "Price alert deleted successfully")),
                   with_users (tickStore (tickStore w))
                     (replaceUser user' (users w)))).
  { subst r user'. unfold deleteAlert. run_up Hup. rewrite Hu. simpl.
    rewrite Hup. reflexivity. }
  assert (Hu' : findUser userId (replaceUser user' (users w)) = Some user').
  { apply (findUser_saved _ _ user); [exact Hu|subst user'; reflexivity]. }
  assert (Es : User.with_priceAlerts user'
                 (filter (fun alert =>
                            negb (String.eqb (Alert._id alert) alertId))
                         (User.priceAlerts user')) = user').
  { subst user'. unfold User.with_priceAlerts. simpl. f_equal.
    apply filter_all. intros x Hx. apply filter_In in Hx. apply Hx. }
  rewrite E. simpl. split; [reflexivity|]. split.
  - exists user'. split; [exact Hu'|]. intros a. subst user'. simpl.
    rewrite filter_In, negb_true_iff, String.eqb_neq. reflexivity.
  - unfold deleteAlert. run_up Hup. rewrite Hu'. simpl. rewrite Hup. simpl.
    rewrite Es. apply replaceUser_twice.
Qed.

Lemma delete_alert_removes_it_witness :
  let r := deleteAlert quietEnv (User._id (dana None))
             (Alert._id (dieselAlert None)) (alertWorld 6.20 None) in
  statusOf (fst r) = Some 200%nat
  /\ users (snd (deleteAlert quietEnv (User._id (dana None))
                   (Alert._id (dieselAlert None)) (snd r)))
     = users (snd r).
Proof.
  destruct (delete_alert_removes_it quietEnv (alertWorld 6.20 None)
              (User._id (dana None)) (Alert._id (dieselAlert None)) (dana None))
    as (H200 & _ & Hagain).
  - intros k. reflexivity.
  - reflexivity.
  - split; [exact H200|exact Hagain].
Defined.

(** X21.  PUT /api/users/alerts/:alertId, whatever the request and whatever
    the store does: the alerts of the requesting user are afterwards the
    same in number and order, each with its id, station, fuel type and
    [lastTriggered] as before, and each alert but those with the ObjectId
    that the [alertId] spells exactly as before; the other fields of the
    user and every other user are as they were. *)
Theorem put_alert_changes_one_alert (env : Env) (w : World) (userId : Id)
  (alertId : string) (c : UpdateAlertBody) (user : User.t) :
  findUser userId (users w) = Some user ->
  let w' := snd (putAlert env userId alertId c w) in
  (exists user',
     findUser userId (users w') = Some user'
     /\ Forall2 (fun a a' =>
                   retargeted a a'
                   /\ (castObjectId alertId <> Some (Alert._id a) -> a' = a))
                (User.priceAlerts user) (User.priceAlerts user')
     /\ User.with_priceAlerts user' (User.priceAlerts user) = user)
  /\ (forall i, i <> userId -> findUser i (users w') = findUser i (users w)).
Proof.
  intros Hu w'. subst w'.
  pose proof (putAlert_outcome env userId alertId c w) as O. cbv zeta in O.
  destruct O as (_ & [(E & _)|O]).
  - rewrite E. split; [|reflexivity].
    exists user. split; [exact Hu|]. split; [|apply with_priceAlerts_same].
    induction (User.priceAlerts user); constructor; auto.
    split; [|reflexivity]. unfold retargeted. auto.
  - destruct O as (user0 & alert & Hu0 & _ & Ha & _ & E).
    rewrite Hu in Hu0. inversion Hu0; subst user0. rewrite E.
    apply alertById_some in Ha. destruct Ha as [Hc _]. split.
    + eexists. split; [apply (findUser_saved _ _ user); [exact Hu|reflexivity]|].
      simpl. split; [|destruct user; reflexivity].
      eapply Forall2_impl; [|apply updateFirst_retargeted].
      intros a a' (Hr & Hsame). split; [exact Hr|].
      intros Hne. apply Hsame. intros Eid. apply Hne.
      rewrite Hc, Eid. reflexivity.
    + intros i Hi. rewrite findUser_replaceUser. simpl.
      rewrite (findUser_id _ _ _ Hu).
      destruct (String.eqb userId i) eqn:Ei; [|reflexivity].
      apply String.eqb_eq in Ei. congruence.
Qed.

Lemma put_alert_changes_one_alert_witness :
  let w' := snd (putAlert quietEnv (User._id (dana (Some 2000%Z)))
                   dieselAlertUpperCase
                   (mkUpdateAlertBody (Valid 6.00) (Valid false))
                   (alertWorld 6.20 (Some 2000%Z))) in
  exists user',
    findUser (User._id (dana (Some 2000%Z))) (users w') = Some user'
    /\ Forall2 (fun a a' =>
                  retargeted a a'
                  /\ (castObjectId dieselAlertUpperCase <> Some (Alert._id a) ->
                      a' = a))
               (User.priceAlerts (dana (Some 2000%Z))) (User.priceAlerts user').
Proof.
  destruct (put_alert_changes_one_alert quietEnv (alertWorld 6.20 (Some 2000%Z))
              (User._id (dana (Some 2000%Z))) dieselAlertUpperCase
              (mkUpdateAlertBody (Valid 6.00) (Valid false))
              (dana (Some 2000%Z)))
    as ((user' & Hf & Hall & _) & _).
  - reflexivity.
  - exists user'. split; [exact Hf|exact Hall].
Defined.

(** ** The routes: a user's favorite stations *)

Lemma includes_In (stationId : string) (l : list Id) :
  existsb (String.eqb stationId) l = true <-> In stationId l.
Proof.
  rewrite existsb_exists. split.
  - intros (x & Hx & E). apply String.eqb_eq in E. subst x. exact Hx.
  - intros H. exists stationId. split; [exact H|apply String.eqb_refl].
Qed.

Lemma includes_not_In (stationId : string) (l : list Id) :
  existsb (String.eqb stationId) l = false <-> ~ In stationId l.
Proof.
  rewrite <- includes_In. destruct (existsb (String.eqb stationId) l);
    split; congruence.
Qed.

(** X22.  POST /api/users/favorites, when the id is well formed, the station
    it spells and the user exist and the store answers: a request whose
    string is among the stored favorites is refused with 400 and nothing is
    stored; any other has the ObjectId it spells appended to the stored
    favorites, and the answer is 200 with the new list.  (A request that
    spells in upper case an id that is among the favorites is of the second
    kind.) *)
Theorem post_favorite_adds_once (env : Env) (w : World) (userId : Id)
  (stationId : string) (user : User.t) (oid : Id) :
  (forall k, storeFails env k = false) ->
  isMongoId stationId = true ->
  castObjectId stationId = Some oid ->
  findStation oid (stations w) <> None ->
  findUser userId (users w) = Some user ->
  let r := postFavorite env userId stationId w in
  (In stationId (User.favoriteStations user) ->
   fst r = Ok (mkResponse 400 (BMessage "Station already in favorites"))
   /\ users (snd r) = users w)
  /\ (~ In stationId (User.favoriteStations user) ->
      fst r = Ok (json (BFavorites "Station added to favorites"
                          (User.favoriteStations user ++ [oid])))
      /\ findUser userId (users (snd r))
         = Some (User.with_favoriteStations user
                   (User.favoriteStations user ++ [oid]))).
Proof.
  intros Hup Hid Hc Hst Hu r. subst r.
  destruct (findStation oid (stations w)) as [st|] eqn:Hs; [|congruence].
  unfold postFavorite, validationErrors. simpl. rewrite Hid. simpl.
  run_up Hup. rewrite Hc. simpl. rewrite Hup. simpl. rewrite Hs. simpl.
  rewrite Hup. simpl. rewrite Hu. simpl.
  split.
  - intros Hin. apply includes_In in Hin. rewrite Hin. simpl.
    split; reflexivity.
  - intros Hout. apply includes_not_In in Hout. rewrite Hout. simpl.
    rewrite Hup. simpl. split; [reflexivity|].
    apply (findUser_saved _ _ user); [exact Hu|reflexivity].
Qed.

Lemma post_favorite_adds_once_witness :
  let sonol := Station._id (sonolJerusalem 6.20) in
  let r := postFavorite quietEnv (User._id (dana None)) sonolUpperCase
             (alertWorld 6.20 None) in
  fst r = Ok (json (BFavorites "Station added to favorites" [sonol]))
  /\ option_map User.favoriteStations
       (findUser (User._id (dana None)) (users (snd r))) = Some [sonol].
Proof.
  destruct (post_favorite_adds_once quietEnv (alertWorld 6.20 None)
              (User._id (dana None)) sonolUpperCase
              (dana None) (Station._id (sonolJerusalem 6.20))) as (_ & Hadd).
  - intros k. reflexivity.
  - reflexivity.
  - reflexivity.
  - discriminate.
  - reflexivity.
  - destruct Hadd as (Hr & Hf); [intros []|].
    cbv zeta. rewrite Hr, Hf. split; reflexivity.
Defined.

(** X23.  If no stored user has a station twice among the favorites, none
    has after DELETE /api/users/favorites/:stationId, whatever the request
    and whatever the store does, and none has after POST
    /api/users/favorites when the request spells the station id as
    ObjectIds are stored.  A POST that spells it otherwise can break this:
    a station added under its id and then under the same id in upper case
    is stored twice. *)
Theorem favorites_stay_distinct (env : Env) (w : World) (userId : Id)
  (stationId : string) :
  allUsers distinctFavorites w ->
  ((forall oid, castObjectId stationId = Some oid -> oid = stationId) ->
   allUsers distinctFavorites (snd (postFavorite env userId stationId w)))
  /\ allUsers distinctFavorites (snd (deleteFavorite env userId stationId w))
  /\ (let dana := User._id (dana None) in
      let w1 := snd (postFavorite quietEnv dana
                       (Station._id (sonolJerusalem 6.20))
                       (alertWorld 6.20 None)) in
      let w2 := snd (postFavorite quietEnv dana sonolUpperCase w1) in
      allUsers distinctFavorites w1 /\ ~ allUsers distinctFavorites w2).
Proof.
  unfold allUsers. intros H.
  assert (Hin : forall user, findUser userId (users w) = Some user ->
                             distinctFavorites user).
  { intros user Hu. rewrite Forall_forall in H. apply H.
    apply (findUser_In _ _ _ Hu). }
  split; [|split].
  - intros Hspell.
    pose proof (postFavorite_outcome env userId stationId w) as O.
    cbv zeta in O.
    destruct O as (_ & [(E & _)|O]); [rewrite E; exact H|].
    destruct O as (user & oid & Hu & _ & Hc & _ & Hnew & _ & E).
    rewrite E. apply replaceUser_allUsers; [|exact H].
    unfold distinctFavorites. simpl.
    apply distinct_snoc; [apply (Hin user Hu)|].
    rewrite (Hspell oid Hc). apply includes_not_In, Hnew.
  - pose proof (deleteFavorite_outcome env userId stationId w) as O.
    cbv zeta in O.
    destruct O as (_ & [(E & _)|O]); [rewrite E; exact H|].
    destruct O as (user & Hu & _ & E).
    rewrite E. apply replaceUser_allUsers; [|exact H].
    unfold distinctFavorites. simpl. apply NoDup_filter, (Hin user Hu).
  - cbv zeta. split.
    + match goal with
      | |- Forall _ (users ?w1) =>
        assert (E : map User.favoriteStations (users w1)
                    = [[Station._id (sonolJerusalem 6.20)]])
          by (vm_compute; reflexivity);
        destruct (users w1) as [|u1 [|u2 rest]]; try discriminate E
      end.
      simpl in E. inversion E as [Ef].
      constructor; [|constructor]. unfold distinctFavorites. rewrite Ef.
      constructor; [intros []|constructor].
    + match goal with
      | |- ~ Forall _ (users ?w2) =>
        assert (E : map User.favoriteStations (users w2)
                    = [[Station._id (sonolJerusalem 6.20);
                        Station._id (sonolJerusalem 6.20)]])
          by (vm_compute; reflexivity);
        destruct (users w2) as [|u1 rest]; [discriminate E|]
      end.
      intros Hall. inversion Hall as [|? ? Hnd _]; subst.
      unfold distinctFavorites in Hnd. simpl in E. inversion E as [[Ef Er]].
      rewrite Ef in Hnd. inversion Hnd as [|? ? Hout _]; subst.
      apply Hout. left. reflexivity.
Qed.

Lemma favorites_stay_distinct_witness :
  let w := alertWorld 6.20 None in
  let sonol := Station._id (sonolJerusalem 6.20) in
  allUsers distinctFavorites
    (snd (postFavorite quietEnv (User._id (dana None)) sonol w))
  /\ allUsers distinctFavorites
       (snd (deleteFavorite quietEnv (User._id (dana None)) sonol w)).
Proof.
  destruct (favorites_stay_distinct quietEnv (alertWorld 6.20 None)
              (User._id (dana None)) (Station._id (sonolJerusalem 6.20)))
    as (Hpost & Hdel & _).
  - constructor; [|constructor]. constructor.
  - split; [|exact Hdel].
    apply Hpost. intros oid Hc. inversion Hc. reflexivity.
Defined.

(** X24.  Adding a station that is not among the user's favorites, under
    its id as ObjectIds are stored, and then removing it under the same
    string gives the stored user back as it was, when the store answers
    both requests.  Under the id in upper case the removal removes nothing:
    the comparison of DELETE is with the string as sent, and the station
    stays among the favorites. *)
Theorem favorite_round_trip (env : Env) (w : World) (userId : Id)
  (stationId : string) (user : User.t) :
  (forall k, storeFails env k = false) ->
  castObjectId stationId = Some stationId ->
  findStation stationId (stations w) <> None ->
  findUser userId (users w) = Some user ->
  ~ In stationId (User.favoriteStations user) ->
  (let w1 := snd (postFavorite env userId stationId w) in
   let w2 := snd (deleteFavorite env userId stationId w1) in
   findUser userId (users w2) = Some user /\ stations w2 = stations w)
  /\ (let dana := User._id (dana None) in
      let w1 := snd (postFavorite quietEnv dana sonolUpperCase
                       (alertWorld 6.20 None)) in
      let w2 := snd (deleteFavorite quietEnv dana sonolUpperCase w1) in
      option_map User.favoriteStations (findUser dana (users w2))
      = Some [Station._id (sonolJerusalem 6.20)]).
Proof.
  intros Hup Hc Hst Hu Hout. split; [|vm_compute; reflexivity].
  intros w1 w2.
  pose proof (castObjectId_isMongoId _ _ Hc) as Hid.
  remember (User.with_favoriteStations user
              (User.favoriteStations user ++ [stationId])) as user1 eqn:E1.
  assert (Ew1 : w1 = with_users (tickStore (tickStore (tickStore w)))
                       (replaceUser user1 (users w))).
  { subst w1 user1.
    destruct (findStation stationId (stations w)) as [st|] eqn:Hs; [|congruence].
    apply includes_not_In in Hout.
    unfold postFavorite, validationErrors. simpl. rewrite Hid. simpl.
    run_up Hup. rewrite Hc. simpl. rewrite Hup. simpl. rewrite Hs. simpl.
    rewrite Hup. simpl. rewrite Hu. simpl.
    rewrite Hout. simpl. rewrite Hup. reflexivity. }
  assert (Hu1 : findUser userId (replaceUser user1 (users w)) = Some user1).
  { apply (findUser_saved _ _ user); [exact Hu|subst user1; reflexivity]. }
  assert (Eback : User.with_favoriteStations user1
                    (filter (fun id => negb (String.eqb id stationId))
                            (User.favoriteStations user1)) = user).
  { subst user1. simpl. rewrite filter_app. simpl.
    rewrite String.eqb_refl. simpl. rewrite app_nil_r.
    rewrite filter_all.
    - destruct user; reflexivity.
    - intros x Hx. apply negb_true_iff, String.eqb_neq.
      intros Ex. subst x. exact (Hout Hx). }
  subst w2. rewrite Ew1. unfold deleteFavorite. run_up Hup.
  rewrite Hu1. simpl. rewrite Hup. simpl. rewrite Eback.
  split; [|reflexivity].
  apply (findUser_saved _ _ user1); [exact Hu1|subst user1; reflexivity].
Qed.

Lemma favorite_round_trip_witness :
  let sonol := Station._id (sonolJerusalem 6.20) in
  let w := alertWorld 6.20 None in
  let w1 := snd (postFavorite quietEnv (User._id (dana None)) sonol w) in
  let w2 := snd (deleteFavorite quietEnv (User._id (dana None)) sonol w1) in
  findUser (User._id (dana None)) (users w2) = Some (dana None)
  /\ stations w2 = stations w.
Proof.
  apply (favorite_round_trip quietEnv (alertWorld 6.20 None)
           (User._id (dana None)) (Station._id (sonolJerusalem 6.20))
           (dana None)).
  - intros k. reflexivity.
  - reflexivity.
  - discriminate.
  - reflexivity.
  - intros [].
Defined.

(** ** The routes: updating a station *)

(** Looking a station up after a save. *)
Lemma findStation_replaceStation i n l :
  findStation i (replaceStation n l)
  = if String.eqb (Station._id n) i
    then match findStation i l with Some _ => Some n | None => None end
    else findStation i l.
Proof.
  unfold findStation, replaceStation. induction l as [|x l IH]; simpl.
  - destruct (String.eqb (Station._id n) i); reflexivity.
  - destruct (String.eqb (Station._id x) (Station._id n)) eqn:E.
    + apply String.eqb_eq in E. rewrite E.
      destruct (String.eqb (Station._id n) i) eqn:En; [reflexivity|].
      exact IH.
    + destruct (String.eqb (Station._id x) i) eqn:Ex.
      * destruct (String.eqb (Station._id n) i) eqn:En; [|reflexivity].
        apply String.eqb_eq in Ex, En. apply String.eqb_neq in E.
        congruence.
      * exact IH.
Qed.

(** X25.  PUT /api/stations/:id, whatever the request and whatever the store
    does, leaves the users, the ids of the stored stations and every station
    but the one with the ObjectId that the id spells as they were; that
    station keeps its name, address and active flag, and each of its fuel
    entries is as before or holds a truthy price that the body supplies
    under that fuel's key. *)
Theorem put_station_scope (env : Env) (w : World) (id : string)
  (entries : list (string * option Q)) :
  let w' := snd (putStation env id (Some entries) w) in
  users w' = users w
  /\ map Station._id (stations w') = map Station._id (stations w)
  /\ (forall i, castObjectId id <> Some i ->
                findStation i (stations w') = findStation i (stations w))
  /\ (forall oid s,
        castObjectId id = Some oid ->
        findStation oid (stations w) = Some s ->
        exists s',
          findStation oid (stations w') = Some s'
          /\ identity s' = identity s
          /\ suppliedBy entries (Station.fuelTypes s) (Station.fuelTypes s')).
Proof.
  intros w'. subst w'.
  pose proof (putStation_outcome env id (Some entries) w) as O. cbv zeta in O.
  destruct O as (Hu & [(E & _)|O]).
  - rewrite E. split; [exact Hu|]. split; [reflexivity|].
    split; [reflexivity|]. intros oid s _ Hs. exists s. split; [exact Hs|].
    split; [reflexivity|]. intros f. left. reflexivity.
  - destruct O as (oid & station & ft & d & Hc & Hf & Hsup & _ & E).
    rewrite E. split; [exact Hu|]. split; [apply replaceStation_ids|].
    pose proof (findStation_id _ _ _ Hf) as Hid. split.
    + intros i Hi. rewrite findStation_replaceStation. simpl. rewrite Hid.
      destruct (String.eqb oid i) eqn:Ei; [|reflexivity].
      apply String.eqb_eq in Ei. congruence.
    + intros oid' s Hc' Hs. rewrite Hc in Hc'. inversion Hc'; subst oid'.
      rewrite Hf in Hs. inversion Hs; subst s.
      eexists. split; [apply (findStation_replace _ _ station);
                       [exact Hf|exact Hid]|].
      split; [reflexivity|exact Hsup].
Qed.

Lemma put_station_scope_witness :
  let w' := snd (putStation quietEnv teneUpperCase
                   (Some [("diesel", Some 5.00)]) twoStationWorld) in
  findStation (Station._id closedStation) (stations w') = Some closedStation
  /\ map Station._id (stations w') = map Station._id (stations twoStationWorld).
Proof.
  destruct (put_station_scope quietEnv twoStationWorld teneUpperCase
              [("diesel", Some 5.00)]) as (_ & Hids & Hother & _).
  split; [|exact Hids]. rewrite Hother; [reflexivity|discriminate].
Defined.




(** X27.  After PUT /api/stations/:id has answered 200, GET on the same id
    answers with the station document of the PUT response, when the store
    answers the query. *)
Theorem put_then_get (env : Env) (w : World) (id : string)
  (fuelTypes : FuelTypesBody) (s' : Station.t) (message : string) :
  fst (putStation env id fuelTypes w)
  = Ok (mkResponse 200 (BMessageStation message s')) ->
  storeFails env (nStore (snd (putStation env id fuelTypes w))) = false ->
  fst (getStation env id (snd (putStation env id fuelTypes w)))
  = Ok (json (BStation s')).
Proof.
  intros H200 Hup.
  pose proof (putStation_outcome env id fuelTypes w) as O. cbv zeta in O.
  destruct O as (_ & [(_ & resp & Hr & Hst)|O]).
  - exfalso. rewrite Hr in H200. inversion H200; subst resp.
    simpl in Hst. intuition discriminate.
  - destruct O as (oid & station & ft & d & Hc & Hf & _ & Hr & E).
    rewrite Hr in H200. inversion H200; subst s'.
    unfold getStation. erewrite tryCatch_ok; [reflexivity|].
    erewrite bind_ok by (apply Station_findById_run; [exact Hc|exact Hup]).
    rewrite E.
    rewrite (findStation_replace _ _ station) by
      (first [exact Hf|apply (findStation_id _ _ _ Hf)]).
    reflexivity.
Qed.

Lemma put_then_get_witness :
  let w1 := snd (putStation quietEnv (Station._id teneNetanya)
                   (Some [("diesel", Some 6.40)]) oneStationWorld) in
  exists s',
    fst (getStation quietEnv (Station._id teneNetanya) w1)
    = Ok (json (BStation s'))
    /\ price (getFuel (Station.fuelTypes s') Diesel) = Some 6.40.
Proof.
  eexists. split.
  - apply (put_then_get quietEnv oneStationWorld (Station._id teneNetanya)
             (Some [("diesel", Some 6.40)]) _
             "Station updated successfully").
    + reflexivity.
    + reflexivity.
  - reflexivity.
Defined.
